(** * ServerGUI: the process supervisor and the plugin installer of [main.py]

    A shallow embedding of the methods of [MinecraftServerGUI] that carry the
    program's logic (starting, commanding and stopping the server process,
    searching and installing plugins, saving and loading the configuration),
    followed by the theorems about them.

    Conventions of the embedding.
    - A Python [str] is a [string]; every [ascii] stands for the code point of
      the same number (the code points below 256).
    - A method of the GUI object is a computation in the monad [M]: it reads
      and updates the fields of [self] (the record [gui]), may raise a Python
      exception, and appends to a trace of [event]s everything it does to the
      outside: dialogs, console lines, threads started, HTTP requests, files
      written.
    - What the operating system, the file system and the catalog answer is
      given by a [world]. *)

From Stdlib Require Import String Ascii List Bool Arith Lia.
From stdpp Require Import base option list gmap strings sorting.
Import ListNotations.

Local Open Scope list_scope.

(** ** Python strings *)

Module PyStr.

(** [str.isspace] on one character: the white-space code points below 256
    (TAB..CR, FS..US, SPACE, NEL, NBSP). *)
Definition isspace (c : ascii) : bool :=
  let n := nat_of_ascii c in
  ((9 <=? n) && (n <=? 13)) || ((28 <=? n) && (n <=? 32))
  || (n =? 133) || (n =? 160).

Fixpoint lstrip (s : string) : string :=
  match s with
  | EmptyString => EmptyString
  | String c rest => if isspace c then lstrip rest else s
  end.

Fixpoint rstrip (s : string) : string :=
  match s with
  | EmptyString => EmptyString
  | String c rest =>
      match rstrip rest with
      | EmptyString => if isspace c then EmptyString else String c EmptyString
      | kept => String c kept
      end
  end.

(** [s.strip()] *)
Definition strip (s : string) : string := lstrip (rstrip s).

(** [str.lower] on one character: A..Z and the upper-case letters of
    Latin-1 (all of 192..222 but the multiplication sign 215). *)
Definition lower_char (c : ascii) : ascii :=
  let n := nat_of_ascii c in
  if ((65 <=? n) && (n <=? 90))
     || ((192 <=? n) && (n <=? 222) && negb (n =? 215))
  then ascii_of_nat (n + 32) else c.

Fixpoint lower (s : string) : string :=
  match s with
  | EmptyString => EmptyString
  | String c rest => String (lower_char c) (lower rest)
  end.

(** Truth value of a string: [not s] is [negb (truthy s)]. *)
Definition truthy (s : string) : bool :=
  match s with EmptyString => false | String _ _ => true end.

(** [x in xs] for a string [x] and a list of strings [xs]. *)
Definition contains (xs : list string) (x : string) : bool :=
  existsb (String.eqb x) xs.

Definition all_space (s : string) : Prop :=
  forall c, In c (list_ascii_of_string s) -> isspace c = true.

Definition startswith (c : ascii) (s : string) : bool :=
  match s with
  | String c' _ => Ascii.eqb c c'
  | EmptyString => false
  end.

Fixpoint endswith (c : ascii) (s : string) : bool :=
  match s with
  | EmptyString => false
  | String c' EmptyString => Ascii.eqb c c'
  | String _ rest => endswith c rest
  end.

End PyStr.

(** ** [os.path], POSIX flavour *)

Module OsPath.

Definition sep : ascii := "/"%char.

(** [os.path.isabs] *)
Definition isabs (p : string) : bool := PyStr.startswith sep p.

(** [os.path.join a b] *)
Definition join (a b : string) : string :=
  if PyStr.startswith sep b then b
  else if negb (PyStr.truthy a) || PyStr.endswith sep a then a +:+ b
  else a +:+ String sep b.

End OsPath.

(** ** [pathlib], POSIX flavour *)

Module PathLib.

(** [s.split(sep)] *)
Fixpoint split (sep : ascii) (s : string) : list string :=
  match s with
  | EmptyString => [EmptyString]
  | String c rest =>
      if Ascii.eqb c sep then EmptyString :: split sep rest
      else match split sep rest with
           | [] => [String c EmptyString]
           | piece :: pieces => String c piece :: pieces
           end
  end.

(** A path as [pathlib] keeps it: the root and the names below it. *)
Record path : Type := Path { root : string; parts : list string }.

Definition is_name (piece : string) : bool :=
  negb (String.eqb piece "") && negb (String.eqb piece ".").

(** Two leading slashes, and no third one, are kept as the root ["//"]. *)
Definition parse_root (s : string) : string :=
  match s with
  | String "/" (String "/" (String "/" _)) => "/"
  | String "/" (String "/" _) => "//"
  | String "/" _ => "/"
  | _ => ""
  end.

(** [Path(s)]: empty names and ["."] are dropped. *)
Definition parse (s : string) : path :=
  {| root := parse_root s; parts := List.filter is_name (split OsPath.sep s) |}.

(** [p / name]: a [name] with a root replaces [p]. *)
Definition div (p : path) (name : string) : path :=
  let q := parse name in
  if PyStr.truthy (root q) then q
  else {| root := root p; parts := parts p ++ parts q |}.

(** [p / name] is the entry called [name] of the directory [p]. *)
Definition entry_of (p : path) (name : string) (q : path) : Prop :=
  root q = root p /\ parts q = parts p ++ [name].

(** A single name: no separator in it, and not one that [parse] drops. *)
Definition plain_name (name : string) : bool :=
  is_name name && forallb (fun c => negb (Ascii.eqb c OsPath.sep)) (list_ascii_of_string name).

End PathLib.

(** ** The catalog's answers *)

(** An entry of [files] of a version. An absent key is [None]. *)
Record file_data : Type := FileData {
  fd_url : option string;
  fd_filename : option string
}.

(** An entry of the version list of a project. An absent key is [None];
    [v_other_keys] tells whether the object has keys besides the three the
    program reads. *)
Record version : Type := Version {
  v_game_versions : option (list string);
  v_loaders : option (list string);
  v_files : option (list file_data);
  v_other_keys : bool
}.

Definition has_key {A} (field : option A) : bool :=
  match field with Some _ => true | None => false end.

(** Truth value of the dict: it has a key. *)
Definition version_truthy (v : version) : bool :=
  has_key (v_game_versions v) || has_key (v_loaders v)
  || has_key (v_files v) || v_other_keys v.

(** A hit of a search. An absent key is [None]. *)
Record hit : Type := Hit {
  h_project_id : option string;
  h_title : option string;
  h_author : option string;
  h_downloads : option nat;
  h_latest_version : option string;
  h_game_versions : option (list string);
  h_slug : option string;
  h_description : option string
}.

(** ** Exceptions, events and the state of the GUI object *)

(** The Python exceptions the modelled calls raise. All of them derive from
    [Exception]; only [TimeoutExpired] is [subprocess.TimeoutExpired]. *)
Inductive exn : Type :=
| TimeoutExpired
| RequestException (what : string)
| OSError (what : string)
| ValueError (what : string)
| AttributeError.

(** The process behind [self.server_process]: the two ends of its standard
    input ([write] fills [buffered], [flush] moves it to [delivered], what the
    child can read), and what the operating system will answer to the calls
    made on it. *)
Record popen : Type := Popen {
  has_stdin : bool;                (* [self.server_process.stdin] is not None *)
  buffered : string;
  delivered : string;
  pipe_error : option exn;         (* raised by [write] and [flush] *)
  exit_after : option nat;         (* time until the child exits by itself *)
  terminate_error : option exn;    (* raised by [terminate()] *)
  terminated : bool                (* [terminate()] has signalled the child *)
}.

(** One entry of [self.plugins_data]. *)
Record plugin_data : Type := PluginData {
  pd_title : string;
  pd_project_id : string;
  pd_slug : string;
  pd_description : string;
  pd_compatible : bool;
  pd_game_versions : list string
}.

(** What [server_config.json] holds. [json.dump] writes a record of strings
    and [json.load] reads the same record back; the file is kept as the
    record it holds. *)
Inductive config_file : Type :=
| NoFile
| NotARecord                               (* not JSON, or not a JSON object *)
| ConfigRecord (fields : gmap string string).

Record gui : Type := Gui {
  server_running : bool;
  server_process : option popen;
  server_jar : string;
  server_memory : string;
  server_dir : string;
  plugins_dir : string;
  server_type : string;
  server_version : string;
  command_entry : string;
  search_entry : string;
  plugins_data : gmap string plugin_data;
  config_json : config_file
}.

(** Background threads the methods start. *)
Inductive thread : Type :=
| RunServerProcess (cmd : list string)
| SearchPluginsThread (query : string)
| InstallPluginThread (data : plugin_data).

(** [messagebox] dialogs, named after the failure they report. *)
Inductive dialog : Type :=
| AlreadyRunning                 (* "Server is already running!" *)
| NotFound (jar_path : string)   (* "Server JAR not found: ..." *)
| NotRunning                     (* "Server is not running!" *)
| StopFailed (e : exn)           (* "Failed to stop server: ..." *)
| EmptyQuery                     (* "Please enter a search query!" *)
| NoResults                      (* "No plugins found matching your search." *)
| SearchFailed (e : exn)         (* "Failed to search plugins: ..." *)
| UnexpectedError (e : exn)      (* "Unexpected error: ..." *)
| NoVersionsAvailable            (* "No versions available for this plugin!" *)
| NoDownloadableFile             (* "No downloadable files found!" *)
| DownloadFailed (e : exn)       (* "Failed to download plugin: ..." *)
| Installed (title : string) (output_path : PathLib.path)
| ConfigSaved
| ConfigSaveFailed (e : exn).

(** Lines written by [log_to_console]. *)
Inductive console_line : Type :=
| StartingServer (cmd : list string)
| Separator
| SendingStop
| NotGraceful
| ErrorStopping (e : exn)
| Echo (command : string)
| ErrorSending (e : exn)
| Searching (query server_type server_version : string)
| Found (hits compatible : nat) (server_version : string)
| SearchError (e : exn)
| InstallingPlugin (title : string)
| TryingLatest (server_version : string)
| UsingLatest (supports : list string)
| FoundCompatible (supports : list string)
| Downloading (filename : string)
| InstalledTo (title : string) (output_path : PathLib.path)
| InstallError (e : exn)
| ErrorLine (e : exn)
| ConfigWarning (e : exn).

Record request : Type := Request {
  url : option string;
  params : list (string * string);
  timeout : nat
}.

(** One row of the results tree. *)
Inductive mark : Type := Warning | Check | NoMark.

Record tree_row : Type := TreeRow {
  iid : string;
  display_title : mark * string;
  row_author : string;
  row_downloads : nat;
  row_latest_version : string
}.

Inductive event : Type :=
| Show (d : dialog)
| Log (l : console_line)
| Start (t : thread)
| UpdateServerStatus (running : bool)
| Get (r : request)
| ClearTree
| InsertRow (r : tree_row)
| Mkdir (dir : PathLib.path)
| WriteFile (target : PathLib.path) (content : string)
| RefreshInstalledPlugins.

Inductive response (A : Type) : Type :=
| Ok (body : A)
| Failed (what : string).     (* no answer, or a status [raise_for_status] refuses *)
Arguments Ok {A} body.
Arguments Failed {A} what.

(** What is outside the program. *)
Record world : Type := World {
  path_exists : string -> bool;                        (* [os.path.exists] *)
  getcwd : string;                                     (* [os.getcwd()] *)
  open_config_error : option exn;                      (* raised by [open(.., "w")] *)
  mkdir_error : PathLib.path -> option exn;            (* raised by [mkdir] *)
  open_error : PathLib.path -> option exn;             (* raised by [open(.., 'wb')] *)
  search_endpoint : request -> response (option (list hit));   (* the ["hits"] of the body *)
  version_endpoint : request -> response (list version);
  download_endpoint : request -> response string
}.

(** ** The monad of the methods *)

Inductive result (A : Type) : Type :=
| Returned (a : A)
| Raised (e : exn).
Arguments Returned {A} a.
Arguments Raised {A} e.

Definition M (A : Type) : Type := gui -> result A * gui * list event.

#[global] Instance M_ret : MRet M := fun A a s => (Returned a, s, []).

#[global] Instance M_bind : MBind M := fun A B f m s =>
  match m s with
  | (Returned a, s1, t1) =>
      match f a s1 with (r, s2, t2) => (r, s2, t1 ++ t2) end
  | (Raised e, s1, t1) => (Raised e, s1, t1)
  end.

Definition get_self : M gui := fun s => (Returned s, s, []).
Definition set_self (f : gui -> gui) : M unit := fun s => (Returned tt, f s, []).
Definition emit (e : event) : M unit := fun s => (Returned tt, s, [e]).
Definition raise {A} (e : exn) : M A := fun s => (Raised e, s, []).
Definition pass : M unit := mret tt.

(** One [except] clause: the exceptions it matches, and its body. *)
Definition handler (A : Type) : Type := exn -> option (M A).

Fixpoint find_handler {A} (hs : list (handler A)) (e : exn) : option (M A) :=
  match hs with
  | [] => None
  | h :: rest => match h e with Some body => Some body | None => find_handler rest e end
  end.

(** [try: body  except ...: ...]. The first clause that matches the exception
    runs; an exception raised by its body leaves the statement. *)
Definition try_except {A} (body : M A) (hs : list (handler A)) : M A := fun s =>
  match body s with
  | (Returned a, s1, t1) => (Returned a, s1, t1)
  | (Raised e, s1, t1) =>
      match find_handler hs e with
      | Some h => match h s1 with (r, s2, t2) => (r, s2, t1 ++ t2) end
      | None => (Raised e, s1, t1)
      end
  end.

(** [except subprocess.TimeoutExpired:] *)
Definition except_TimeoutExpired {A} (body : M A) : handler A := fun e =>
  match e with TimeoutExpired => Some body | _ => None end.

(** [except requests.exceptions.RequestException as e:] *)
Definition except_RequestException {A} (body : exn -> M A) : handler A := fun e =>
  match e with RequestException _ => Some (body e) | _ => None end.

(** [except Exception as e:] *)
Definition except_Exception {A} (body : exn -> M A) : handler A := fun e =>
  Some (body e).

Definition final_state {A} (x : result A * gui * list event) : gui := x.1.2.
Definition trace {A} (x : result A * gui * list event) : list event := x.2.
Definition outcome {A} (x : result A * gui * list event) : result A := x.1.1.

(** ** Assignments to the fields of [self] *)

Definition set_server_running (b : bool) (s : gui) : gui :=
  {| server_running := b; server_process := server_process s;
     server_jar := server_jar s; server_memory := server_memory s;
     server_dir := server_dir s; plugins_dir := plugins_dir s;
     server_type := server_type s; server_version := server_version s;
     command_entry := command_entry s; search_entry := search_entry s;
     plugins_data := plugins_data s; config_json := config_json s |}.

Definition set_server_process (p : option popen) (s : gui) : gui :=
  {| server_running := server_running s; server_process := p;
     server_jar := server_jar s; server_memory := server_memory s;
     server_dir := server_dir s; plugins_dir := plugins_dir s;
     server_type := server_type s; server_version := server_version s;
     command_entry := command_entry s; search_entry := search_entry s;
     plugins_data := plugins_data s; config_json := config_json s |}.

Definition set_command_entry (text : string) (s : gui) : gui :=
  {| server_running := server_running s; server_process := server_process s;
     server_jar := server_jar s; server_memory := server_memory s;
     server_dir := server_dir s; plugins_dir := plugins_dir s;
     server_type := server_type s; server_version := server_version s;
     command_entry := text; search_entry := search_entry s;
     plugins_data := plugins_data s; config_json := config_json s |}.

Definition set_search_entry (text : string) (s : gui) : gui :=
  {| server_running := server_running s; server_process := server_process s;
     server_jar := server_jar s; server_memory := server_memory s;
     server_dir := server_dir s; plugins_dir := plugins_dir s;
     server_type := server_type s; server_version := server_version s;
     command_entry := command_entry s; search_entry := text;
     plugins_data := plugins_data s; config_json := config_json s |}.

Definition set_plugins_data (d : gmap string plugin_data) (s : gui) : gui :=
  {| server_running := server_running s; server_process := server_process s;
     server_jar := server_jar s; server_memory := server_memory s;
     server_dir := server_dir s; plugins_dir := plugins_dir s;
     server_type := server_type s; server_version := server_version s;
     command_entry := command_entry s; search_entry := search_entry s;
     plugins_data := d; config_json := config_json s |}.

Definition set_config_json (f : config_file) (s : gui) : gui :=
  {| server_running := server_running s; server_process := server_process s;
     server_jar := server_jar s; server_memory := server_memory s;
     server_dir := server_dir s; plugins_dir := plugins_dir s;
     server_type := server_type s; server_version := server_version s;
     command_entry := command_entry s; search_entry := search_entry s;
     plugins_data := plugins_data s; config_json := f |}.

Definition set_server_jar (v : string) (s : gui) : gui :=
  {| server_running := server_running s; server_process := server_process s;
     server_jar := v; server_memory := server_memory s;
     server_dir := server_dir s; plugins_dir := plugins_dir s;
     server_type := server_type s; server_version := server_version s;
     command_entry := command_entry s; search_entry := search_entry s;
     plugins_data := plugins_data s; config_json := config_json s |}.

Definition set_server_memory (v : string) (s : gui) : gui :=
  {| server_running := server_running s; server_process := server_process s;
     server_jar := server_jar s; server_memory := v;
     server_dir := server_dir s; plugins_dir := plugins_dir s;
     server_type := server_type s; server_version := server_version s;
     command_entry := command_entry s; search_entry := search_entry s;
     plugins_data := plugins_data s; config_json := config_json s |}.

Definition set_server_dir (v : string) (s : gui) : gui :=
  {| server_running := server_running s; server_process := server_process s;
     server_jar := server_jar s; server_memory := server_memory s;
     server_dir := v; plugins_dir := plugins_dir s;
     server_type := server_type s; server_version := server_version s;
     command_entry := command_entry s; search_entry := search_entry s;
     plugins_data := plugins_data s; config_json := config_json s |}.

Definition set_plugins_dir (v : string) (s : gui) : gui :=
  {| server_running := server_running s; server_process := server_process s;
     server_jar := server_jar s; server_memory := server_memory s;
     server_dir := server_dir s; plugins_dir := v;
     server_type := server_type s; server_version := server_version s;
     command_entry := command_entry s; search_entry := search_entry s;
     plugins_data := plugins_data s; config_json := config_json s |}.

Definition set_server_type (v : string) (s : gui) : gui :=
  {| server_running := server_running s; server_process := server_process s;
     server_jar := server_jar s; server_memory := server_memory s;
     server_dir := server_dir s; plugins_dir := plugins_dir s;
     server_type := v; server_version := server_version s;
     command_entry := command_entry s; search_entry := search_entry s;
     plugins_data := plugins_data s; config_json := config_json s |}.

Definition set_server_version (v : string) (s : gui) : gui :=
  {| server_running := server_running s; server_process := server_process s;
     server_jar := server_jar s; server_memory := server_memory s;
     server_dir := server_dir s; plugins_dir := plugins_dir s;
     server_type := server_type s; server_version := v;
     command_entry := command_entry s; search_entry := search_entry s;
     plugins_data := plugins_data s; config_json := config_json s |}.

(** ** The calls on [self.server_process] *)

Definition the_process : M popen :=
  s ← get_self;
  match server_process s with
  | Some p => mret p
  | None => raise AttributeError        (* an attribute of [None] *)
  end.

Definition put_process (p : popen) : M unit := set_self (set_server_process (Some p)).

(** [self.server_process.stdin.write(text)] *)
Definition stdin_write (text : string) : M unit :=
  p ← the_process;
  match pipe_error p with
  | Some e => raise e
  | None =>
      put_process {| has_stdin := has_stdin p; buffered := buffered p +:+ text;
                     delivered := delivered p; pipe_error := pipe_error p;
                     exit_after := exit_after p; terminate_error := terminate_error p;
                     terminated := terminated p |}
  end.

(** [self.server_process.stdin.flush()] *)
Definition stdin_flush : M unit :=
  p ← the_process;
  match pipe_error p with
  | Some e => raise e
  | None =>
      put_process {| has_stdin := has_stdin p; buffered := "";
                     delivered := delivered p +:+ buffered p; pipe_error := pipe_error p;
                     exit_after := exit_after p; terminate_error := terminate_error p;
                     terminated := terminated p |}
  end.

(** [self.server_process.wait(timeout=t)] *)
Definition process_wait (t : nat) : M unit :=
  p ← the_process;
  match exit_after p with
  | Some d => if d <=? t then pass else raise TimeoutExpired
  | None => raise TimeoutExpired
  end.

(** [self.server_process.terminate()] *)
Definition process_terminate : M unit :=
  p ← the_process;
  match terminate_error p with
  | Some e => raise e
  | None =>
      put_process {| has_stdin := has_stdin p; buffered := buffered p;
                     delivered := delivered p; pipe_error := pipe_error p;
                     exit_after := exit_after p; terminate_error := terminate_error p;
                     terminated := true |}
  end.

(** [self.server_process] is not [None]; a [Popen] object is always true. *)
Definition is_not_none {A} (x : option A) : bool :=
  match x with Some _ => true | None => false end.

Definition newline : string := String "010" "".

Definition log_to_console (l : console_line) : M unit := emit (Log l).
Definition messagebox (d : dialog) : M unit := emit (Show d).

(** ** The server supervisor *)

Section Supervisor.

Variable w : world.

(** The path [run_server] looks for: a relative [server_jar] is joined to
    [server_dir]. *)
Definition jar_path_of (s : gui) : string :=
  let jar_path := server_jar s in
  if negb (OsPath.isabs jar_path) then OsPath.join (server_dir s) jar_path
  else jar_path.

Definition run_server : M unit :=
  s ← get_self;
  if server_running s then
    messagebox AlreadyRunning
  else
    let jar_path := jar_path_of s in
    if negb (path_exists w jar_path) then
      messagebox (NotFound jar_path)
    else
      let memory := server_memory s in
      let java_cmd :=
        [ "java"; "-Xmx" +:+ memory +:+ "M"; "-Xms" +:+ memory +:+ "M";
          "-jar"; jar_path; "nogui" ] in
      log_to_console (StartingServer java_cmd);;
      log_to_console Separator;;
      emit (Start (RunServerProcess java_cmd));;
      set_self (set_server_running true);;
      emit (UpdateServerStatus true).

(** The grace period of [stop_server]. *)
Definition grace_period : nat := 30.

Definition stop_server : M unit :=
  s ← get_self;
  if negb (server_running s) || negb (is_not_none (server_process s)) then
    messagebox NotRunning
  else
    try_except
      (log_to_console SendingStop;;
       p ← the_process;
       (if has_stdin p then
          stdin_write ("stop" +:+ newline);;
          stdin_flush
        else pass);;
       process_wait grace_period)
      [ except_TimeoutExpired
          (log_to_console NotGraceful;;
           process_terminate);
        except_Exception (fun e =>
          log_to_console (ErrorStopping e);;
          messagebox (StopFailed e)) ].

Definition send_command : M unit :=
  s ← get_self;
  if negb (server_running s) || negb (is_not_none (server_process s)) then
    messagebox NotRunning
  else
    let command := PyStr.strip (command_entry s) in
    if negb (PyStr.truthy command) then
      pass
    else
      try_except
        (log_to_console (Echo command);;
         p ← the_process;
         (if has_stdin p then
            stdin_write (command +:+ newline);;
            stdin_flush
          else pass);;
         set_self (set_command_entry ""))
        [ except_Exception (fun e => log_to_console (ErrorSending e)) ].

End Supervisor.

(** ** The plugin installer *)

Definition dquote : string := String "034" "".

Definition search_url : string := "https://api.modrinth.com/v2/search".

Definition version_url (project_id : string) : string :=
  "https://api.modrinth.com/v2/project/" +:+ project_id +:+ "/version".

(** [json.dumps([["project_type:plugin"]])] *)
Definition facets : string :=
  "[[" +:+ dquote +:+ "project_type:plugin" +:+ dquote +:+ "]]".

Definition loader_map : list (string * string) :=
  [ ("paper", "paper"); ("spigot", "spigot"); ("bukkit", "bukkit");
    ("purpur", "purpur"); ("fabric", "fabric"); ("forge", "forge");
    ("vanilla", "bukkit") ]%string.

Fixpoint dict_get (d : list (string * string)) (key : string) : option string :=
  match d with
  | [] => None
  | (k, v) :: rest => if String.eqb k key then Some v else dict_get rest key
  end.

(** Truth value of a list: [not xs] is [negb (nonempty xs)]. *)
Definition nonempty {A} (xs : list A) : bool :=
  match xs with [] => false | _ :: _ => true end.

(** The [for version in versions] loop of [_install_plugin_thread]: the value
    of [best_version] when the loop ends ([None] for Python's [None]). *)
Fixpoint find_best_version (server_version server_type : string)
    (versions : list version) : option version :=
  match versions with
  | [] => None
  | version :: rest =>
      let version_game_versions := default [] (v_game_versions version) in
      let version_loaders := default [] (v_loaders version) in
      let version_matches :=
        negb (PyStr.truthy server_version)
        || PyStr.contains version_game_versions server_version in
      let loader_matches :=
        negb (PyStr.truthy server_type)
        || PyStr.contains version_loaders server_type
        || negb (nonempty version_loaders) in
      if version_matches then Some version
      else find_best_version server_version server_type rest
  end.

(** The flag [is_compatible] of [_search_plugins_thread]:
    [not server_version or server_version in game_versions or not game_versions]. *)
Definition is_compatible (server_version : string) (game_versions : list string) : bool :=
  negb (PyStr.truthy server_version)
  || PyStr.contains game_versions server_version
  || negb (nonempty game_versions).

(** The request of a search. *)
Definition search_request (query : string) : request :=
  {| url := Some search_url;
     params := [ ("query", query); ("facets", facets); ("limit", "20") ]%string;
     timeout := 10 |}.

Section Installer.

Variable w : world.

(** [requests.get(url, params=.., timeout=..)] followed by
    [raise_for_status()] and the reading of the body. A request without a
    URL is refused before anything is sent. *)
Definition requests_get {A} (endpoint : request -> response A) (r : request) : M A :=
  match url r with
  | None => raise (RequestException "MissingSchema")
  | Some _ =>
      emit (Get r);;
      match endpoint r with
      | Ok body => mret body
      | Failed what => raise (RequestException what)
      end
  end.

Definition search_plugins : M unit :=
  s ← get_self;
  let query := PyStr.strip (search_entry s) in
  if negb (PyStr.truthy query) then
    messagebox EmptyQuery
  else
    emit ClearTree;;
    set_self (set_plugins_data ∅);;
    emit (Start (SearchPluginsThread query)).

(** The [for hit in hits] loop of [_search_plugins_thread]; the result is
    [compatible_count]. *)
Fixpoint search_hits (server_version : string) (hits : list hit)
    (compatible_count : nat) : M nat :=
  match hits with
  | [] => mret compatible_count
  | hit :: rest =>
      let project_id := default "" (h_project_id hit) in
      let title := default "Unknown" (h_title hit) in
      let author := default "Unknown" (h_author hit) in
      let downloads := default 0 (h_downloads hit) in
      let latest_version := default "N/A" (h_latest_version hit) in
      let game_versions := default [] (h_game_versions hit) in
      let is_compatible := is_compatible server_version game_versions in
      s ← get_self;
      set_self (set_plugins_data
        (<[ project_id :=
             {| pd_title := title; pd_project_id := project_id;
                pd_slug := default "" (h_slug hit);
                pd_description := default "" (h_description hit);
                pd_compatible := is_compatible;
                pd_game_versions := game_versions |} ]> (plugins_data s)));;
      let '(display, compatible_count) :=
        if negb is_compatible && nonempty game_versions then
          ((Warning, title), compatible_count)
        else if is_compatible then
          ((Check, title), S compatible_count)
        else ((NoMark, title), compatible_count) in
      emit (InsertRow {| iid := project_id; display_title := display;
                         row_author := author; row_downloads := downloads;
                         row_latest_version := latest_version |});;
      search_hits server_version rest compatible_count
  end.

Definition _search_plugins_thread (query : string) : M unit :=
  try_except
    (s ← get_self;
     let server_type := PyStr.lower (server_type s) in
     let server_version := server_version s in
     log_to_console (Searching query server_type server_version);;
     let loader := default "paper" (dict_get loader_map server_type) in
     data ← requests_get (search_endpoint w) (search_request query);
     let hits := default [] data in
     if negb (nonempty hits) then
       messagebox NoResults
     else
       compatible_count ← search_hits server_version hits 0;
       log_to_console (Found (length hits) compatible_count server_version))
    [ except_RequestException (fun e =>
        messagebox (SearchFailed e);; log_to_console (SearchError e));
      except_Exception (fun e =>
        messagebox (UnexpectedError e);; log_to_console (ErrorLine e)) ].

(** The first part of [_install_plugin_thread]: the version list is fetched
    and [best_version] chosen. The result is [None] when the thread returns
    for want of versions; otherwise [best_version] and whether the loop
    found it ([true]) or it is [versions[0]] ([false]). *)
Definition resolve_version (project_id : string) : M (option (version * bool)) :=
  s ← get_self;
  let server_version := server_version s in
  let server_type := PyStr.lower (server_type s) in
  let url := version_url project_id in
  let params :=
    if PyStr.truthy server_version
    then [ ("game_versions", "[" +:+ dquote +:+ server_version +:+ dquote +:+ "]") ]%string
    else [] in
  versions ← requests_get (version_endpoint w)
               {| url := Some url; params := params; timeout := 10 |};
  versions ←
    (if negb (nonempty versions) && PyStr.truthy server_version then
       log_to_console (TryingLatest server_version);;
       requests_get (version_endpoint w)
         {| url := Some (version_url project_id); params := []; timeout := 10 |}
     else mret versions);
  match versions with
  | [] => messagebox NoVersionsAvailable;; mret None
  | first :: _ =>
      let best_version := find_best_version server_version server_type versions in
      match best_version with
      | Some found =>
          if negb (version_truthy found) then
            let version_info := default [] (v_game_versions first) in
            log_to_console (UsingLatest (take 3 version_info));;
            mret (Some (first, false))
          else
            let version_info := default [] (v_game_versions found) in
            log_to_console (FoundCompatible (take 3 version_info));;
            mret (Some (found, true))
      | None =>
          let version_info := default [] (v_game_versions first) in
          log_to_console (UsingLatest (take 3 version_info));;
          mret (Some (first, false))
      end
  end.

Definition mkdir (dir : PathLib.path) : M unit :=
  match mkdir_error w dir with
  | Some e => raise e
  | None => emit (Mkdir dir)
  end.

(** [with open(target, 'wb') as f: f.write(content)] *)
Definition write_bytes (target : PathLib.path) (content : string) : M unit :=
  match open_error w target with
  | Some e => raise e
  | None => emit (WriteFile target content)
  end.

(** The second part of [_install_plugin_thread]: the first file of
    [best_version] is fetched and written. *)
Definition download (title project_id : string) (best_version : version) : M unit :=
  let files := default [] (v_files best_version) in
  match files with
  | [] => messagebox NoDownloadableFile
  | file_data :: _ =>
      let download_url := fd_url file_data in
      let filename := default (project_id +:+ ".jar") (fd_filename file_data) in
      s ← get_self;
      let plugins_path := PathLib.parse (plugins_dir s) in
      mkdir plugins_path;;
      log_to_console (Downloading filename);;
      content ← requests_get (download_endpoint w)
                  {| url := download_url; params := []; timeout := 30 |};
      let output_path := PathLib.div plugins_path filename in
      write_bytes output_path content;;
      log_to_console (InstalledTo title output_path);;
      messagebox (Installed title output_path);;
      emit RefreshInstalledPlugins
  end.

Definition _install_plugin_thread (data : plugin_data) : M unit :=
  try_except
    (let title := pd_title data in
     let project_id := pd_project_id data in
     log_to_console (InstallingPlugin title);;
     resolved ← resolve_version project_id;
     match resolved with
     | None => pass
     | Some (best_version, _) => download title project_id best_version
     end)
    [ except_RequestException (fun e =>
        messagebox (DownloadFailed e);; log_to_console (InstallError e));
      except_Exception (fun e =>
        messagebox (UnexpectedError e);; log_to_console (ErrorLine e)) ].

(** ** The configuration *)

Definition save_config : M unit :=
  s ← get_self;
  let config : gmap string string :=
    list_to_map
      [ ("server_jar", server_jar s); ("server_memory", server_memory s);
        ("server_dir", server_dir s); ("plugins_dir", plugins_dir s);
        ("server_type", server_type s); ("server_version", server_version s) ]%string in
  try_except
    (match open_config_error w with
     | Some e => raise e
     | None => set_self (set_config_json (ConfigRecord config))
     end;;
     messagebox ConfigSaved)
    [ except_Exception (fun e => messagebox (ConfigSaveFailed e)) ].

Definition load_config : M unit :=
  try_except
    (s ← get_self;
     match config_json s with
     | NoFile => pass
     | NotARecord => raise (ValueError "server_config.json")
     | ConfigRecord config =>
         set_self (set_server_jar (default "server.jar" (config !! "server_jar")));;
         set_self (set_server_memory (default "2048" (config !! "server_memory")));;
         set_self (set_server_dir (default (getcwd w) (config !! "server_dir")));;
         set_self (set_plugins_dir
           (default (OsPath.join (getcwd w) "plugins") (config !! "plugins_dir")));;
         set_self (set_server_type (default "paper" (config !! "server_type")));;
         set_self (set_server_version (default "1.21.4" (config !! "server_version")))
     end)
    [ except_Exception (fun e => log_to_console (ConfigWarning e)) ].

End Installer.

(** ** Construction, and what is read off a run *)

(** The fields as [__init__] sets them. *)
Definition init (w : world) : gui :=
  {| server_running := false; server_process := None;
     server_jar := "server.jar"; server_memory := "2048";
     server_dir := getcwd w;
     plugins_dir := OsPath.join (getcwd w) "plugins";
     server_type := "paper"; server_version := "1.21.4";
     command_entry := ""; search_entry := "";
     plugins_data := ∅; config_json := NoFile |}.

(** The six persisted fields. *)
Inductive config_key : Type :=
| ServerJar | ServerMemory | ServerDir | PluginsDir | ServerType | ServerVersion.

Definition key_name (k : config_key) : string :=
  match k with
  | ServerJar => "server_jar"
  | ServerMemory => "server_memory"
  | ServerDir => "server_dir"
  | PluginsDir => "plugins_dir"
  | ServerType => "server_type"
  | ServerVersion => "server_version"
  end.

Definition field (k : config_key) (s : gui) : string :=
  match k with
  | ServerJar => server_jar s
  | ServerMemory => server_memory s
  | ServerDir => server_dir s
  | PluginsDir => plugins_dir s
  | ServerType => server_type s
  | ServerVersion => server_version s
  end.

(** The threads a trace starts, the requests it sends, the files it writes. *)
Definition started (tr : list event) : list thread :=
  omap (fun e => match e with Start t => Some t | _ => None end) tr.

Definition network_calls (tr : list event) : list request :=
  omap (fun e => match e with Get r => Some r | _ => None end) tr.

Definition files_written (tr : list event) : list (PathLib.path * string) :=
  omap (fun e => match e with WriteFile p c => Some (p, c) | _ => None end) tr.

(** What the child has received on its standard input. *)
Definition stdin_received (s : gui) : string :=
  match server_process s with
  | Some p => delivered p
  | None => ""
  end.

(** The bodies of the installer's threads a trace starts, one after the
    other. *)
Fixpoint run_started (w : world) (tr : list event) : M unit :=
  match tr with
  | [] => pass
  | Start (SearchPluginsThread query) :: rest =>
      _search_plugins_thread w query;; run_started w rest
  | Start (InstallPluginThread data) :: rest =>
      _install_plugin_thread w data;; run_started w rest
  | _ :: rest => run_started w rest
  end.

(** A method of the installer, followed by the threads it starts. *)
Definition to_completion (w : world) (method : M unit) : M unit := fun s =>
  match method s with
  | (r, s1, t1) =>
      match run_started w t1 s1 with
      | (_, s2, t2) => (r, s2, t1 ++ t2)
      end
  end.

(** The two conditions of the selection of a version, on one entry. *)
Definition version_condition (server_version : string) (v : version) : Prop :=
  server_version = "" \/ In server_version (default [] (v_game_versions v)).

Definition loader_condition (server_type : string) (v : version) : Prop :=
  server_type = "" \/ In server_type (default [] (v_loaders v))
  \/ default [] (v_loaders v) = [].

(** The request for the versions of a project, with the filter on the game
    version or without it. *)
Definition filtered_request (project_id server_version : string) : request :=
  {| url := Some (version_url project_id);
     params := [ ("game_versions"%string,
                  "[" +:+ dquote +:+ server_version +:+ dquote +:+ "]") ];
     timeout := 10 |}.

Definition unfiltered_request (project_id : string) : request :=
  {| url := Some (version_url project_id); params := []; timeout := 10 |}.

(** What [resolve_version] makes of a list of versions that is not empty. *)
Definition chosen (s : gui) (first : version) (rest : list version) : version * bool :=
  match find_best_version (server_version s) (PyStr.lower (server_type s)) (first :: rest) with
  | Some found => if version_truthy found then (found, true) else (first, false)
  | None => (first, false)
  end.

(** ** Worlds and states of the examples *)

Module Example.

Definition nothing : world :=
  {| path_exists := fun _ => false;
     getcwd := "/srv/minecraft";
     open_config_error := None;
     mkdir_error := fun _ => None;
     open_error := fun _ => None;
     search_endpoint := fun _ => Ok None;
     version_endpoint := fun _ => Ok [];
     download_endpoint := fun _ => Failed "404" |}.

(** A child that reads its input and exits five time units after it is
    asked to. *)
Definition obedient : popen :=
  {| has_stdin := true; buffered := ""; delivered := "";
     pipe_error := None; exit_after := Some 5;
     terminate_error := None; terminated := false |}.

(** A child that never exits and that the user may not signal. *)
Definition stubborn : popen :=
  {| has_stdin := true; buffered := ""; delivered := "";
     pipe_error := None; exit_after := None;
     terminate_error := Some (OSError "Operation not permitted");
     terminated := false |}.

Definition running (p : popen) : gui :=
  set_server_process (Some p) (set_server_running true (init nothing)).

Definition typing (text : string) (s : gui) : gui := set_command_entry text s.

(** Two versions for the same game version; only the second is for paper. *)
Definition for_fabric : version :=
  {| v_game_versions := Some ["1.21.4"]%string; v_loaders := Some ["fabric"]%string;
     v_files := Some [ {| fd_url := Some "https://cdn.example/fabric.jar"%string;
                          fd_filename := Some "fabric.jar"%string |} ];
     v_other_keys := true |}.

Definition for_paper : version :=
  {| v_game_versions := Some ["1.21.4"]%string; v_loaders := Some ["paper"]%string;
     v_files := Some [ {| fd_url := Some "https://cdn.example/paper.jar"%string;
                          fd_filename := Some "paper.jar"%string |} ];
     v_other_keys := true |}.

(** A version for paper, of an older game version. *)
Definition old_paper : version :=
  {| v_game_versions := Some ["1.20.1"]%string; v_loaders := Some ["paper"]%string;
     v_files := Some [ {| fd_url := Some "https://cdn.example/old.jar"%string;
                          fd_filename := Some "old.jar"%string |} ];
     v_other_keys := true |}.

(** A catalog that answers every version request with [versions]. *)
Definition catalog (versions : list version) : world :=
  {| path_exists := fun _ => false;
     getcwd := "/srv/minecraft";
     open_config_error := None;
     mkdir_error := fun _ => None;
     open_error := fun _ => None;
     search_endpoint := fun _ => Ok None;
     version_endpoint := fun _ => Ok versions;
     download_endpoint := fun _ => Ok "PK"%string |}.

(** Two hits of the project ["abc"], declared for one game version each,
    and one that declares none. *)
Definition hit_for (game_versions : option (list string)) : hit :=
  {| h_project_id := Some "abc"%string; h_title := Some "Foo"%string;
     h_author := None; h_downloads := Some 12; h_latest_version := None;
     h_game_versions := game_versions; h_slug := Some "foo"%string;
     h_description := None |}.

(** A catalog that answers every search with [hits]. *)
Definition searching (hits : list hit) : world :=
  {| path_exists := fun _ => false;
     getcwd := "/srv/minecraft";
     open_config_error := None;
     mkdir_error := fun _ => None;
     open_error := fun _ => None;
     search_endpoint := fun _ => Ok (Some hits);
     version_endpoint := fun _ => Ok [];
     download_endpoint := fun _ => Failed "404" |}.

(** A state whose six fields have been edited. *)
Definition configured : gui :=
  set_server_jar "paper-1.20.1.jar"
    (set_server_memory "4096"
       (set_server_dir "/opt/mc"
          (set_plugins_dir "/opt/mc/mods"
             (set_server_type "Fabric" (set_server_version "" (init nothing)))))).

(** A version whose file names a path of its own. *)
Definition escaping : version :=
  {| v_game_versions := Some ["1.21.4"]%string; v_loaders := Some ["paper"]%string;
     v_files := Some [ {| fd_url := Some "https://cdn.example/evil.jar"%string;
                          fd_filename := Some "/tmp/evil.jar"%string |} ];
     v_other_keys := true |}.

End Example.

(** * The rest of the window

    The methods of [MinecraftServerGUI] that the part above leaves out, and
    the closing of the window in [main]. They need more of the outside: the
    list of installed plugins, the directories of the disk, and the answers
    the user gives to questions. *)

(** ** More of Python *)

(** [needle in text], for two strings. *)
Fixpoint str_in (needle text : string) : bool :=
  String.prefix needle text
  || match text with
     | EmptyString => false
     | String _ rest => str_in needle rest
     end.

(** [text.endswith(suffix)] *)
Fixpoint str_endswith (suffix text : string) : bool :=
  String.eqb text suffix
  || match text with
     | EmptyString => false
     | String _ rest => str_endswith suffix rest
     end.

(** [sep.join(pieces)] *)
Fixpoint str_join (sep : string) (pieces : list string) : string :=
  match pieces with
  | [] => ""
  | [piece] => piece
  | piece :: rest => piece +:+ sep +:+ str_join sep rest
  end.

(** [str(p)] for a [pathlib] path: the root and the names, or ["."] for the
    path that has neither. *)
Definition path_str (p : PathLib.path) : string :=
  if PyStr.truthy (PathLib.root p) then PathLib.root p +:+ str_join "/" (PathLib.parts p)
  else match PathLib.parts p with
       | [] => "."
       | parts => str_join "/" parts
       end.

(** [sorted(names)]: strings are compared by their code points. *)
Definition sorted (names : list string) : list string := merge_sort String.le names.

(** ** The disk

    A directory is known by the [pathlib] path that names it and holds the
    names of its entries, in the order the system lists them. An entry that is
    not itself a directory is a file. Names are taken as they are written:
    there are no links, and [..] is a name like another. *)

Module Disk.

#[global] Instance path_eq_dec : EqDecision PathLib.path.
Proof. solve_decision. Defined.

Definition disk : Type := PathLib.path -> option (list string).

Definition parent (p : PathLib.path) : PathLib.path :=
  {| PathLib.root := PathLib.root p; PathLib.parts := removelast (PathLib.parts p) |}.

(** [p.name] *)
Definition name (p : PathLib.path) : string := List.last (PathLib.parts p) ""%string.

(** [p.is_dir()] *)
Definition is_dir (fs : disk) (p : PathLib.path) : bool :=
  match fs p with Some _ => true | None => false end.

Definition is_file (fs : disk) (p : PathLib.path) : bool :=
  negb (is_dir fs p)
  && match PathLib.parts p, fs (parent p) with
     | _ :: _, Some entries => PyStr.contains entries (name p)
     | _, _ => false
     end.

(** [p.exists()] *)
Definition exists_ (fs : disk) (p : PathLib.path) : bool := is_dir fs p || is_file fs p.

Definition put (fs : disk) (p : PathLib.path) (entries : list string) : disk :=
  fun q => if decide (q = p) then Some entries else fs q.

(** The entry [name p] is added to the directory above [p], when there is
    one and it does not hold it yet. *)
Definition enter (fs : disk) (p : PathLib.path) : disk :=
  match PathLib.parts p, fs (parent p) with
  | _ :: _, Some entries =>
      if PyStr.contains entries (name p) then fs
      else put fs (parent p) (entries ++ [name p])
  | _, _ => fs
  end.

(** The directories from [root / above] down to [root / above / below] are
    made where they are missing; [None] when one of them is a file. *)
Fixpoint make_dirs (fs : disk) (root : string) (above below : list string) : option disk :=
  let here := {| PathLib.root := root; PathLib.parts := above |} in
  if is_file fs here then None
  else
    let fs := if is_dir fs here then fs else put (enter fs here) here [] in
    match below with
    | [] => Some fs
    | next :: rest => make_dirs fs root (above ++ [next]) rest
    end.

(** [p.mkdir(parents=True, exist_ok=True)] *)
Definition mkdir (fs : disk) (p : PathLib.path) : option disk :=
  make_dirs fs (PathLib.root p) [] (PathLib.parts p).

(** [p.unlink()]; [None] when [p] is not a file. *)
Definition unlink (fs : disk) (p : PathLib.path) : option disk :=
  if is_file fs p then
    match fs (parent p) with
    | Some entries =>
        Some (put fs (parent p)
                (List.filter (fun entry => negb (String.eqb entry (name p))) entries))
    | None => None
    end
  else None.

(** What [p.unlink()] raises on what is not a file. *)
Definition unlink_failure (fs : disk) (p : PathLib.path) : exn :=
  if is_dir fs p then OSError "Is a directory" else OSError "No such file or directory".

(** [p.mkdir(exist_ok=True)]: the directory above is not made. [None] when
    [p] is a file, or when there is no directory above it. *)
Definition mkdir_here (fs : disk) (p : PathLib.path) : option disk :=
  if is_dir fs p then Some fs
  else if is_file fs p then None
  else if is_dir fs (parent p) then Some (put (enter fs p) p [])
  else None.

(** What [p.mkdir(exist_ok=True)] raises then. *)
Definition mkdir_here_failure (fs : disk) (p : PathLib.path) : exn :=
  if is_file fs p then OSError "File exists"
  else if is_file fs (parent p) then OSError "Not a directory"
  else OSError "No such file or directory".

(** What [p.mkdir(parents=True, exist_ok=True)] raises: [p] is a file, or
    what is above it is one. *)
Definition mkdir_failure (fs : disk) (p : PathLib.path) : exn :=
  if is_file fs p then OSError "File exists" else OSError "Not a directory".

(** [[f.name for f in p.glob("*.jar")]] *)
Definition glob_jar (fs : disk) (p : PathLib.path) : list string :=
  match fs p with
  | Some entries => List.filter (str_endswith ".jar") entries
  | None => []
  end.

(** What an event of a method above leaves on the disk. *)
Definition apply (fs : disk) (e : event) : disk :=
  match e with
  | Mkdir dir => default fs (mkdir fs dir)
  | WriteFile target _ => if is_dir fs target then fs else enter fs target
  | _ => fs
  end.

End Disk.

(** ** State, events and the monad *)

Record desktop : Type := Desktop {
  self : gui;
  installed_plugins_listbox : list string;
  folders : Disk.disk
}.

(** Questions the user answers with yes or no. *)
Inductive question : Type :=
| ServerDetected         (* "A Minecraft server appears to be running. ..." *)
| ConfirmDeletion (plugin_name : string)
| QuitWhileRunning       (* "Server is still running. Do you want to stop it and quit?" *)
| NoServerJarFound.      (* "No server JAR file detected in this folder. ..." *)

Inductive more_dialog : Type :=
| SelectPluginToInstall  (* "Please select a plugin to install!" *)
| PluginDataNotFound     (* "Plugin data not found!" *)
| SelectPluginToDelete   (* "Please select a plugin to delete!" *)
| PluginDeleted (plugin_name : string)
| DeleteFailed (e : exn)
| ImportSuccessful (server_jar_name : string) (plugins_found : nat).

Inductive more_line : Type :=
| ExistingServerWarning
| ErrorChecking (e : exn)
| ServerOutput (line : string)
| ErrorRunning (e : exn)
| StoppedSeparator
| ServerStopped
| RestartingServer
| FoundInstalled (count : nat)
| DeletedPlugin (plugin_name : string)
| FailedToDelete (plugin_name : string) (e : exn)
| ImportedFrom (directory : string)
| ImportedServerJar (server_jar_name : string)
| ImportedPluginsDirectory (plugins_dir : string)
| FoundPlugins (count : nat).

(** What [root.after] is given to call. *)
Inductive callback : Type := RunServer | Destroy.

Inductive action : Type :=
| Did (e : event)
| Asked (q : question) (response : bool)
| ShowMore (d : more_dialog)
| LogMore (l : more_line)
| StartWaitAndRestart
| After (ms : nat) (c : callback)
| DestroyWindow.

Definition D (A : Type) : Type := desktop -> result A * desktop * list action.

#[global] Instance D_ret : MRet D := fun A a d => (Returned a, d, []).

#[global] Instance D_bind : MBind D := fun A B f m d =>
  match m d with
  | (Returned a, d1, t1) =>
      match f a d1 with (r, d2, t2) => (r, d2, t1 ++ t2) end
  | (Raised e, d1, t1) => (Raised e, d1, t1)
  end.

Definition the_desktop : D desktop := fun d => (Returned d, d, []).
Definition change (f : desktop -> desktop) : D unit := fun d => (Returned tt, f d, []).
Definition tell (a : action) : D unit := fun d => (Returned tt, d, [a]).
Definition fail {A} (e : exn) : D A := fun d => (Raised e, d, []).
Definition skip : D unit := mret tt.

Definition set_gui (f : gui -> gui) (d : desktop) : desktop :=
  {| self := f (self d);
     installed_plugins_listbox := installed_plugins_listbox d;
     folders := folders d |}.

Definition set_listbox (items : list string) (d : desktop) : desktop :=
  {| self := self d; installed_plugins_listbox := items; folders := folders d |}.

Definition set_folders (fs : Disk.disk) (d : desktop) : desktop :=
  {| self := self d; installed_plugins_listbox := installed_plugins_listbox d;
     folders := fs |}.

(** A method of the part above, called from here: it runs on [self], and
    what it writes is then on the disk. *)
Definition lift {A} (method : M A) : D A := fun d =>
  match method (self d) with
  | (r, s, tr) =>
      (r,
       {| self := s;
          installed_plugins_listbox := installed_plugins_listbox d;
          folders := fold_left Disk.apply tr (folders d) |},
       map Did tr)
  end.

Definition catcher (A : Type) : Type := exn -> option (D A).

Fixpoint find_catcher {A} (cs : list (catcher A)) (e : exn) : option (D A) :=
  match cs with
  | [] => None
  | c :: rest => match c e with Some body => Some body | None => find_catcher rest e end
  end.

(** [try: body  except ...: ...], as [try_except] above. *)
Definition attempt {A} (body : D A) (cs : list (catcher A)) : D A := fun d =>
  match body d with
  | (Returned a, d1, t1) => (Returned a, d1, t1)
  | (Raised e, d1, t1) =>
      match find_catcher cs e with
      | Some c => match c d1 with (r, d2, t2) => (r, d2, t1 ++ t2) end
      | None => (Raised e, d1, t1)
      end
  end.

(** [except Exception as e:] *)
Definition catch_Exception {A} (body : exn -> D A) : catcher A := fun e => Some (body e).

(** [try: body  finally: clause]. The clause runs whatever the body did; the
    body's outcome stands unless the clause raises. *)
Definition attempt_finally {A} (body : D A) (clause : D unit) : D A := fun d =>
  match body d with
  | (r, d1, t1) =>
      match clause d1 with
      | (Returned _, d2, t2) => (r, d2, t1 ++ t2)
      | (Raised e, d2, t2) => (Raised e, d2, t1 ++ t2)
      end
  end.

Definition result_of {A} (x : result A * desktop * list action) : result A := x.1.1.
Definition desktop_after {A} (x : result A * desktop * list action) : desktop := x.1.2.
Definition actions {A} (x : result A * desktop * list action) : list action := x.2.

(** ** [check_existing_server] *)

(** The test on a command line:
    [any('minecraft' in str(arg).lower() or 'server.jar' in str(arg).lower() ...)]. *)
Definition mentions_server (cmdline : list string) : bool :=
  existsb (fun arg => str_in "minecraft" (PyStr.lower arg)
                      || str_in "server.jar" (PyStr.lower arg)) cmdline.

(** The loop over [psutil.process_iter]. A process is given by its
    [cmdline], [None] when the system does not tell it; [scan_error] is what
    the iteration raises once the list is through. *)
Fixpoint scan_processes (processes : list (option (list string)))
    (scan_error : option exn) (response : bool) : D unit :=
  match processes with
  | [] => match scan_error with Some e => fail e | None => skip end
  | proc :: rest =>
      let cmdline := default [] proc in
      if nonempty cmdline && mentions_server cmdline then
        tell (Asked ServerDetected response);;
        (if response then tell (LogMore ExistingServerWarning) else skip)
      else scan_processes rest scan_error response
  end.

Definition check_existing_server (processes : list (option (list string)))
    (scan_error : option exn) (response : bool) : D unit :=
  attempt (scan_processes processes scan_error response)
    [ catch_Exception (fun e => tell (LogMore (ErrorChecking e))) ].

(** ** [_run_server_process] *)

(** What [subprocess.Popen(cmd, cwd=...)] gives: the child, with the lines
    its output will hand to [readline] (an empty one is the end of the
    stream) and the error the reading ends with, if any; or the error of the
    call. *)
Inductive launch : Type :=
| Launched (child : popen) (output : list string) (read_error : option exn)
| LaunchFailed (e : exn).

(** [for line in iter(self.server_process.stdout.readline, ''): ...] *)
Fixpoint relay (output : list string) (read_error : option exn) : D unit :=
  match output with
  | [] => match read_error with Some e => fail e | None => skip end
  | line :: rest =>
      if PyStr.truthy line then
        tell (LogMore (ServerOutput line));;
        relay rest read_error
      else skip
  end.

(** The [finally] clause. The status is set with [root.after(0, ...)]. *)
Definition server_thread_ends : D unit :=
  change (set_gui (set_server_running false));;
  tell (Did (UpdateServerStatus false));;
  tell (LogMore StoppedSeparator);;
  tell (LogMore ServerStopped).

(** [stdout] is a pipe, so the test on it holds. [self.server_process.wait()]
    has no timeout and raises nothing: at the end of its output the child is
    taken to be gone, and the call to return. *)
Definition _run_server_process (popen_call : list string -> string -> launch)
    (cmd : list string) : D unit :=
  attempt_finally
    (attempt
       (d ← the_desktop;
        match popen_call cmd (server_dir (self d)) with
        | LaunchFailed e => fail e
        | Launched child output read_error =>
            change (set_gui (set_server_process (Some child)));;
            relay output read_error
        end)
       [ catch_Exception (fun e => tell (LogMore (ErrorRunning e))) ])
    server_thread_ends.

(** The thread from the moment the child is there: the reading of its output
    to the end, and the two closing clauses. *)
Definition server_thread_reads (output : list string) (read_error : option exn) : D unit :=
  attempt_finally
    (attempt (relay output read_error)
       [ catch_Exception (fun e => tell (LogMore (ErrorRunning e))) ])
    server_thread_ends.

(** ** [restart_server] and the closing of the window *)

Section Window.

Variable w : world.

Definition restart_server : D unit :=
  d ← the_desktop;
  if negb (server_running (self d)) then
    tell (Did (Show NotRunning))
  else
    tell (LogMore RestartingServer);;
    lift stop_server;;
    tell StartWaitAndRestart.

(** The thread [wait_and_restart], once the join on the server thread is
    over. *)
Definition wait_and_restart : D unit := tell (After 2000 RunServer).

(** What the window does when a call it was given with [root.after] is due. *)
Definition call (c : callback) : D unit :=
  match c with
  | RunServer => lift (run_server w)
  | Destroy => tell DestroyWindow
  end.

(** [on_closing] of [main]. *)
Definition on_closing (response : bool) : D unit :=
  d ← the_desktop;
  if server_running (self d) then
    tell (Asked QuitWhileRunning response);;
    if response then
      lift stop_server;;
      tell (After 2000 Destroy)
    else skip
  else tell DestroyWindow.

(** ** The installed plugins *)

(** [selection] is [self.plugins_tree.selection()]. *)
Definition install_plugin (selection : list string) : D unit :=
  match selection with
  | [] => tell (ShowMore SelectPluginToInstall)
  | project_id :: _ =>
      d ← the_desktop;
      match plugins_data (self d) !! project_id with
      | None => tell (ShowMore PluginDataNotFound)
      | Some plugin_data => tell (Did (Start (InstallPluginThread plugin_data)))
      end
  end.

Definition no_plugins : string := "No plugins installed".

(** [self.installed_plugins_listbox.insert(tk.END, item)] *)
Definition listbox_insert (item : string) : D unit :=
  change (fun d => set_listbox (installed_plugins_listbox d ++ [item]) d).

Fixpoint listbox_insert_all (items : list string) : D unit :=
  match items with
  | [] => skip
  | item :: rest => listbox_insert item;; listbox_insert_all rest
  end.

(** [plugins_path.mkdir(parents=True, exist_ok=True)] *)
Definition make_directory (p : PathLib.path) : D unit :=
  d ← the_desktop;
  match Disk.mkdir (folders d) p with
  | Some fs => change (set_folders fs)
  | None => fail (Disk.mkdir_failure (folders d) p)
  end.

Definition refresh_installed_plugins : D unit :=
  change (set_listbox []);;
  d ← the_desktop;
  let plugins_path := PathLib.parse (plugins_dir (self d)) in
  if negb (Disk.exists_ (folders d) plugins_path) then
    make_directory plugins_path;;
    listbox_insert no_plugins
  else
    let jar_files := Disk.glob_jar (folders d) plugins_path in
    if negb (nonempty jar_files) then
      listbox_insert no_plugins
    else
      listbox_insert_all (sorted jar_files);;
      tell (LogMore (FoundInstalled (length jar_files))).

(** [plugin_path.unlink()] *)
Definition remove_file (p : PathLib.path) : D unit :=
  d ← the_desktop;
  match Disk.unlink (folders d) p with
  | Some fs => change (set_folders fs)
  | None => fail (Disk.unlink_failure (folders d) p)
  end.

(** [selection] is [self.installed_plugins_listbox.curselection()], and
    [response] the answer to the question, when it is asked. *)
Definition delete_plugin (selection : list nat) (response : bool) : D unit :=
  match selection with
  | [] => tell (ShowMore SelectPluginToDelete)
  | index :: _ =>
      d ← the_desktop;
      let plugin_name := default ""%string (installed_plugins_listbox d !! index) in
      if String.eqb plugin_name no_plugins then
        skip
      else
        tell (Asked (ConfirmDeletion plugin_name) response);;
        if negb response then
          skip
        else
          attempt
            (d ← the_desktop;
             let plugin_path :=
               PathLib.div (PathLib.parse (plugins_dir (self d))) plugin_name in
             remove_file plugin_path;;
             tell (LogMore (DeletedPlugin plugin_name));;
             tell (ShowMore (PluginDeleted plugin_name));;
             refresh_installed_plugins)
            [ catch_Exception (fun e =>
                tell (ShowMore (DeleteFailed e));;
                tell (LogMore (FailedToDelete plugin_name e))) ]
  end.

(** The calls of [refresh_installed_plugins] a trace asks the window for. *)
Fixpoint run_refreshes (tr : list event) : D unit :=
  match tr with
  | [] => skip
  | RefreshInstalledPlugins :: rest => refresh_installed_plugins;; run_refreshes rest
  | _ :: rest => run_refreshes rest
  end.

(** The thread of an installation, followed by what it asks the window
    for. *)
Definition install_to_completion (data : plugin_data) : D unit := fun d =>
  match lift (_install_plugin_thread w data) d with
  | (r, d1, t1) =>
      match run_refreshes (omap (fun a => match a with Did e => Some e | _ => None end) t1) d1 with
      | (_, d2, t2) => (r, d2, t1 ++ t2)
      end
  end.

End Window.

(** ** The choice of the folders *)

Section Folders.

Variable w : world.

(** The test on the name of a jar in [import_server_folder]. *)
Definition is_server_jar (name : string) : bool :=
  str_in "server" (PyStr.lower name) || str_in "paper" (PyStr.lower name)
  || str_in "spigot" (PyStr.lower name) || str_in "bukkit" (PyStr.lower name)
  || str_in "purpur" (PyStr.lower name).

(** [plugins_path.mkdir(exist_ok=True)] *)
Definition make_directory_here (p : PathLib.path) : D unit :=
  d ← the_desktop;
  match Disk.mkdir_here (folders d) p with
  | Some fs => change (set_folders fs)
  | None => fail (Disk.mkdir_here_failure (folders d) p)
  end.

(** The name of the server jar: the first of [server_jars], or [server.jar]
    when there is none and the user agrees; [None] when the method returns
    there. *)
Definition choose_server_jar (server_jars : list string) (response : bool)
    : D (option string) :=
  match server_jars with
  | [] =>
      tell (Asked NoServerJarFound response);;
      if negb response then mret None else mret (Some "server.jar"%string)
  | jar :: _ => mret (Some jar)
  end.

(** [directory] is what [filedialog.askdirectory] gives, empty when the
    dialog is closed, and [response] the answer to the question, when it is
    asked. *)
Definition import_server_folder (directory : string) (response : bool) : D unit :=
  if negb (PyStr.truthy directory) then skip
  else
    d ← the_desktop;
    let server_path := PathLib.parse directory in
    let jar_files := Disk.glob_jar (folders d) server_path in
    let server_jars := List.filter is_server_jar jar_files in
    chosen ← choose_server_jar server_jars response;
    match chosen with
    | None => skip
    | Some server_jar_name =>
        let plugins_path := PathLib.div server_path "plugins" in
        change (set_gui (set_server_dir (path_str server_path)));;
        change (set_gui (set_server_jar
                  (path_str (PathLib.div server_path server_jar_name))));;
        d ← the_desktop;
        (if Disk.exists_ (folders d) plugins_path && Disk.is_dir (folders d) plugins_path
         then change (set_gui (set_plugins_dir (path_str plugins_path)))
         else
           make_directory_here plugins_path;;
           change (set_gui (set_plugins_dir (path_str plugins_path))));;
        refresh_installed_plugins;;
        tell (LogMore (ImportedFrom directory));;
        tell (LogMore (ImportedServerJar server_jar_name));;
        d ← the_desktop;
        tell (LogMore (ImportedPluginsDirectory (plugins_dir (self d))));;
        let jar_files_in_plugins :=
          if Disk.exists_ (folders d) plugins_path
          then Disk.glob_jar (folders d) plugins_path else [] in
        (if nonempty jar_files_in_plugins
         then tell (LogMore (FoundPlugins (length jar_files_in_plugins)))
         else skip);;
        lift (save_config w);;
        tell (ShowMore (ImportSuccessful server_jar_name (length jar_files_in_plugins)))
    end.

(** [filename] and [directory] are what the file dialogs give, empty when
    they are closed. *)
Definition browse_jar (filename : string) : D unit :=
  if PyStr.truthy filename then change (set_gui (set_server_jar filename)) else skip.

Definition browse_server_dir (directory : string) : D unit :=
  if PyStr.truthy directory then
    change (set_gui (set_server_dir directory));;
    change (set_gui (set_plugins_dir (OsPath.join directory "plugins")))
  else skip.

Definition browse_plugins_dir (directory : string) : D unit :=
  if PyStr.truthy directory then change (set_gui (set_plugins_dir directory)) else skip.

End Folders.

(** ** More worlds and states of the examples *)

Module Scene.

(** A child that never exits by itself and can be signalled. *)
Definition deaf : popen :=
  {| has_stdin := true; buffered := ""; delivered := "";
     pipe_error := None; exit_after := None;
     terminate_error := None; terminated := false |}.

(** A child whose pipe is broken. *)
Definition gone : popen :=
  {| has_stdin := true; buffered := ""; delivered := "";
     pipe_error := Some (OSError "Broken pipe"); exit_after := Some 0;
     terminate_error := None; terminated := false |}.

(** A catalog that does not answer. *)
Definition offline : world :=
  {| path_exists := fun _ => false;
     getcwd := "/srv/minecraft";
     open_config_error := Some (OSError "Read-only file system");
     mkdir_error := fun _ => None;
     open_error := fun _ => None;
     search_endpoint := fun _ => Failed "timed out";
     version_endpoint := fun _ => Failed "timed out";
     download_endpoint := fun _ => Failed "timed out" |}.

(** A catalog that has the versions [filtered] for a given game version and
    the versions [all] without the filter. *)
Definition shelves (filtered all : list version) : world :=
  {| path_exists := fun _ => true;
     getcwd := "/srv/minecraft";
     open_config_error := None;
     mkdir_error := fun _ => None;
     open_error := fun _ => None;
     search_endpoint := fun _ => Ok None;
     version_endpoint := fun r => match params r with [] => Ok all | _ => Ok filtered end;
     download_endpoint := fun _ => Ok "PK"%string |}.

(** A catalog that lists [versions] and whose files cannot be fetched. *)
Definition stale (versions : list version) : world :=
  {| path_exists := fun _ => true;
     getcwd := "/srv/minecraft";
     open_config_error := None;
     mkdir_error := fun _ => None;
     open_error := fun _ => None;
     search_endpoint := fun _ => Ok None;
     version_endpoint := fun _ => Ok versions;
     download_endpoint := fun _ => Failed "404" |}.

(** A version without files. *)
Definition empty_release : version :=
  {| v_game_versions := Some ["1.21.4"]%string; v_loaders := Some ["paper"]%string;
     v_files := Some []; v_other_keys := true |}.

Definition data_of (project_id title : string) : plugin_data :=
  {| pd_title := title; pd_project_id := project_id; pd_slug := "";
     pd_description := ""; pd_compatible := true; pd_game_versions := [] |}.

End Scene.

Module Stage.

(** The window around a state of the part above, with an empty list and an
    empty disk. *)
Definition around (s : gui) : desktop :=
  {| self := s; installed_plugins_listbox := []; folders := fun _ => None |}.

(** [Popen] finds no [java]. *)
Definition no_java : list string -> string -> launch :=
  fun _ _ => LaunchFailed (OSError "No such file or directory: java").

(** [Popen] starts a child that prints [output] and exits. *)
Definition prints (output : list string) : list string -> string -> launch :=
  fun _ _ => Launched Example.obedient output None.

(** A world in which every path exists. *)
Definition everywhere : world :=
  {| path_exists := fun _ => true;
     getcwd := "/srv/minecraft";
     open_config_error := None;
     mkdir_error := fun _ => None;
     open_error := fun _ => None;
     search_endpoint := fun _ => Ok None;
     version_endpoint := fun _ => Ok [];
     download_endpoint := fun _ => Failed "404" |}.

(** A disk whose only directory is the plugins directory of the examples,
    with the given entries. *)
Definition shelf (entries : list string) : Disk.disk :=
  fun p =>
    if decide (p = PathLib.parse "/srv/minecraft/plugins") then Some entries else None.

(** The window as [__init__] leaves it, over that disk, with [listed] in the
    list of installed plugins. *)
Definition with_plugins (entries listed : list string) : desktop :=
  {| self := init Example.nothing;
     installed_plugins_listbox := listed;
     folders := shelf entries |}.

(** A disk whose only directory is the server folder of the examples, with
    the given entries. *)
Definition folder (entries : list string) : Disk.disk :=
  fun p => if decide (p = PathLib.parse "/srv/minecraft") then Some entries else None.

(** The window as [__init__] leaves it, over that disk. *)
Definition in_folder (entries : list string) : desktop :=
  {| self := init Example.nothing;
     installed_plugins_listbox := [];
     folders := folder entries |}.

End Stage.

(** ** What is said of a method *)

(** The method leaves every field as it was. *)
Definition keeps_fields {A} (method : M A) : Prop :=
  forall s, final_state (method s) = s.

(** The method returns: no exception leaves it. *)
Definition always_returns {A} (method : M A) : Prop :=
  forall s, exists a, outcome (method s) = Returned a.

(** The rows a trace inserts in the tree, and the directories it makes. *)
Definition inserted_rows (tr : list event) : list tree_row :=
  omap (fun e => match e with InsertRow r => Some r | _ => None end) tr.

Definition directories_made (tr : list event) : list PathLib.path :=
  omap (fun e => match e with Mkdir p => Some p | _ => None end) tr.

Definition dialogs (tr : list event) : list dialog :=
  omap (fun e => match e with Show d => Some d | _ => None end) tr.

(** The lines of the child a trace shows in the console. *)
Definition console_output (acts : list action) : list string :=
  omap (fun a => match a with LogMore (ServerOutput line) => Some line | _ => None end) acts.

(** The events of the methods above among the actions. *)
Definition events_of (acts : list action) : list event :=
  omap (fun a => match a with Did e => Some e | _ => None end) acts.

(** One method after the other. *)
Definition and_then (first second : D unit) : D unit := first;; second.

(** The questions among the actions. *)
Definition questions (acts : list action) : list question :=
  omap (fun a => match a with Asked q _ => Some q | _ => None end) acts.

(** A path made of a root [pathlib] knows and of plain names. *)
Definition well_formed (p : PathLib.path) : Prop :=
  (PathLib.root p = "" \/ PathLib.root p = "/" \/ PathLib.root p = "//")%string
  /\ Forall (fun name => PathLib.plain_name name = true) (PathLib.parts p).

(** The fields after the three assignments of [import_server_folder]. *)
Definition imported (directory server_jar_name : string) (s : gui) : gui :=
  set_plugins_dir (path_str (PathLib.div (PathLib.parse directory) "plugins"))
    (set_server_jar (path_str (PathLib.div (PathLib.parse directory) server_jar_name))
       (set_server_dir (path_str (PathLib.parse directory)) s)).

(** * Theorems *)

(** ** Stripping *)

Module PyStrFacts.
Import PyStr.

Lemma append_cons c (a b : string) : String c a +:+ b = String c (a +:+ b).
Proof. reflexivity. Qed.

Lemma append_nil (b : string) : "" +:+ b = b.
Proof. reflexivity. Qed.

Lemma all_space_nil : all_space "".
Proof. intros c []. Qed.

Lemma all_space_cons c s : isspace c = true -> all_space s -> all_space (String c s).
Proof. intros Hc Hs c' [<- | Hin]; [exact Hc | exact (Hs c' Hin)]. Qed.

(** [lstrip] removes a prefix of white space and nothing else. *)
Lemma lstrip_prefix s : exists pre, s = pre +:+ lstrip s /\ all_space pre.
Proof.
  induction s as [| c s [pre [Heq Hpre]]]; simpl.
  - exists ""%string. split; [reflexivity | apply all_space_nil].
  - destruct (isspace c) eqn:Hc.
    + exists (String c pre). split; [now rewrite append_cons, <- Heq | now apply all_space_cons].
    + exists ""%string. split; [reflexivity | apply all_space_nil].
Qed.

(** [rstrip] removes a suffix of white space and nothing else. *)
Lemma rstrip_suffix s : exists post, s = rstrip s +:+ post /\ all_space post.
Proof.
  induction s as [| c s [post [Heq Hpost]]]; simpl.
  - exists ""%string. split; [reflexivity | apply all_space_nil].
  - destruct (rstrip s) as [| k kept] eqn:Hr.
    + destruct (isspace c) eqn:Hc.
      * exists (String c post). rewrite append_nil in *. subst post.
        split; [reflexivity | now apply all_space_cons].
      * exists post. rewrite append_cons, append_nil in *.
        split; [now rewrite <- Heq | exact Hpost].
    + exists post. rewrite !append_cons in *. split; [now rewrite <- Heq | exact Hpost].
Qed.

Lemma append_assoc (a b c : string) : (a +:+ b) +:+ c = a +:+ (b +:+ c).
Proof.
  induction a as [| x a IH]; [reflexivity |].
  now rewrite !append_cons, IH.
Qed.

(** [strip] keeps the text between the white space at its two ends. *)
Lemma strip_between s :
  exists pre post, s = pre +:+ strip s +:+ post /\ all_space pre /\ all_space post.
Proof.
  destruct (rstrip_suffix s) as [post [Hs Hpost]].
  destruct (lstrip_prefix (rstrip s)) as [pre [Hr Hpre]].
  exists pre, post. repeat split; try assumption.
  unfold strip. rewrite <- append_assoc, <- Hr. exact Hs.
Qed.

(** What [lstrip] leaves does not start with white space. *)
Lemma lstrip_head s c rest : lstrip s = String c rest -> isspace c = false.
Proof.
  induction s as [| d s IH]; simpl; [discriminate |].
  destruct (isspace d) eqn:Hd; [exact IH | congruence].
Qed.

Lemma strip_head s c rest : strip s = String c rest -> isspace c = false.
Proof. apply lstrip_head. Qed.

Lemma strip_empty : strip "" = ""%string.
Proof. reflexivity. Qed.

End PyStrFacts.

(** ** The supervisor *)

#[local] Arguments PyStr.strip : simpl never.
#[local] Arguments PyStr.lower : simpl never.
#[local] Arguments PyStr.contains : simpl never.

Create HintDb method.
#[local] Hint Unfold mbind mret M_bind M_ret get_self set_self emit raise pass
  log_to_console messagebox final_state trace outcome
  try_except the_process put_process stdin_write stdin_flush
  process_wait process_terminate : method.

(** Runs a method on the state of the goal, as far as the state is known. *)
Ltac run := repeat (progress (autounfold with method in *; cbn in *)).

(** A start that is refused changes nothing and starts nothing. *)
Lemma run_server_refused w s :
  server_running s = true ->
  run_server w s = (Returned tt, s, [Show AlreadyRunning]).
Proof. intros Hrun. unfold run_server. run. now rewrite Hrun. Qed.

(** A start that goes through starts one thread and leaves the server
    running. *)
Lemma run_server_started w s :
  server_running s = false ->
  path_exists w (jar_path_of s) = true ->
  started (trace (run_server w s)) =
    [ RunServerProcess
        [ "java"; "-Xmx" +:+ server_memory s +:+ "M";
          "-Xms" +:+ server_memory s +:+ "M"; "-jar"; jar_path_of s; "nogui" ]%string ]
  /\ server_running (final_state (run_server w s)) = true.
Proof.
  intros Hrun Hjar. unfold run_server. run. rewrite Hrun, Hjar. cbn. split; reflexivity.
Qed.

(** C4: when the server is stopped and the jar, a relative path being joined
    to the server directory, does not exist, [run_server] reports [NotFound],
    starts no thread and leaves every field, the stopped state among them, as
    it was. *)
Theorem run_server_jar_not_found w s :
  server_running s = false ->
  path_exists w
    (if OsPath.isabs (server_jar s) then server_jar s
     else OsPath.join (server_dir s) (server_jar s)) = false ->
  run_server w s =
    (Returned tt, s,
     [ Show (NotFound (if OsPath.isabs (server_jar s) then server_jar s
                       else OsPath.join (server_dir s) (server_jar s))) ])
  /\ started (trace (run_server w s)) = []
  /\ server_running (final_state (run_server w s)) = false.
Proof.
  intros Hrun Hjar.
  assert (Hpath : jar_path_of s =
                  if OsPath.isabs (server_jar s) then server_jar s
                  else OsPath.join (server_dir s) (server_jar s)).
  { unfold jar_path_of. now destruct (OsPath.isabs (server_jar s)). }
  assert (Heq : run_server w s = (Returned tt, s, [Show (NotFound (jar_path_of s))])).
  { unfold run_server. run. now rewrite Hrun, Hpath, Hjar. }
  rewrite Heq, Hpath. run. auto.
Qed.

Lemma run_server_jar_not_found_witness :
  run_server Example.nothing (init Example.nothing) =
    (Returned tt, init Example.nothing, [ Show (NotFound "/srv/minecraft/server.jar") ])
  /\ started (trace (run_server Example.nothing (init Example.nothing))) = []
  /\ server_running (final_state (run_server Example.nothing (init Example.nothing))) = false.
Proof.
  apply (run_server_jar_not_found Example.nothing (init Example.nothing)); reflexivity.
Defined.

(** C5: a start while the server is running is refused with
    [AlreadyRunning], starts no thread and changes no field; and of two starts
    one right after the other, whatever the state they begin in, at most one
    starts a thread, the second being refused, with no field changed, whenever
    the first went through; from a stopped server whose jar exists the two
    start exactly one thread. *)
Theorem run_server_single_run w s :
  (server_running s = true ->
   run_server w s = (Returned tt, s, [Show AlreadyRunning])
   /\ started (trace (run_server w s)) = [])
  /\ length (started (trace (run_server w s))
             ++ started (trace (run_server w (final_state (run_server w s))))) <= 1
  /\ (started (trace (run_server w s)) <> [] ->
      run_server w (final_state (run_server w s)) =
        (Returned tt, final_state (run_server w s), [Show AlreadyRunning]))
  /\ (server_running s = false ->
      path_exists w (jar_path_of s) = true ->
      length (started (trace (run_server w s))
              ++ started (trace (run_server w (final_state (run_server w s))))) = 1).
Proof.
  split; [| split; [| split]].
  - intros Hrun. rewrite (run_server_refused w s Hrun). split; reflexivity.
  - destruct (server_running s) eqn:Hrun.
    + rewrite (run_server_refused w s Hrun). cbn.
      rewrite (run_server_refused w s Hrun). cbn. lia.
    + destruct (path_exists w (jar_path_of s)) eqn:Hjar.
      * destruct (run_server_started w s Hrun Hjar) as [Hst Hfin].
        rewrite Hst, (run_server_refused w _ Hfin). cbn. lia.
      * assert (Heq : run_server w s = (Returned tt, s, [Show (NotFound (jar_path_of s))])).
        { unfold run_server. run. now rewrite Hrun, Hjar. }
        rewrite Heq. cbn. rewrite Heq. cbn. lia.
  - intros Hst. apply run_server_refused.
    destruct (server_running s) eqn:Hrun.
    + rewrite (run_server_refused w s Hrun). exact Hrun.
    + destruct (path_exists w (jar_path_of s)) eqn:Hjar.
      * apply (run_server_started w s Hrun Hjar).
      * exfalso. apply Hst. unfold run_server. run. now rewrite Hrun, Hjar.
  - intros Hrun Hjar.
    destruct (run_server_started w s Hrun Hjar) as [Hst Hfin].
    now rewrite Hst, (run_server_refused w _ Hfin).
Qed.

Lemma run_server_single_run_witness :
  run_server Example.nothing (Example.running Example.obedient) =
    (Returned tt, Example.running Example.obedient, [Show AlreadyRunning])
  /\ started (trace (run_server Example.nothing (Example.running Example.obedient))) = [].
Proof.
  apply (run_server_single_run Example.nothing (Example.running Example.obedient)).
  reflexivity.
Defined.

(** What [send_command] does to a running server whose pipe is open: the
    stripped text and one newline reach the child, and the entry is cleared. *)
Lemma send_command_running s p :
  server_running s = true ->
  server_process s = Some p ->
  has_stdin p = true ->
  pipe_error p = None ->
  PyStr.strip (command_entry s) <> ""%string ->
  send_command s =
    (Returned tt,
     set_command_entry ""
       (set_server_process
          (Some {| has_stdin := true; buffered := "";
                   delivered := delivered p
                                +:+ (buffered p +:+ (PyStr.strip (command_entry s) +:+ newline));
                   pipe_error := None; exit_after := exit_after p;
                   terminate_error := terminate_error p;
                   terminated := terminated p |}) s),
     [Log (Echo (PyStr.strip (command_entry s)))]).
Proof.
  intros Hrun Hproc Hin Hpipe Htext.
  destruct s, p; cbn in *; subst.
  unfold send_command. run.
  destruct (PyStr.strip command_entry0) as [| c rest]; [congruence |].
  run. reflexivity.
Qed.

(** With nothing left of the text after stripping, [send_command] does
    nothing at all. *)
Lemma send_command_blank s :
  server_running s = true ->
  is_not_none (server_process s) = true ->
  PyStr.strip (command_entry s) = ""%string ->
  send_command s = (Returned tt, s, []).
Proof.
  intros Hrun Hproc Htext. unfold send_command. run.
  now rewrite Hrun, Hproc, Htext.
Qed.

(** C2, as the code has it: the text of the entry is stripped of the white
    space at its two ends first. What is left, when it is not empty, reaches
    the child followed by exactly one newline, after whatever was still
    pending, and nothing stays unflushed; when nothing is left, nothing is
    written. A text that stripping leaves as it is reaches the child as it
    is. *)
Theorem send_command_sends_stripped s p :
  server_running s = true ->
  server_process s = Some p ->
  has_stdin p = true ->
  pipe_error p = None ->
  (PyStr.strip (command_entry s) <> ""%string ->
   outcome (send_command s) = Returned tt
   /\ stdin_received (final_state (send_command s)) =
        stdin_received s +:+ (buffered p +:+ (PyStr.strip (command_entry s) +:+ newline))
   /\ (buffered <$> server_process (final_state (send_command s))) = Some ""%string)
  /\ (PyStr.strip (command_entry s) = ""%string ->
      send_command s = (Returned tt, s, []))
  /\ (PyStr.strip (command_entry s) = command_entry s ->
      command_entry s <> ""%string ->
      stdin_received (final_state (send_command s)) =
        stdin_received s +:+ (buffered p +:+ (command_entry s +:+ newline))).
Proof.
  intros Hrun Hproc Hin Hpipe.
  assert (Hsent : PyStr.strip (command_entry s) <> ""%string ->
                  outcome (send_command s) = Returned tt
                  /\ stdin_received (final_state (send_command s)) =
                       stdin_received s
                       +:+ (buffered p +:+ (PyStr.strip (command_entry s) +:+ newline))
                  /\ (buffered <$> server_process (final_state (send_command s)))
                     = Some ""%string).
  { intros Htext.
    rewrite (send_command_running s p Hrun Hproc Hin Hpipe Htext).
    unfold stdin_received. rewrite Hproc. repeat split. }
  split; [exact Hsent | split].
  - intros Htext. apply send_command_blank; [exact Hrun | now rewrite Hproc | exact Htext].
  - intros Hfix Hne. rewrite <- Hfix. apply Hsent. now rewrite Hfix.
Qed.

Lemma send_command_sends_stripped_witness :
  stdin_received
    (final_state (send_command (Example.typing "  say hi " (Example.running Example.obedient))))
  = String.append "say hi" newline.
Proof.
  refine (proj1 (proj2 (proj1
    (send_command_sends_stripped
       (Example.typing "  say hi " (Example.running Example.obedient)) Example.obedient
       eq_refl eq_refl eq_refl eq_refl) _))).
  vm_compute. discriminate.
Defined.

(** C2, as it is stated, fails: with an empty text nothing reaches the
    child, not even the newline. *)
Lemma send_command_not_verbatim :
  server_running (Example.typing "" (Example.running Example.obedient)) = true
  /\ stdin_received
       (final_state (send_command (Example.typing "" (Example.running Example.obedient))))
     <> stdin_received (Example.running Example.obedient) +:+ ("" +:+ newline).
Proof. split; [reflexivity |]. vm_compute. discriminate. Qed.

(** Nor does a text with white space at an end arrive as it is: of [" list"]
    the child receives ["list"] and the newline. *)
Lemma send_command_drops_leading_space :
  stdin_received
    (final_state (send_command (Example.typing " list" (Example.running Example.obedient))))
  = String.append "list" newline.
Proof. reflexivity. Qed.

(** ** Stopping *)

(** The child obeys: the line [stop] reaches it, it exits within the grace
    period, and it is not signalled. *)
Lemma stop_server_graceful s p d :
  server_running s = true ->
  server_process s = Some p ->
  has_stdin p = true ->
  pipe_error p = None ->
  exit_after p = Some d ->
  d <= grace_period ->
  outcome (stop_server s) = Returned tt
  /\ trace (stop_server s) = [Log SendingStop]
  /\ stdin_received (final_state (stop_server s)) =
       stdin_received s +:+ (buffered p +:+ ("stop" +:+ newline))
  /\ (terminated <$> server_process (final_state (stop_server s))) = Some (terminated p).
Proof.
  intros Hrun Hproc Hin Hpipe Hexit Hd.
  apply Nat.leb_le in Hd.
  destruct s, p; cbn in *; subst.
  unfold stop_server, stdin_received. run. unfold grace_period in *. rewrite Hd. run.
  repeat split.
Qed.

(** The child does not exit in time and can be signalled: it is. *)
Lemma stop_server_forced s p :
  server_running s = true ->
  server_process s = Some p ->
  has_stdin p = true ->
  pipe_error p = None ->
  (forall d, exit_after p = Some d -> grace_period < d) ->
  terminate_error p = None ->
  outcome (stop_server s) = Returned tt
  /\ trace (stop_server s) = [Log SendingStop; Log NotGraceful]
  /\ (terminated <$> server_process (final_state (stop_server s))) = Some true.
Proof.
  intros Hrun Hproc Hin Hpipe Hexit Hterm.
  destruct s, p; cbn in *; subst.
  unfold stop_server. run.
  destruct exit_after0 as [d |].
  - specialize (Hexit d eq_refl). apply Nat.leb_gt in Hexit.
    unfold grace_period in *. rewrite Hexit. run. repeat split.
  - run. repeat split.
Qed.

(** An error of the pipe is caught by the last clause and reported. *)
Lemma stop_server_pipe_error_reported s p e :
  server_running s = true ->
  server_process s = Some p ->
  has_stdin p = true ->
  pipe_error p = Some e ->
  e <> TimeoutExpired ->
  stop_server s =
    (Returned tt, s, [Log SendingStop; Log (ErrorStopping e); Show (StopFailed e)]).
Proof.
  intros Hrun Hproc Hin Hpipe He.
  destruct s, p; cbn in *; subst.
  unfold stop_server. run. destruct e; try congruence; reflexivity.
Qed.

(** An error of [terminate()] is raised in the clause of [TimeoutExpired];
    no clause of the same statement catches it, and it leaves [stop_server]. *)
Lemma stop_server_terminate_error s p e :
  server_running s = true ->
  server_process s = Some p ->
  has_stdin p = true ->
  pipe_error p = None ->
  (forall d, exit_after p = Some d -> grace_period < d) ->
  terminate_error p = Some e ->
  outcome (stop_server s) = Raised e
  /\ trace (stop_server s) = [Log SendingStop; Log NotGraceful].
Proof.
  intros Hrun Hproc Hin Hpipe Hexit Hterm.
  destruct s, p; cbn in *; subst.
  unfold stop_server. run.
  destruct exit_after0 as [d |].
  - specialize (Hexit d eq_refl). apply Nat.leb_gt in Hexit.
    unfold grace_period in *. rewrite Hexit. run. repeat split.
  - run. repeat split.
Qed.

(** C3, at a child that does not exit and may not be signalled: [stop] has
    been written and the grace period waited for, and then the error of
    [terminate()] leaves [stop_server] unreported, no dialog and no console
    line naming it. *)
Theorem stop_server_lets_terminate_error_out :
  outcome (stop_server (Example.running Example.stubborn))
    = Raised (OSError "Operation not permitted")
  /\ trace (stop_server (Example.running Example.stubborn))
     = [Log SendingStop; Log NotGraceful]
  /\ stdin_received (final_state (stop_server (Example.running Example.stubborn)))
     = String.append "stop" newline.
Proof. vm_compute. repeat split. Qed.

(** ** Choosing a version *)

#[local] Hint Unfold requests_get mkdir write_bytes : method.

Lemma truthy_false s : PyStr.truthy s = false <-> s = ""%string.
Proof. destruct s; cbn; split; congruence. Qed.

Lemma truthy_true s : PyStr.truthy s = true <-> s <> ""%string.
Proof. destruct s; cbn; split; congruence. Qed.

Lemma contains_In xs x : PyStr.contains xs x = true <-> In x xs.
Proof.
  unfold PyStr.contains. rewrite existsb_exists. split.
  - intros [y [Hin Heq]]. apply String.eqb_eq in Heq. now subst.
  - intros Hin. exists x. split; [exact Hin | apply String.eqb_refl].
Qed.

Lemma nonempty_false {A} (xs : list A) : nonempty xs = false <-> xs = [].
Proof. destruct xs; cbn; split; congruence. Qed.

(** The test the loop makes on an entry is the condition on its game
    versions, and nothing else. *)
Lemma version_matches_condition sv v :
  negb (PyStr.truthy sv) || PyStr.contains (default [] (v_game_versions v)) sv = true
  <-> version_condition sv v.
Proof.
  unfold version_condition. rewrite orb_true_iff, negb_true_iff, truthy_false, contains_In.
  reflexivity.
Qed.

(** The loop stops at the first entry whose game versions fit. *)
Lemma find_best_version_first sv st versions :
  match find_best_version sv st versions with
  | Some found =>
      exists before after,
        versions = before ++ found :: after
        /\ version_condition sv found
        /\ forall v, In v before -> ~ version_condition sv v
  | None => forall v, In v versions -> ~ version_condition sv v
  end.
Proof.
  induction versions as [| v rest IH]; cbn [find_best_version].
  - intros v [].
  - destruct (negb (PyStr.truthy sv) || PyStr.contains (default [] (v_game_versions v)) sv)
      eqn:Hmatch.
    + exists [], rest. split; [reflexivity | split].
      * now apply version_matches_condition.
      * intros u [].
    + assert (Hv : ~ version_condition sv v).
      { rewrite <- version_matches_condition. congruence. }
      destruct (find_best_version sv st rest) as [found |].
      * destruct IH as [before [after [Heq [Hfound Hbefore]]]].
        exists (v :: before), after. split; [cbn; congruence | split; [exact Hfound |]].
        intros u [<- | Hin]; [exact Hv | now apply Hbefore].
      * intros u [<- | Hin]; [exact Hv | now apply IH].
Qed.

(** The server type takes no part in the choice. *)
Lemma find_best_version_any_loader sv st st' versions :
  find_best_version sv st versions = find_best_version sv st' versions.
Proof.
  induction versions as [| v rest IH]; cbn [find_best_version]; [reflexivity |].
  now rewrite IH.
Qed.

(** A game version is given and the filtered list is not empty: one request,
    and the choice is made in that list. *)
Lemma resolve_version_filtered w project_id s first rest :
  server_version s <> ""%string ->
  version_endpoint w (filtered_request project_id (server_version s)) = Ok (first :: rest) ->
  outcome (resolve_version w project_id s) = Returned (Some (chosen s first rest))
  /\ network_calls (trace (resolve_version w project_id s))
     = [filtered_request project_id (server_version s)].
Proof.
  intros Hsv Hfetch.
  unfold chosen. destruct s; cbn in *.
  destruct server_version0 as [| c sv]; [congruence |].
  unfold resolve_version, filtered_request in *. run. rewrite Hfetch.
  repeat first
    [ progress run
    | match goal with
      | |- context [version_truthy ?v] => destruct (version_truthy v)
      | |- context [PyStr.contains ?xs ?x] => destruct (PyStr.contains xs x)
      | |- context [find_best_version ?a ?b ?c] => destruct (find_best_version a b c)
      end ];
    split; reflexivity.
Qed.

Ltac split_cases :=
  repeat first
    [ progress run
    | match goal with
      | |- context [version_truthy ?v] => destruct (version_truthy v)
      | |- context [PyStr.contains ?xs ?x] => destruct (PyStr.contains xs x)
      | |- context [find_best_version ?a ?b ?c] => destruct (find_best_version a b c)
      end ].

(** A game version is given and the filtered list is empty: the list is
    fetched again without the filter, and the choice is made in that list. *)
Lemma resolve_version_refetched w project_id s first rest :
  server_version s <> ""%string ->
  version_endpoint w (filtered_request project_id (server_version s)) = Ok [] ->
  version_endpoint w (unfiltered_request project_id) = Ok (first :: rest) ->
  outcome (resolve_version w project_id s) = Returned (Some (chosen s first rest))
  /\ network_calls (trace (resolve_version w project_id s))
     = [filtered_request project_id (server_version s); unfiltered_request project_id].
Proof.
  intros Hsv Hfiltered Hfetch.
  unfold chosen. destruct s; cbn in *.
  destruct server_version0 as [| c sv]; [congruence |].
  unfold resolve_version, filtered_request, unfiltered_request in *.
  run. rewrite Hfiltered. run. rewrite Hfetch.
  split_cases; split; reflexivity.
Qed.

(** No game version is given: one request, without the filter. *)
Lemma resolve_version_unfiltered w project_id s versions :
  server_version s = ""%string ->
  version_endpoint w (unfiltered_request project_id) = Ok versions ->
  outcome (resolve_version w project_id s)
  = Returned (match versions with
              | [] => None
              | first :: rest => Some (chosen s first rest)
              end)
  /\ network_calls (trace (resolve_version w project_id s))
     = [unfiltered_request project_id].
Proof.
  intros Hsv Hfetch.
  unfold chosen. destruct s; cbn in *. subst.
  unfold resolve_version, unfiltered_request in *.
  run. rewrite Hfetch. destruct versions as [| first rest].
  - run. split; reflexivity.
  - split_cases; split; reflexivity.
Qed.

(** The two lists are empty: the thread reports [NoVersionsAvailable]. *)
Lemma resolve_version_nothing w project_id s :
  server_version s <> ""%string ->
  version_endpoint w (filtered_request project_id (server_version s)) = Ok [] ->
  version_endpoint w (unfiltered_request project_id) = Ok [] ->
  outcome (resolve_version w project_id s) = Returned None
  /\ In (Show NoVersionsAvailable) (trace (resolve_version w project_id s))
  /\ network_calls (trace (resolve_version w project_id s))
     = [filtered_request project_id (server_version s); unfiltered_request project_id].
Proof.
  intros Hsv Hfiltered Hfetch.
  destruct s; cbn in *.
  destruct server_version0 as [| c sv]; [congruence |].
  unfold resolve_version, filtered_request, unfiltered_request in *.
  run. rewrite Hfiltered. run. rewrite Hfetch. run.
  repeat split. cbn. auto 8.
Qed.

(** With a game version given and both requests answered, the thread reports
    [NoVersionsAvailable] only when the two lists are empty. *)
Lemma resolve_version_nothing_iff w project_id s filtered unfiltered :
  server_version s <> ""%string ->
  version_endpoint w (filtered_request project_id (server_version s)) = Ok filtered ->
  version_endpoint w (unfiltered_request project_id) = Ok unfiltered ->
  outcome (resolve_version w project_id s) = Returned None
  <-> filtered = [] /\ unfiltered = [].
Proof.
  intros Hsv Hfiltered Hunfiltered. split.
  - intros Hnone. destruct filtered as [| first rest].
    + split; [reflexivity |]. destruct unfiltered as [| first rest]; [reflexivity |].
      destruct (resolve_version_refetched w project_id s first rest Hsv Hfiltered Hunfiltered)
        as [Hout _].
      congruence.
    + destruct (resolve_version_filtered w project_id s first rest Hsv Hfiltered) as [Hout _].
      congruence.
  - intros [-> ->]. now apply resolve_version_nothing.
Qed.

(** When no entry has the game version, the first entry is taken and marked
    as not found by the loop. *)
Lemma chosen_fallback s first rest :
  (forall v, In v (first :: rest) -> ~ version_condition (server_version s) v) ->
  chosen s first rest = (first, false).
Proof.
  intros Hnone. unfold chosen.
  pose proof (find_best_version_first (server_version s) (PyStr.lower (server_type s))
                (first :: rest)) as Hloop.
  destruct (find_best_version _ _ (first :: rest)) as [found |]; [| reflexivity].
  destruct Hloop as [before [after [Heq [Hfound _]]]].
  exfalso. apply (Hnone found); [| exact Hfound].
  rewrite Heq. apply in_or_app. right. now left.
Qed.

(** When some entry has the game version, the first such entry is taken,
    whatever its loaders. *)
Lemma chosen_first_match s first rest before found after :
  first :: rest = before ++ found :: after ->
  version_condition (server_version s) found ->
  (forall v, In v before -> ~ version_condition (server_version s) v) ->
  server_version s <> ""%string ->
  chosen s first rest = (found, true).
Proof.
  intros Heq Hfound Hbefore Hsv. unfold chosen.
  pose proof (find_best_version_first (server_version s) (PyStr.lower (server_type s))
                (first :: rest)) as Hloop.
  destruct (find_best_version _ _ (first :: rest)) as [found' |].
  - destruct Hloop as [before' [after' [Heq' [Hfound' Hbefore']]]].
    assert (Hsame : before' = before /\ found' = found).
    { rewrite Heq in Heq'. clear Heq.
      revert before' Heq' Hbefore'.
      induction before as [| b before IH]; intros [| b' before'] Heq' Hbefore'; cbn in Heq'.
      - injection Heq' as -> _. now split.
      - injection Heq' as -> _. exfalso. apply (Hbefore' b'); [now left | exact Hfound].
      - injection Heq' as -> _. exfalso. apply (Hbefore found'); [now left | exact Hfound'].
      - injection Heq' as -> Heq'.
        destruct (IH (fun v Hv => Hbefore v (or_intror Hv)) before' Heq'
                    (fun v Hv => Hbefore' v (or_intror Hv))) as [-> ->].
        now split. }
    destruct Hsame as [_ ->].
    assert (Htruthy : version_truthy found = true).
    { destruct Hfound as [Hempty | Hin]; [congruence |].
      unfold version_truthy. destruct (v_game_versions found); [reflexivity | destruct Hin]. }
    now rewrite Htruthy.
  - exfalso. apply (Hloop found); [| exact Hfound].
    rewrite Heq. apply in_or_app. right. now left.
Qed.

(** C1, at two entries for the wanted game version of which only the
    second is for the wanted loader: the second meets both conditions, the
    first does not meet the one on the loader, and the first is selected, as
    found by the loop. *)
Theorem resolve_version_selects_wrong_loader :
  server_version (init Example.nothing) = "1.21.4"%string
  /\ PyStr.lower (server_type (init Example.nothing)) = "paper"%string
  /\ ~ loader_condition "paper" Example.for_fabric
  /\ version_condition "1.21.4" Example.for_paper
  /\ loader_condition "paper" Example.for_paper
  /\ outcome (resolve_version (Example.catalog [Example.for_fabric; Example.for_paper])
                "abc" (init Example.nothing))
     = Returned (Some (Example.for_fabric, true)).
Proof.
  repeat split; try reflexivity.
  - intros [Hempty | [Hin | Hnil]]; [discriminate | | discriminate].
    cbn in Hin. destruct Hin as [Heq | []]. discriminate.
  - right. now left.
  - right. left. now left.
Qed.

(** C8, at two entries neither of which meets both conditions, the first
    having another game version and the second another loader: the second is
    selected, as found by the loop, where the first was to be returned as a
    match that is not exact. *)
Theorem resolve_version_no_fallback_on_loader :
  (forall v, In v [Example.old_paper; Example.for_fabric] ->
             ~ (version_condition "1.21.4" v /\ loader_condition "paper" v))
  /\ outcome (resolve_version (Example.catalog [Example.old_paper; Example.for_fabric])
                "abc" (init Example.nothing))
     = Returned (Some (Example.for_fabric, true)).
Proof.
  split; [| reflexivity].
  intros v [<- | [<- | []]] [Hversion Hloader].
  - destruct Hversion as [Hempty | Hin]; [discriminate |].
    cbn in Hin. destruct Hin as [Heq | []]. discriminate.
  - destruct Hloader as [Hempty | [Hin | Hnil]]; [discriminate | | discriminate].
    cbn in Hin. destruct Hin as [Heq | []]. discriminate.
Qed.

(** ** Searching *)

(** The flag is the disjunction of the three cases. *)
Lemma is_compatible_iff sv gvs :
  is_compatible sv gvs = true <-> sv = ""%string \/ In sv gvs \/ gvs = [].
Proof.
  unfold is_compatible.
  rewrite !orb_true_iff, !negb_true_iff, truthy_false, contains_In, nonempty_false.
  tauto.
Qed.

(** The entry of [plugins_data] the loop stores for a hit. *)
Lemma search_hits_cons sv hit rest n s :
  exists n1 row,
    search_hits sv (hit :: rest) n s =
      match
        search_hits sv rest n1
          (set_plugins_data
             (<[ default ""%string (h_project_id hit) :=
                  {| pd_title := default "Unknown"%string (h_title hit);
                     pd_project_id := default ""%string (h_project_id hit);
                     pd_slug := default ""%string (h_slug hit);
                     pd_description := default ""%string (h_description hit);
                     pd_compatible := is_compatible sv (default [] (h_game_versions hit));
                     pd_game_versions := default [] (h_game_versions hit) |} ]>
                (plugins_data s)) s)
      with
      | (r, s2, t2) => (r, s2, InsertRow row :: t2)
      end.
Proof.
  exists (if is_compatible sv (default [] (h_game_versions hit)) then S n else n),
    {| iid := default ""%string (h_project_id hit);
       display_title :=
         (if negb (is_compatible sv (default [] (h_game_versions hit)))
             && nonempty (default [] (h_game_versions hit)) then Warning
          else if is_compatible sv (default [] (h_game_versions hit)) then Check
          else NoMark,
          default "Unknown"%string (h_title hit));
       row_author := default "Unknown"%string (h_author hit);
       row_downloads := default 0 (h_downloads hit);
       row_latest_version := default "N/A"%string (h_latest_version hit) |}.
  cbn [search_hits]. run.
  destruct (is_compatible sv (default [] (h_game_versions hit)));
    destruct (nonempty (default [] (h_game_versions hit))); cbn;
    match goal with
    | |- context [search_hits sv rest ?k ?st] => destruct (search_hits sv rest k st) as [[r s2] t2]
    end; reflexivity.
Qed.

(** The loop returns, sends no request, touches no field but [plugins_data],
    and leaves the entries of the other projects as they were. *)
Lemma search_hits_frame sv hits : forall n s,
  (exists n', outcome (search_hits sv hits n s) = Returned n')
  /\ network_calls (trace (search_hits sv hits n s)) = []
  /\ server_version (final_state (search_hits sv hits n s)) = server_version s
  /\ forall id, (forall h, In h hits -> default ""%string (h_project_id h) <> id) ->
       plugins_data (final_state (search_hits sv hits n s)) !! id = plugins_data s !! id.
Proof.
  induction hits as [| hit rest IH]; intros n s.
  - repeat split. now exists n.
  - destruct (search_hits_cons sv hit rest n s) as [n1 [row Hstep]]. rewrite Hstep.
    match goal with
    | |- context [search_hits sv rest n1 ?st] =>
        destruct (IH n1 st) as [[n' Hout] [Hnet [Hsv Hframe]]];
        destruct (search_hits sv rest n1 st) as [[r s2] t2] eqn:Hrest
    end.
    unfold outcome, trace, final_state in *. cbn in *.
    split; [now exists n' | split; [exact Hnet | split]].
    + rewrite Hsv. now destruct s.
    + intros id Hid. rewrite Hframe by (intros h Hh; apply Hid; now right).
      destruct s; cbn. apply lookup_insert_ne. apply Hid. now left.
Qed.

(** After the loop, a hit that no later hit overwrites has its entry, with
    the flag computed from the requested version and its own game versions. *)
Lemma search_hits_stores sv before hit after : forall n s,
  (forall h, In h after ->
     default ""%string (h_project_id h) <> default ""%string (h_project_id hit)) ->
  exists pd,
    plugins_data (final_state (search_hits sv (before ++ hit :: after) n s))
      !! default ""%string (h_project_id hit) = Some pd
    /\ pd_game_versions pd = default [] (h_game_versions hit)
    /\ pd_compatible pd = is_compatible sv (default [] (h_game_versions hit)).
Proof.
  intros n s Hlater. revert n s.
  induction before as [| b before IH]; intros n s; cbn [app].
  - destruct (search_hits_cons sv hit after n s) as [n1 [row Hstep]]. rewrite Hstep.
    match goal with
    | |- context [search_hits sv after n1 ?st] =>
        destruct (search_hits_frame sv after n1 st) as [_ [_ [_ Hframe]]];
        destruct (search_hits sv after n1 st) as [[r s2] t2] eqn:Hrest
    end.
    unfold final_state in *. cbn in *.
    rewrite (Hframe _ Hlater). destruct s; cbn. rewrite lookup_insert_eq.
    eexists. repeat split.
  - destruct (search_hits_cons sv b (before ++ hit :: after) n s) as [n1 [row Hstep]].
    rewrite Hstep.
    match goal with
    | |- context [search_hits sv (before ++ hit :: after) n1 ?st] =>
        destruct (IH n1 st) as [pd Hpd];
        destruct (search_hits sv (before ++ hit :: after) n1 st) as [[r s2] t2] eqn:Hrest
    end.
    exists pd. exact Hpd.
Qed.

(** A search whose answer has hits runs the loop on them. *)
Lemma search_thread_runs_loop w query s hits :
  search_endpoint w (search_request query) = Ok (Some hits) ->
  hits <> [] ->
  final_state (_search_plugins_thread w query s)
  = final_state (search_hits (server_version s) hits 0 s)
  /\ network_calls (trace (_search_plugins_thread w query s)) = [search_request query].
Proof.
  intros Hfetch Hhits.
  assert (Hne : nonempty hits = true) by (destruct hits; [congruence | reflexivity]).
  destruct (search_hits_frame (server_version s) hits 0 s) as [[n' Hout] [Hnet _]].
  unfold _search_plugins_thread, search_request in *. run. rewrite Hfetch. run.
  rewrite Hne. run.
  destruct (search_hits (server_version s) hits 0 s) as [[r s2] t2].
  run. subst. cbn.
  split; [reflexivity |].
  rewrite omap_app, Hnet. reflexivity.
Qed.

(** C6: in a search whose answer has hits, a hit that no later hit of the
    same project overwrites is stored with its declared game versions and with
    a flag that holds exactly when the requested game version is empty, or is
    one of the declared game versions, or none is declared. *)
Theorem search_compatible_flag w query s before hit after :
  search_endpoint w (search_request query) = Ok (Some (before ++ hit :: after)) ->
  (forall h, In h after ->
     default ""%string (h_project_id h) <> default ""%string (h_project_id hit)) ->
  exists pd,
    plugins_data (final_state (_search_plugins_thread w query s))
      !! default ""%string (h_project_id hit) = Some pd
    /\ pd_game_versions pd = default [] (h_game_versions hit)
    /\ (pd_compatible pd = true <->
        server_version s = ""%string
        \/ In (server_version s) (default [] (h_game_versions hit))
        \/ default [] (h_game_versions hit) = []).
Proof.
  intros Hfetch Hlater.
  destruct (search_thread_runs_loop w query s (before ++ hit :: after) Hfetch) as [Hfinal _].
  { now destruct before. }
  rewrite Hfinal.
  destruct (search_hits_stores (server_version s) before hit after 0 s Hlater)
    as [pd [Hpd [Hgvs Hflag]]].
  exists pd. repeat split; try assumption.
  - intros Htrue. apply is_compatible_iff. congruence.
  - intros Hcases. rewrite Hflag. now apply is_compatible_iff.
Qed.

Lemma search_compatible_flag_witness :
  exists pd,
    plugins_data
      (final_state
         (_search_plugins_thread
            (Example.searching [Example.hit_for (Some ["1.20.1"%string])])
            "foo" (init Example.nothing)))
      !! "abc"%string = Some pd
    /\ pd_game_versions pd = ["1.20.1"%string]
    /\ (pd_compatible pd = true <->
        "1.21.4"%string = ""%string
        \/ In "1.21.4"%string ["1.20.1"%string]
        \/ ["1.20.1"%string] = []).
Proof.
  apply (search_compatible_flag
           (Example.searching [Example.hit_for (Some ["1.20.1"%string])])
           "foo" (init Example.nothing) [] (Example.hit_for (Some ["1.20.1"%string])) []
           eq_refl).
  intros h [].
Defined.

(** The two cases the specification lists: a hit declared for 1.20.1 only is
    not compatible with 1.21.4, and a hit that declares nothing is compatible
    with any version. *)
Example is_compatible_other_version :
  is_compatible "1.21.4" ["1.20.1"%string] = false.
Proof. reflexivity. Qed.

Example is_compatible_nothing_declared sv : is_compatible sv [] = true.
Proof. unfold is_compatible. cbn. apply orb_true_r. Qed.

(** A query that is not empty clears the results and starts the thread. *)
Lemma search_plugins_starts_thread s :
  PyStr.strip (search_entry s) <> ""%string ->
  search_plugins s =
    (Returned tt, set_plugins_data ∅ s,
     [ClearTree; Start (SearchPluginsThread (PyStr.strip (search_entry s)))]).
Proof.
  intros Hquery. apply truthy_true in Hquery.
  unfold search_plugins. run. now rewrite Hquery.
Qed.

(** Such a search, when the catalog answers with hits, sends exactly one
    request. *)
Lemma search_plugins_calls_once w s hits :
  PyStr.strip (search_entry s) <> ""%string ->
  search_endpoint w (search_request (PyStr.strip (search_entry s))) = Ok (Some hits) ->
  hits <> [] ->
  network_calls (trace (to_completion w search_plugins s))
  = [search_request (PyStr.strip (search_entry s))].
Proof.
  intros Hquery Hfetch Hhits.
  unfold to_completion. rewrite (search_plugins_starts_thread s Hquery).
  cbn [run_started].
  destruct (search_thread_runs_loop w (PyStr.strip (search_entry s))
              (set_plugins_data ∅ s) hits Hfetch Hhits) as [_ Hnet].
  unfold mbind, M_bind, pass, mret, M_ret.
  destruct (_search_plugins_thread w (PyStr.strip (search_entry s)) (set_plugins_data ∅ s))
    as [[r s2] t2].
  unfold trace in *. cbn in Hnet.
  destruct r; cbn; [rewrite app_nil_r |]; exact Hnet.
Qed.

(** C7: with an empty query, [search_plugins] reports [EmptyQuery] and that
    is all: no thread is started, no request is sent, by the method or by a
    thread of its, and no field changes. *)
Theorem search_plugins_empty_query w s :
  search_entry s = ""%string ->
  to_completion w search_plugins s = (Returned tt, s, [Show EmptyQuery])
  /\ started (trace (to_completion w search_plugins s)) = []
  /\ network_calls (trace (to_completion w search_plugins s)) = [].
Proof.
  intros Hquery.
  assert (Heq : to_completion w search_plugins s = (Returned tt, s, [Show EmptyQuery])).
  { unfold to_completion, search_plugins. run. rewrite Hquery. reflexivity. }
  rewrite Heq. repeat split.
Qed.

Lemma search_plugins_empty_query_witness :
  to_completion (Example.searching [Example.hit_for None]) search_plugins
    (init Example.nothing)
  = (Returned tt, init Example.nothing, [Show EmptyQuery])
  /\ started (trace (to_completion (Example.searching [Example.hit_for None])
                       search_plugins (init Example.nothing))) = []
  /\ network_calls (trace (to_completion (Example.searching [Example.hit_for None])
                             search_plugins (init Example.nothing))) = [].
Proof.
  apply (search_plugins_empty_query (Example.searching [Example.hit_for None])
           (init Example.nothing)).
  reflexivity.
Defined.

(** Blank text is an empty query too. *)
Lemma search_plugins_blank_query w s :
  PyStr.strip (search_entry s) = ""%string ->
  to_completion w search_plugins s = (Returned tt, s, [Show EmptyQuery]).
Proof.
  intros Hquery. unfold to_completion, search_plugins. run. now rewrite Hquery.
Qed.

(** ** Downloading *)

Module PathLibFacts.
Import PathLib.

Lemma split_without_sep sep s :
  forallb (fun c => negb (Ascii.eqb c sep)) (list_ascii_of_string s) = true ->
  split sep s = [s].
Proof.
  induction s as [| c s IH]; cbn; [reflexivity |].
  rewrite andb_true_iff, negb_true_iff. intros [Hc Hs].
  now rewrite Hc, (IH Hs).
Qed.

(** A plain name is a path of one part and no root. *)
Lemma parse_plain_name name :
  plain_name name = true -> parse name = {| root := ""; parts := [name] |}.
Proof.
  unfold plain_name, parse. rewrite andb_true_iff. intros [Hname Hsep].
  rewrite (split_without_sep OsPath.sep name Hsep). cbn [List.filter]. rewrite Hname.
  assert (Hroot : parse_root name = ""%string).
  { destruct name as [| c rest]; [reflexivity |].
    cbn in Hsep. rewrite andb_true_iff, negb_true_iff in Hsep. destruct Hsep as [Hc _].
    unfold parse_root.
    destruct c as [[] [] [] [] [] [] [] []]; try reflexivity. discriminate. }
  now rewrite Hroot.
Qed.

(** Joined to a directory, a plain name is the entry of that name in it. *)
Lemma div_plain_name p name :
  plain_name name = true -> entry_of p name (div p name).
Proof.
  intros Hplain. unfold div. rewrite (parse_plain_name name Hplain). cbn.
  split; reflexivity.
Qed.

End PathLibFacts.

#[local] Arguments PathLib.parse : simpl never.
#[local] Arguments PathLib.div : simpl never.

(** What [download] does when nothing outside fails: the directory is made,
    the file fetched, and its bytes written to [plugins_dir / filename]. *)
Lemma download_succeeds w title project_id best file rest s u content :
  v_files best = Some (file :: rest) ->
  fd_url file = Some u ->
  mkdir_error w (PathLib.parse (plugins_dir s)) = None ->
  download_endpoint w {| url := Some u; params := []; timeout := 30 |} = Ok content ->
  open_error w
    (PathLib.div (PathLib.parse (plugins_dir s))
       (default (project_id +:+ ".jar") (fd_filename file))) = None ->
  download w title project_id best s =
    (Returned tt, s,
     [ Mkdir (PathLib.parse (plugins_dir s));
       Log (Downloading (default (project_id +:+ ".jar") (fd_filename file)));
       Get {| url := Some u; params := []; timeout := 30 |};
       WriteFile
         (PathLib.div (PathLib.parse (plugins_dir s))
            (default (project_id +:+ ".jar") (fd_filename file)))
         content;
       Log (InstalledTo title
              (PathLib.div (PathLib.parse (plugins_dir s))
                 (default (project_id +:+ ".jar") (fd_filename file))));
       Show (Installed title
               (PathLib.div (PathLib.parse (plugins_dir s))
                  (default (project_id +:+ ".jar") (fd_filename file))));
       RefreshInstalledPlugins ]).
Proof.
  intros Hfiles Hurl Hmkdir Hfetch Hopen.
  unfold download. rewrite Hfiles. run. rewrite Hmkdir. run.
  rewrite Hurl. run. rewrite Hfetch. run. rewrite Hopen. run. reflexivity.
Qed.

(** A file entry without a name is treated as one named after the project. *)
Lemma download_without_filename w title project_id game_versions loaders u rest other s :
  download w title project_id
    {| v_game_versions := game_versions; v_loaders := loaders;
       v_files := Some ({| fd_url := u; fd_filename := None |} :: rest);
       v_other_keys := other |} s
  = download w title project_id
      {| v_game_versions := game_versions; v_loaders := loaders;
         v_files := Some ({| fd_url := u;
                             fd_filename := Some (project_id +:+ ".jar") |} :: rest);
         v_other_keys := other |} s.
Proof. reflexivity. Qed.

(** C10, as the code has it: when nothing outside fails, the bytes fetched
    are written once, to the path [plugins_dir / name], where [name] is the
    file's [filename] or, without one, the project id followed by [.jar]; when
    [name] is a single plain name, that path is the entry called [name] of the
    plugins directory. And an entry without a [filename] fares as the same
    entry with that fallback name. *)
Theorem download_writes_named_entry w title project_id best file rest s u content :
  v_files best = Some (file :: rest) ->
  fd_url file = Some u ->
  mkdir_error w (PathLib.parse (plugins_dir s)) = None ->
  download_endpoint w {| url := Some u; params := []; timeout := 30 |} = Ok content ->
  open_error w
    (PathLib.div (PathLib.parse (plugins_dir s))
       (default (project_id +:+ ".jar") (fd_filename file))) = None ->
  outcome (download w title project_id best s) = Returned tt
  /\ files_written (trace (download w title project_id best s))
     = [ (PathLib.div (PathLib.parse (plugins_dir s))
            (default (project_id +:+ ".jar") (fd_filename file)), content) ]
  /\ (PathLib.plain_name (default (project_id +:+ ".jar") (fd_filename file)) = true ->
      PathLib.entry_of (PathLib.parse (plugins_dir s))
        (default (project_id +:+ ".jar") (fd_filename file))
        (PathLib.div (PathLib.parse (plugins_dir s))
           (default (project_id +:+ ".jar") (fd_filename file))))
  /\ (fd_filename file = None ->
      download w title project_id best s
      = download w title project_id
          {| v_game_versions := v_game_versions best; v_loaders := v_loaders best;
             v_files := Some ({| fd_url := fd_url file;
                                 fd_filename := Some (project_id +:+ ".jar") |} :: rest);
             v_other_keys := v_other_keys best |} s).
Proof.
  intros Hfiles Hurl Hmkdir Hfetch Hopen.
  split; [| split; [| split]].
  - now rewrite (download_succeeds w title project_id best file rest s u content).
  - now rewrite (download_succeeds w title project_id best file rest s u content).
  - apply PathLibFacts.div_plain_name.
  - intros Hnone. destruct best, file. cbn in Hfiles, Hnone. subst.
    apply download_without_filename.
Qed.

Lemma download_writes_named_entry_witness :
  files_written
    (trace (download (Example.catalog []) "Foo" "abc" Example.for_paper (init Example.nothing)))
  = [ ({| PathLib.root := "/"; PathLib.parts := ["srv"; "minecraft"; "plugins"; "paper.jar"]%string |},
       "PK"%string) ].
Proof.
  refine (proj1 (proj2
    (download_writes_named_entry (Example.catalog []) "Foo" "abc" Example.for_paper
       _ _ (init Example.nothing) _ _ eq_refl eq_refl eq_refl eq_refl eq_refl))).
Defined.

(** C10, as it is stated, fails: a [filename] that is an absolute path is
    written where it says, and nothing is written in the plugins directory
    under that name. *)
Lemma download_writes_outside_plugins_dir :
  files_written
    (trace (download (Example.catalog []) "Foo" "abc" Example.escaping (init Example.nothing)))
  = [ ({| PathLib.root := "/"; PathLib.parts := ["tmp"; "evil.jar"]%string |}, "PK"%string) ]
  /\ ~ PathLib.entry_of (PathLib.parse (plugins_dir (init Example.nothing)))
        "/tmp/evil.jar"
        {| PathLib.root := "/"; PathLib.parts := ["tmp"; "evil.jar"]%string |}.
Proof.
  split; [reflexivity |].
  intros [_ Hparts]. vm_compute in Hparts. discriminate.
Qed.

(** ** The configuration *)

(** The record [save_config] writes. *)
Lemma save_config_writes w s :
  open_config_error w = None ->
  save_config w s =
    (Returned tt,
     set_config_json
       (ConfigRecord
          (list_to_map
             [ ("server_jar", server_jar s); ("server_memory", server_memory s);
               ("server_dir", server_dir s); ("plugins_dir", plugins_dir s);
               ("server_type", server_type s); ("server_version", server_version s) ]%string))
       s,
     [Show ConfigSaved]).
Proof.
  intros Hopen. unfold save_config. run. rewrite Hopen. reflexivity.
Qed.

(** A failed save is reported and leaves the file as it was. *)
Lemma save_config_failure w s e :
  open_config_error w = Some e ->
  save_config w s = (Returned tt, s, [Show (ConfigSaveFailed e)]).
Proof.
  intros Hopen. unfold save_config. run. rewrite Hopen. reflexivity.
Qed.

(** Every key of the record written holds the field of its name. *)
Lemma saved_record_lookup s k :
  (list_to_map
     [ ("server_jar", server_jar s); ("server_memory", server_memory s);
       ("server_dir", server_dir s); ("plugins_dir", plugins_dir s);
       ("server_type", server_type s); ("server_version", server_version s) ]%string
   : gmap string string) !! key_name k = Some (field k s).
Proof.
  destruct k; cbn [list_to_map foldr key_name field uncurry];
    repeat (first [ now rewrite lookup_insert_eq
                  | rewrite lookup_insert_ne by discriminate ]).
Qed.

(** The values [__init__] gives the six fields. *)
Lemma init_fields w :
  field ServerJar (init w) = "server.jar"%string
  /\ field ServerMemory (init w) = "2048"%string
  /\ field ServerDir (init w) = getcwd w
  /\ field PluginsDir (init w) = OsPath.join (getcwd w) "plugins"
  /\ field ServerType (init w) = "paper"%string
  /\ field ServerVersion (init w) = "1.21.4"%string.
Proof. repeat split. Qed.

(** Loading a record sets each field to the value of its key, or to the
    value [__init__] gives the field when the key is missing. *)
Lemma load_config_field w s config k :
  config_json s = ConfigRecord config ->
  field k (final_state (load_config w s))
  = default (field k (init w)) (config !! key_name k).
Proof.
  intros Hfile. destruct s; cbn in Hfile; subst.
  unfold load_config. run. destruct k; reflexivity.
Qed.

(** C9: after a save that could write the file, a load, from whatever values
    the fields have by then, sets each of the six fields to the value it had
    when saved; and a load of a record in which the key of a field is missing
    sets the field to the value [__init__] gives it. *)
Theorem save_then_load_config w s :
  (open_config_error w = None ->
   forall s', config_json s' = config_json (final_state (save_config w s)) ->
   forall k, field k (final_state (load_config w s')) = field k s)
  /\ (forall config k,
        config_json s = ConfigRecord config ->
        config !! key_name k = None ->
        field k (final_state (load_config w s)) = field k (init w)).
Proof.
  split.
  - intros Hopen s' Hfile k.
    rewrite (save_config_writes w s Hopen) in Hfile.
    unfold final_state, set_config_json in Hfile. cbn [fst snd config_json] in Hfile.
    rewrite (load_config_field w s' _ k Hfile), saved_record_lookup. reflexivity.
  - intros config k Hfile Hmissing.
    now rewrite (load_config_field w s config k Hfile), Hmissing.
Qed.

Lemma save_then_load_config_witness :
  server_type
    (final_state
       (load_config Example.nothing
          (final_state (save_config Example.nothing Example.configured))))
  = "Fabric"%string
  /\ server_version
       (final_state
          (load_config Example.nothing
             (final_state (save_config Example.nothing Example.configured))))
     = ""%string.
Proof.
  split.
  - apply (proj1 (save_then_load_config Example.nothing Example.configured)
             eq_refl _ eq_refl ServerType).
  - apply (proj1 (save_then_load_config Example.nothing Example.configured)
             eq_refl _ eq_refl ServerVersion).
Defined.

(** * More of the supervisor *)

(** X1: when the pipe works and the child can be signalled, [stop_server]
    returns, the child has received the line [stop], and it has been
    signalled exactly when it did not exit within the 30 of the grace period
    (or had been signalled before). *)
Theorem stop_server_escalates_on_timeout s p :
  server_running s = true ->
  server_process s = Some p ->
  has_stdin p = true ->
  pipe_error p = None ->
  terminate_error p = None ->
  outcome (stop_server s) = Returned tt
  /\ stdin_received (final_state (stop_server s))
     = stdin_received s +:+ (buffered p +:+ ("stop" +:+ newline))
  /\ (terminated <$> server_process (final_state (stop_server s)))
     = Some (terminated p
             || match exit_after p with
                | Some d => negb (d <=? 30)
                | None => true
                end).
Proof.
  intros Hrun Hproc Hin Hpipe Hterm.
  destruct s, p; cbn in *; subst.
  unfold stop_server, stdin_received, grace_period. run.
  destruct exit_after0 as [d |]; run.
  - destruct (d <=? 30); run; repeat split.
    + now rewrite orb_false_r.
    + now rewrite orb_true_r.
  - repeat split. now rewrite orb_true_r.
Qed.

Lemma stop_server_escalates_on_timeout_witness :
  (terminated <$> server_process (final_state (stop_server (Example.running Scene.deaf))))
  = Some true.
Proof.
  exact (proj2 (proj2 (stop_server_escalates_on_timeout
                         (Example.running Scene.deaf) Scene.deaf
                         eq_refl eq_refl eq_refl eq_refl eq_refl))).
Defined.

(** X2: when the pipe to the child is broken, [stop_server] reports the
    error, in the console and in a dialog, and returns; the child is neither
    waited for nor signalled, and no field changes. [send_command] logs the
    error and returns, and the text stays in the entry. *)
Theorem broken_pipe_reported s p e :
  server_running s = true ->
  server_process s = Some p ->
  has_stdin p = true ->
  pipe_error p = Some e ->
  e <> TimeoutExpired ->
  stop_server s
  = (Returned tt, s, [Log SendingStop; Log (ErrorStopping e); Show (StopFailed e)])
  /\ (PyStr.strip (command_entry s) <> ""%string ->
      send_command s
      = (Returned tt, s,
         [Log (Echo (PyStr.strip (command_entry s))); Log (ErrorSending e)])).
Proof.
  intros Hrun Hproc Hin Hpipe He. split.
  - now apply (stop_server_pipe_error_reported s p e).
  - intros Htext. destruct s, p; cbn in *; subst.
    unfold send_command. run.
    destruct (PyStr.strip command_entry0) as [| c rest]; [congruence |].
    run. reflexivity.
Qed.

Lemma broken_pipe_reported_witness :
  stop_server (Example.running Scene.gone)
  = (Returned tt, Example.running Scene.gone,
     [Log SendingStop; Log (ErrorStopping (OSError "Broken pipe"));
      Show (StopFailed (OSError "Broken pipe"))]).
Proof.
  apply (broken_pipe_reported (Example.running Scene.gone) Scene.gone
           (OSError "Broken pipe") eq_refl eq_refl eq_refl eq_refl).
  discriminate.
Defined.

(** * More of the installer *)

Lemma keeps_fields_ret {A} (a : A) : keeps_fields (mret a : M A).
Proof. intros s. reflexivity. Qed.

Lemma keeps_fields_emit e : keeps_fields (emit e).
Proof. intros s. reflexivity. Qed.

Lemma keeps_fields_raise {A} e : keeps_fields (raise e : M A).
Proof. intros s. reflexivity. Qed.

Lemma keeps_fields_get : keeps_fields get_self.
Proof. intros s. reflexivity. Qed.

Lemma keeps_fields_bind {A B} (m : M A) (f : A -> M B) :
  keeps_fields m -> (forall a, keeps_fields (f a)) -> keeps_fields (m ≫= f).
Proof.
  intros Hm Hf s. specialize (Hm s). unfold final_state, mbind, M_bind in *.
  destruct (m s) as [[[a | e] s1] t1]; cbn in *; subst; [| reflexivity].
  specialize (Hf a s). destruct (f a s) as [[r s2] t2]. exact Hf.
Qed.

Lemma keeps_fields_try_except {A} (body : M A) hs :
  keeps_fields body ->
  (forall e h, find_handler hs e = Some h -> keeps_fields h) ->
  keeps_fields (try_except body hs).
Proof.
  intros Hbody Hhs s. specialize (Hbody s). unfold final_state, try_except in *.
  destruct (body s) as [[[a | e] s1] t1]; cbn in *; subst; [reflexivity |].
  destruct (find_handler hs e) as [h |] eqn:Hfind; [| reflexivity].
  specialize (Hhs e h Hfind s). destruct (h s) as [[r s2] t2]. exact Hhs.
Qed.

Lemma keeps_fields_requests_get {A} (endpoint : request -> response A) r :
  keeps_fields (requests_get endpoint r).
Proof.
  intros s. unfold requests_get. destruct (url r); [| reflexivity].
  run. now destruct (endpoint r).
Qed.

Create HintDb fields.
#[local] Hint Resolve keeps_fields_ret keeps_fields_emit keeps_fields_raise
  keeps_fields_get keeps_fields_requests_get : fields.

(** Splits a method along its binds and its tests. *)
Ltac along_the_method :=
  repeat first
    [ progress intros
    | progress cbv zeta
    | solve [ auto with fields ]
    | apply keeps_fields_bind
    | match goal with
      | |- keeps_fields (if ?b then _ else _) => destruct b
      | |- keeps_fields (match ?x with _ => _ end) => destruct x
      | |- keeps_fields (log_to_console _) => apply keeps_fields_emit
      | |- keeps_fields (messagebox _) => apply keeps_fields_emit
      | |- keeps_fields pass => apply keeps_fields_ret
      end ].

Lemma keeps_fields_resolve_version w project_id :
  keeps_fields (resolve_version w project_id).
Proof. unfold resolve_version. along_the_method. Qed.

Lemma keeps_fields_download w title project_id best :
  keeps_fields (download w title project_id best).
Proof.
  unfold download. along_the_method.
  - unfold mkdir. along_the_method.
  - unfold write_bytes. along_the_method.
Qed.

#[local] Hint Resolve keeps_fields_resolve_version keeps_fields_download : fields.

(** A handler that only tells of the exception. *)
Lemma reporting_handlers_return {A} (body : M A) (first_clause : handler A)
    (report : exn -> M A) :
  (forall e h, first_clause e = Some h -> always_returns h) ->
  (forall e, always_returns (report e)) ->
  always_returns (try_except body [first_clause; except_Exception report]).
Proof.
  intros Hfirst Hlast s. unfold outcome, try_except.
  destruct (body s) as [[[a | e] s1] t1]; cbn; [now exists a |].
  destruct (first_clause e) as [h |] eqn:Hh.
  - destruct (Hfirst e h Hh s1) as [a Ha]. unfold outcome in Ha.
    destruct (h s1) as [[r s2] t2]. now exists a.
  - unfold except_Exception. destruct (Hlast e s1) as [a Ha]. unfold outcome in Ha.
    destruct (report e s1) as [[r s2] t2]. now exists a.
Qed.

(** X3: the thread of an installation, whatever the catalog and the disk
    answer, returns (every failure is caught and reported) and leaves every
    field of the window as it was; the thread of a search returns as well. *)
Theorem threads_contain_failures w :
  (forall data s,
     outcome (_install_plugin_thread w data s) = Returned tt
     /\ final_state (_install_plugin_thread w data s) = s)
  /\ (forall query s, outcome (_search_plugins_thread w query s) = Returned tt).
Proof.
  split.
  - intros data s. split.
    + destruct (reporting_handlers_return
                  (log_to_console (InstallingPlugin (pd_title data));;
                   resolved ← resolve_version w (pd_project_id data);
                   match resolved with
                   | None => pass
                   | Some (best_version, _) =>
                       download w (pd_title data) (pd_project_id data) best_version
                   end)
                  (except_RequestException (fun e =>
                     messagebox (DownloadFailed e);; log_to_console (InstallError e)))
                  (fun e => messagebox (UnexpectedError e);; log_to_console (ErrorLine e))
                  ) with (s := s) as [[] Hout].
      * intros e h Hh s'. destruct e; cbn in Hh; try discriminate.
        injection Hh as <-. now exists tt.
      * intros e s'. now exists tt.
      * exact Hout.
    + apply keeps_fields_try_except.
      * along_the_method.
      * intros e h Hh. cbn in Hh. destruct e; cbn in Hh; injection Hh as <-;
          along_the_method.
  - intros query s.
    destruct (reporting_handlers_return
                (s ← get_self;
                 let server_type := PyStr.lower (server_type s) in
                 let server_version := server_version s in
                 log_to_console (Searching query server_type server_version);;
                 let loader := default "paper"%string (dict_get loader_map server_type) in
                 data ← requests_get (search_endpoint w) (search_request query);
                 let hits := default [] data in
                 if negb (nonempty hits) then
                   messagebox NoResults
                 else
                   compatible_count ← search_hits server_version hits 0;
                   log_to_console (Found (length hits) compatible_count server_version))
                (except_RequestException (fun e =>
                   messagebox (SearchFailed e);; log_to_console (SearchError e)))
                (fun e => messagebox (UnexpectedError e);; log_to_console (ErrorLine e))
                ) with (s := s) as [[] Hout].
    + intros e h Hh s'. destruct e; cbn in Hh; try discriminate.
      injection Hh as <-. now exists tt.
    + intros e s'. now exists tt.
    + exact Hout.
Qed.

(** The thread of a search, up to the answer of the catalog. *)
Lemma search_thread_failed w query s what :
  search_endpoint w (search_request query) = Failed what ->
  _search_plugins_thread w query s
  = (Returned tt, s,
     [ Log (Searching query (PyStr.lower (server_type s)) (server_version s));
       Get (search_request query);
       Show (SearchFailed (RequestException what));
       Log (SearchError (RequestException what)) ]).
Proof.
  intros Hfetch. unfold _search_plugins_thread, search_request in *. run.
  rewrite Hfetch. reflexivity.
Qed.

Lemma search_thread_no_hits w query s data :
  search_endpoint w (search_request query) = Ok data ->
  default [] data = [] ->
  _search_plugins_thread w query s
  = (Returned tt, s,
     [ Log (Searching query (PyStr.lower (server_type s)) (server_version s));
       Get (search_request query);
       Show NoResults ]).
Proof.
  intros Hfetch Hnone. unfold _search_plugins_thread, search_request in *. run.
  rewrite Hfetch. run. rewrite Hnone. reflexivity.
Qed.

(** X4: a search the catalog does not answer is reported as [SearchFailed],
    in a dialog and in the console; one whose answer has no hits (or no
    ["hits"] at all) is reported as [NoResults], which is not an error. Either
    way one request has been sent and no field changes: what an earlier search
    left in [plugins_data] after the clearing of [search_plugins] stays. *)
Theorem search_without_results w query s :
  (forall what,
     search_endpoint w (search_request query) = Failed what ->
     final_state (_search_plugins_thread w query s) = s
     /\ dialogs (trace (_search_plugins_thread w query s))
        = [SearchFailed (RequestException what)]
     /\ network_calls (trace (_search_plugins_thread w query s)) = [search_request query])
  /\ (forall data,
        search_endpoint w (search_request query) = Ok data ->
        default [] data = [] ->
        final_state (_search_plugins_thread w query s) = s
        /\ dialogs (trace (_search_plugins_thread w query s)) = [NoResults]
        /\ network_calls (trace (_search_plugins_thread w query s)) = [search_request query]).
Proof.
  split.
  - intros what Hfetch. rewrite (search_thread_failed w query s what Hfetch).
    repeat split.
  - intros data Hfetch Hnone. rewrite (search_thread_no_hits w query s data Hfetch Hnone).
    repeat split.
Qed.

Lemma search_without_results_witness :
  dialogs (trace (_search_plugins_thread Scene.offline "essentials" (init Scene.offline)))
  = [SearchFailed (RequestException "timed out")].
Proof.
  exact (proj1 (proj2 (proj1 (search_without_results Scene.offline "essentials"
                                (init Scene.offline)) "timed out" eq_refl))).
Defined.

(** The loop of a search, run: the count it returns and the rows it inserts. *)
Lemma search_hits_rows sv hits : forall n s,
  outcome (search_hits sv hits n s)
  = Returned (n + length (List.filter
                            (fun h => is_compatible sv (default [] (h_game_versions h))) hits))
  /\ map iid (inserted_rows (trace (search_hits sv hits n s)))
     = map (fun h => default ""%string (h_project_id h)) hits
  /\ map (fun r => snd (display_title r)) (inserted_rows (trace (search_hits sv hits n s)))
     = map (fun h => default "Unknown"%string (h_title h)) hits
  /\ length (trace (search_hits sv hits n s)) = length hits.
Proof.
  induction hits as [| hit rest IH]; intros n s.
  - cbn. rewrite Nat.add_0_r. repeat split.
  - cbn [search_hits List.filter]. run.
    destruct (is_compatible sv (default [] (h_game_versions hit)));
      destruct (nonempty (default [] (h_game_versions hit))); cbn;
      match goal with
      | |- context [search_hits sv rest ?k ?st] =>
          destruct (IH k st) as [Hout [Hids [Htitles Hlen]]];
          destruct (search_hits sv rest k st) as [[r s2] t2]
      end;
      unfold outcome, trace, inserted_rows in *; cbn in *; subst;
      repeat split; try congruence; f_equal; lia.
Qed.



#[local] Hint Unfold dialogs directories_made inserted_rows network_calls files_written
  started : method.

(** X6: when the one version the catalog has for the game version has no
    file, the thread of an installation reports [NoDownloadableFile] and stops
    there: the only request sent is the one for the versions, no directory is
    made and nothing is written. *)
Theorem install_without_files w data s v :
  server_version s <> ""%string ->
  version_endpoint w (filtered_request (pd_project_id data) (server_version s)) = Ok [v] ->
  default [] (v_files v) = [] ->
  dialogs (trace (_install_plugin_thread w data s)) = [NoDownloadableFile]
  /\ network_calls (trace (_install_plugin_thread w data s))
     = [filtered_request (pd_project_id data) (server_version s)]
  /\ directories_made (trace (_install_plugin_thread w data s)) = []
  /\ files_written (trace (_install_plugin_thread w data s)) = [].
Proof.
  intros Hsv Hfetch Hfiles.
  destruct s; cbn in *.
  destruct server_version0 as [| c sv]; [congruence |].
  unfold _install_plugin_thread, resolve_version, download, filtered_request in *.
  run. rewrite Hfetch.
  split_cases; rewrite ?Hfiles; run; repeat split.
Qed.

Lemma install_without_files_witness :
  dialogs
    (trace (_install_plugin_thread (Example.catalog [Scene.empty_release])
              (Scene.data_of "abc" "Foo") (init Example.nothing)))
  = [NoDownloadableFile].
Proof.
  refine (proj1 (install_without_files (Example.catalog [Scene.empty_release])
                   (Scene.data_of "abc" "Foo") (init Example.nothing)
                   Scene.empty_release _ eq_refl eq_refl)).
  discriminate.
Defined.

(** X7: when the file of the one version the catalog has cannot be fetched,
    the thread of an installation reports [DownloadFailed] and writes
    nothing; the plugins directory has been made before the request. A file
    entry without [url] is reported in the same way, and no request is sent
    for it. *)
Theorem install_download_failure w data s v file more :
  server_version s <> ""%string ->
  version_endpoint w (filtered_request (pd_project_id data) (server_version s)) = Ok [v] ->
  v_files v = Some (file :: more) ->
  mkdir_error w (PathLib.parse (plugins_dir s)) = None ->
  (forall u what,
     fd_url file = Some u ->
     download_endpoint w {| url := Some u; params := []; timeout := 30 |} = Failed what ->
     dialogs (trace (_install_plugin_thread w data s))
     = [DownloadFailed (RequestException what)]
     /\ network_calls (trace (_install_plugin_thread w data s))
        = [ filtered_request (pd_project_id data) (server_version s);
            {| url := Some u; params := []; timeout := 30 |} ]
     /\ directories_made (trace (_install_plugin_thread w data s))
        = [PathLib.parse (plugins_dir s)]
     /\ files_written (trace (_install_plugin_thread w data s)) = [])
  /\ (fd_url file = None ->
      dialogs (trace (_install_plugin_thread w data s))
      = [DownloadFailed (RequestException "MissingSchema")]
      /\ network_calls (trace (_install_plugin_thread w data s))
         = [filtered_request (pd_project_id data) (server_version s)]
      /\ files_written (trace (_install_plugin_thread w data s)) = []).
Proof.
  intros Hsv Hfetch Hfiles Hmkdir.
  destruct s; cbn in *.
  destruct server_version0 as [| c sv]; [congruence |].
  split.
  - intros u what Hurl Hget.
    unfold _install_plugin_thread, resolve_version, download, filtered_request in *.
    run. rewrite Hfetch.
    split_cases; rewrite ?Hfiles; run; rewrite ?Hmkdir; run; rewrite ?Hurl; run;
      rewrite ?Hget; run; repeat split.
  - intros Hurl.
    unfold _install_plugin_thread, resolve_version, download, filtered_request in *.
    run. rewrite Hfetch.
    split_cases; rewrite ?Hfiles; run; rewrite ?Hmkdir; run; rewrite ?Hurl; run;
      repeat split.
Qed.

Lemma install_download_failure_witness :
  dialogs
    (trace (_install_plugin_thread (Scene.stale [Example.for_paper])
              (Scene.data_of "abc" "Foo") (init Example.nothing)))
  = [DownloadFailed (RequestException "404")].
Proof.
  refine (proj1 (proj1 (install_download_failure (Scene.stale [Example.for_paper])
                          (Scene.data_of "abc" "Foo") (init Example.nothing)
                          Example.for_paper _ _ _ eq_refl eq_refl eq_refl)
                   _ _ eq_refl eq_refl)).
  discriminate.
Defined.

(** X8: when the catalog has no version for the requested game version, the
    list is fetched again without the filter; if none of its entries has the
    game version either, the first entry, the latest by the catalog's order,
    is taken, and the console tells that the latest version is used. *)
Theorem resolve_version_falls_back_to_latest w project_id s first rest :
  server_version s <> ""%string ->
  version_endpoint w (filtered_request project_id (server_version s)) = Ok [] ->
  version_endpoint w (unfiltered_request project_id) = Ok (first :: rest) ->
  (forall v, In v (first :: rest) ->
             ~ In (server_version s) (default [] (v_game_versions v))) ->
  outcome (resolve_version w project_id s) = Returned (Some (first, false))
  /\ trace (resolve_version w project_id s)
     = [ Get (filtered_request project_id (server_version s));
         Log (TryingLatest (server_version s));
         Get (unfiltered_request project_id);
         Log (UsingLatest (take 3 (default [] (v_game_versions first)))) ].
Proof.
  intros Hsv Hfiltered Hfetch Hnone.
  assert (Hloop : find_best_version (server_version s) (PyStr.lower (server_type s))
                    (first :: rest) = None).
  { pose proof (find_best_version_first (server_version s) (PyStr.lower (server_type s))
                  (first :: rest)) as Hloop.
    destruct (find_best_version _ _ (first :: rest)) as [found |]; [| reflexivity].
    destruct Hloop as [before [after [Heq [[Hempty | Hin] _]]]]; [congruence |].
    exfalso. apply (Hnone found); [| exact Hin].
    rewrite Heq. apply in_or_app. right. now left. }
  destruct s; cbn in *.
  destruct server_version0 as [| c sv]; [congruence |].
  unfold resolve_version, filtered_request, unfiltered_request in *.
  cbn [find_best_version] in Hloop.
  run. rewrite Hfiltered. run. rewrite Hfetch. run.
  destruct (PyStr.contains (default [] (v_game_versions first)) (String c sv));
    [discriminate |].
  rewrite Hloop. run. split; reflexivity.
Qed.

Lemma resolve_version_falls_back_to_latest_witness :
  outcome (resolve_version (Scene.shelves [] [Example.old_paper]) "abc" (init Example.nothing))
  = Returned (Some (Example.old_paper, false)).
Proof.
  refine (proj1 (resolve_version_falls_back_to_latest
                   (Scene.shelves [] [Example.old_paper]) "abc" (init Example.nothing)
                   Example.old_paper [] _ eq_refl eq_refl _)).
  - discriminate.
  - intros v [<- | []] [Heq | []]. discriminate.
Defined.

(** * More of the configuration *)

(** X9: [load_config] never raises. Without a file it does nothing; with
    a file that does not hold a record it logs a warning and leaves every
    field as it was. *)
Theorem load_config_without_record w s :
  (exists a, outcome (load_config w s) = Returned a)
  /\ (config_json s = NoFile -> load_config w s = (Returned tt, s, []))
  /\ (config_json s = NotARecord ->
      load_config w s
      = (Returned tt, s, [Log (ConfigWarning (ValueError "server_config.json"))])).
Proof.
  unfold load_config. run.
  destruct (config_json s) eqn:Hfile; run;
    (split; [now exists tt | split; intros Hcase; first [discriminate | reflexivity]]).
Qed.

(** X10: [save_config] never raises and changes none of the six fields it
    saves; when the file cannot be opened it reports [ConfigSaveFailed] and
    the file stays as it was. *)
Theorem save_config_keeps_fields w s :
  outcome (save_config w s) = Returned tt
  /\ (forall k, field k (final_state (save_config w s)) = field k s)
  /\ (forall e, open_config_error w = Some e ->
        config_json (final_state (save_config w s)) = config_json s
        /\ trace (save_config w s) = [Show (ConfigSaveFailed e)]).
Proof.
  destruct (open_config_error w) as [e |] eqn:Hopen.
  - rewrite (save_config_failure w s e Hopen).
    split; [reflexivity | split; [reflexivity |]].
    intros e' He'. injection He' as <-. split; reflexivity.
  - rewrite (save_config_writes w s Hopen).
    split; [reflexivity | split; [intros k; now destruct k | discriminate]].
Qed.

(** * The server thread, restarting and closing *)

Create HintDb window.
#[local] Hint Unfold mbind mret D_bind D_ret the_desktop change tell fail skip
  attempt attempt_finally lift result_of desktop_after actions
  server_thread_ends catch_Exception find_catcher and_then
  console_output events_of : window.

(** Runs a method of the window on the state of the goal. *)
Ltac play := repeat (progress (autounfold with window in *; cbn in *)).

(** The reading of the output changes nothing, and tells each line up to the
    end of the stream. *)
Lemma relay_reads output read_error d :
  desktop_after (relay output read_error d) = d
  /\ (Forall (fun line => line <> ""%string) output ->
      actions (relay output read_error d) = map (fun line => LogMore (ServerOutput line)) output
      /\ result_of (relay output read_error d)
         = match read_error with Some e => Raised e | None => Returned tt end).
Proof.
  induction output as [| line rest [IHd IHa]]; cbn [relay].
  - split; [now destruct read_error |]. intros _. now destruct read_error.
  - destruct line as [| c line]; cbn [PyStr.truthy].
    + split; [reflexivity |]. intros Hall. inversion Hall; congruence.
    + play. destruct (relay rest read_error d) as [[r d1] t1]. play. subst.
      split; [now destruct r |].
      intros Hall. inversion Hall as [| ? ? _ Hrest]; subst.
      destruct (IHa Hrest) as [-> ->]. now destruct read_error.
Qed.

(** The stream ends at its first empty line: what comes after is not read,
    and no error of the reading is raised. *)
Lemma relay_stops_at_end before after read_error d :
  Forall (fun line => line <> ""%string) before ->
  relay (before ++ ""%string :: after) read_error d
  = (Returned tt, d, map (fun line => LogMore (ServerOutput line)) before).
Proof.
  induction before as [| line rest IH]; intros Hall; cbn [app relay map].
  - reflexivity.
  - inversion Hall as [| ? ? Hline Hrest]; subst.
    destruct line as [| c line]; [congruence |]. cbn [PyStr.truthy].
    play. now rewrite (IH Hrest).
Qed.

(** X11: however the server thread goes, whether [Popen] fails, the reading
    of the output fails, or the child exits, it raises nothing and ends by
    setting [server_running] to false, asking for the status to show
    [Stopped] and telling so in the console; the list of plugins and the disk
    are not touched. When [Popen] fails the error is told in the console and
    [server_process] stays what it was. *)
Theorem server_thread_always_ends_stopped popen_call cmd d :
  result_of (_run_server_process popen_call cmd d) = Returned tt
  /\ server_running (self (desktop_after (_run_server_process popen_call cmd d))) = false
  /\ (exists before,
        actions (_run_server_process popen_call cmd d)
        = before ++ [ Did (UpdateServerStatus false); LogMore StoppedSeparator;
                      LogMore ServerStopped ])
  /\ installed_plugins_listbox (desktop_after (_run_server_process popen_call cmd d))
     = installed_plugins_listbox d
  /\ folders (desktop_after (_run_server_process popen_call cmd d)) = folders d
  /\ (forall e,
        popen_call cmd (server_dir (self d)) = LaunchFailed e ->
        server_process (self (desktop_after (_run_server_process popen_call cmd d)))
        = server_process (self d)
        /\ In (LogMore (ErrorRunning e)) (actions (_run_server_process popen_call cmd d))).
Proof.
  unfold _run_server_process. play.
  destruct (popen_call cmd (server_dir (self d))) as [child output read_error | e].
  - play.
    match goal with
    | |- context [relay output read_error ?st] =>
        destruct (relay_reads output read_error st) as [Hd _];
        destruct (relay output read_error st) as [[r d1] t1]
    end.
    play. subst. destruct r as [[] | e]; play.
    + split; [reflexivity | split; [reflexivity | split; [now exists t1 |]]].
      split; [reflexivity | split; [reflexivity | discriminate]].
    + split; [reflexivity | split; [reflexivity | split]].
      { exists (t1 ++ [LogMore (ErrorRunning e)]). now rewrite <- app_assoc. }
      split; [reflexivity | split; [reflexivity | discriminate]].
  - play. split; [reflexivity | split; [reflexivity | split]].
    { now exists [LogMore (ErrorRunning e)]. }
    split; [reflexivity | split; [reflexivity |]].
    intros e' He'. injection He' as <-. split; [reflexivity | now left].
Qed.

(** X12: once [Popen] has given the child, [server_process] is the child and
    its output is shown in the console line by line, in order, up to the end
    of the stream: everything, when no line is empty; when a line is empty,
    the lines before it, and then neither a later line nor an error of the
    reading is seen. *)
Theorem server_thread_relays_output popen_call cmd d child output read_error :
  popen_call cmd (server_dir (self d)) = Launched child output read_error ->
  server_process (self (desktop_after (_run_server_process popen_call cmd d))) = Some child
  /\ (Forall (fun line => line <> ""%string) output ->
      console_output (actions (_run_server_process popen_call cmd d)) = output)
  /\ (forall before after,
        output = before ++ ""%string :: after ->
        Forall (fun line => line <> ""%string) before ->
        console_output (actions (_run_server_process popen_call cmd d)) = before
        /\ forall e, ~ In (LogMore (ErrorRunning e))
                       (actions (_run_server_process popen_call cmd d))).
Proof.
  intros Hlaunch. unfold _run_server_process. play. rewrite Hlaunch. play.
  assert (Hlines : forall lines : list string,
            omap (fun a => match a with
                           | LogMore (ServerOutput line) => Some line
                           | _ => None
                           end)
              (map (fun line => LogMore (ServerOutput line)) lines) = lines).
  { induction lines as [| l lines IH]; cbn; [reflexivity | now rewrite IH]. }
  split; [| split].
  - match goal with
    | |- context [relay output read_error ?st] =>
        destruct (relay_reads output read_error st) as [Hd _];
        destruct (relay output read_error st) as [[r d1] t1]
    end.
    play. subst. destruct r; reflexivity.
  - intros Hall.
    match goal with
    | |- context [relay output read_error ?st] =>
        destruct (relay_reads output read_error st) as [Hd Ha];
        destruct (Ha Hall) as [Hacts Hres];
        destruct (relay output read_error st) as [[r d1] t1]
    end.
    play. subst. destruct read_error as [e |]; play;
      rewrite !omap_app, Hlines; cbn; rewrite ?app_nil_r; reflexivity.
  - intros before after -> Hall.
    match goal with
    | |- context [relay _ read_error ?st] =>
        rewrite (relay_stops_at_end before after read_error st Hall)
    end.
    play. rewrite !omap_app, Hlines. cbn. rewrite app_nil_r. split; [reflexivity |].
    intros e Hin. apply in_app_or in Hin. destruct Hin as [Hin | Hin].
    + apply in_map_iff in Hin. destruct Hin as [line [Heq _]]. discriminate.
    + cbn in Hin. repeat destruct Hin as [Hin | Hin]; try discriminate. exact Hin.
Qed.

Lemma server_thread_relays_output_witness :
  console_output
    (actions (_run_server_process (Stage.prints ["Starting"; "Done"]%string)
                ["java"]%string (Stage.around (init Example.nothing))))
  = ["Starting"; "Done"]%string.
Proof.
  refine (proj1 (proj2 (server_thread_relays_output
                          (Stage.prints ["Starting"; "Done"]%string) ["java"]%string
                          (Stage.around (init Example.nothing))
                          Example.obedient ["Starting"; "Done"]%string None eq_refl)) _).
  repeat constructor; discriminate.
Defined.

(** [stop_server] leaves [server_running] and the six fields of the
    configuration as they are. *)
Lemma stop_server_keeps_configuration s :
  server_running (final_state (stop_server s)) = server_running s
  /\ forall k, field k (final_state (stop_server s)) = field k s.
Proof.
  destruct s as [running [p |] jar memory dir plugins type version cmd search data file];
    destruct running; unfold stop_server; run;
    try (split; [reflexivity | intros k; now destruct k]).
  destruct p as [stdin buf del [e |] [d |] [e' |] term]; destruct stdin; run;
    try destruct e; try destruct e'; run;
    try destruct (d <=? grace_period); run;
    (split; [reflexivity | intros k; now destruct k]).
Qed.

(** Runs a method of the window and the methods of the part above it calls. *)
Ltac perform := repeat (progress (autounfold with window method in *; cbn in *)).

(** The reading of the output is none of the events of the part above. *)
Lemma relay_only_logs output read_error d :
  events_of (actions (relay output read_error d)) = [].
Proof.
  induction output as [| line rest IH]; cbn [relay].
  - now destruct read_error.
  - destruct line as [| c line]; cbn [PyStr.truthy]; [reflexivity |].
    play. destruct (relay rest read_error d) as [[r d1] t1]. play. exact IH.
Qed.

(** X13: a restart of a server whose child obeys. [restart_server] writes
    [stop] to the child and starts the waiting thread; when the server thread
    has then read the child's output to its end and the call of [run_server]
    the waiting thread asks for is due, the server is started again, with the
    command a start builds from the configuration, and [server_running] is
    true once more. *)
Theorem restart_starts_again w d p delay output read_error :
  server_running (self d) = true ->
  server_process (self d) = Some p ->
  has_stdin p = true ->
  pipe_error p = None ->
  exit_after p = Some delay ->
  delay <= 30 ->
  path_exists w (jar_path_of (self d)) = true ->
  result_of
    (and_then restart_server
       (and_then (server_thread_reads output read_error)
          (and_then wait_and_restart (call w RunServer))) d) = Returned tt
  /\ started
       (events_of
          (actions
             (and_then restart_server
                (and_then (server_thread_reads output read_error)
                   (and_then wait_and_restart (call w RunServer))) d)))
     = [ RunServerProcess
           [ "java"; "-Xmx" +:+ server_memory (self d) +:+ "M";
             "-Xms" +:+ server_memory (self d) +:+ "M"; "-jar";
             jar_path_of (self d); "nogui" ]%string ]
  /\ server_running
       (self
          (desktop_after
             (and_then restart_server
                (and_then (server_thread_reads output read_error)
                   (and_then wait_and_restart (call w RunServer))) d))) = true
  /\ stdin_received
       (self
          (desktop_after
             (and_then restart_server
                (and_then (server_thread_reads output read_error)
                   (and_then wait_and_restart (call w RunServer))) d)))
     = stdin_received (self d) +:+ (buffered p +:+ ("stop" +:+ newline)).
Proof.
  intros Hrun Hproc Hin Hpipe Hexit Hdelay Hjar.
  apply Nat.leb_le in Hdelay.
  destruct d as [s listbox fs]. destruct s, p. cbn in *. subst.
  unfold restart_server, server_thread_reads, wait_and_restart, call, stop_server,
    run_server, grace_period, stdin_received, jar_path_of in *.
  perform. rewrite Hdelay. perform.
  match goal with
  | |- context [relay output read_error ?st] =>
      destruct (relay_reads output read_error st) as [Hd _];
      pose proof (relay_only_logs output read_error st) as Hlogs;
      destruct (relay output read_error st) as [[r d1] t1]
  end.
  perform. subst.
  destruct r as [[] | e]; perform; rewrite Hjar; perform;
    rewrite !omap_app, Hlogs; repeat split.
Qed.

Lemma restart_starts_again_witness :
  started
    (events_of
       (actions
          (and_then restart_server
             (and_then (server_thread_reads ["Stopping server"]%string None)
                (and_then wait_and_restart (call Stage.everywhere RunServer)))
             (Stage.around (Example.running Example.obedient)))))
  = [ RunServerProcess
        [ "java"; "-Xmx2048M"; "-Xms2048M"; "-jar"; "/srv/minecraft/server.jar";
          "nogui" ]%string ].
Proof.
  refine (proj1 (proj2 (restart_starts_again Stage.everywhere
                          (Stage.around (Example.running Example.obedient))
                          Example.obedient 5 ["Stopping server"]%string None
                          eq_refl eq_refl eq_refl eq_refl eq_refl _ eq_refl))).
  lia.
Defined.

(** X14: the start a restart asks for never comes on top of a run that is
    still there. When [stop_server] has returned and the call of
    [run_server] is due before the server thread has ended, the call is
    refused with [AlreadyRunning]: nothing is started. *)
Theorem restart_waits_for_the_thread w d :
  server_running (self d) = true ->
  result_of (restart_server d) = Returned tt ->
  started
    (events_of
       (actions (and_then restart_server (and_then wait_and_restart (call w RunServer)) d)))
  = []
  /\ In (Did (Show AlreadyRunning))
       (actions (and_then restart_server (and_then wait_and_restart (call w RunServer)) d)).
Proof.
  intros Hrun Hres.
  destruct (stop_server_keeps_configuration (self d)) as [Hkeeps _].
  assert (Hnone : started (trace (stop_server (self d))) = []).
  { clear. destruct (self d)
      as [running [p |] jar memory dir plugins type version cmd search data file];
      destruct running; unfold stop_server; run; try reflexivity.
    destruct p as [stdin buf del [e |] [n |] [e' |] term]; destruct stdin; run;
      try destruct e; try destruct e'; run;
      try destruct (n <=? grace_period); run; reflexivity. }
  assert (Hmap : forall tr : list event, events_of (map Did tr) = tr).
  { induction tr as [| e tr IH]; cbn; [reflexivity | unfold events_of in IH; now rewrite IH]. }
  unfold restart_server, wait_and_restart, call in *. perform. rewrite Hrun in *. perform.
  destruct (stop_server (self d)) as [[[[] | e] s1] t1] eqn:Hstop; perform;
    [| discriminate].
  subst. rewrite (run_server_refused w s1 Hkeeps). perform.
  unfold events_of in Hmap. rewrite !omap_app, Hmap, Hnone. cbn.
  split; [reflexivity |].
  right. apply in_or_app. right. cbn. auto.
Qed.

Lemma restart_waits_for_the_thread_witness :
  In (Did (Show AlreadyRunning))
    (actions (and_then restart_server
                (and_then wait_and_restart (call Stage.everywhere RunServer))
                (Stage.around (Example.running Scene.deaf)))).
Proof.
  exact (proj2 (restart_waits_for_the_thread Stage.everywhere
                  (Stage.around (Example.running Scene.deaf)) eq_refl eq_refl)).
Defined.

(** X15: [restart_server] on a server that is not running shows
    [NotRunning] and does nothing else. On a server that [run_server] has
    marked as running but whose process is not there yet, [stop_server]
    inside it shows [NotRunning], and the waiting thread is started all the
    same. *)
Theorem restart_server_when_not_running d :
  (server_running (self d) = false ->
   restart_server d = (Returned tt, d, [Did (Show NotRunning)]))
  /\ (server_running (self d) = true ->
      server_process (self d) = None ->
      restart_server d
      = (Returned tt, d,
         [LogMore RestartingServer; Did (Show NotRunning); StartWaitAndRestart])).
Proof.
  destruct d as [s listbox fs]. split.
  - intros Hrun. unfold restart_server. perform. now rewrite Hrun.
  - intros Hrun Hproc. destruct s. cbn in *. subst.
    unfold restart_server, stop_server. perform. reflexivity.
Qed.

Lemma restart_server_when_not_running_witness :
  restart_server (Stage.around (init Example.nothing))
  = (Returned tt, Stage.around (init Example.nothing), [Did (Show NotRunning)]).
Proof.
  exact (proj1 (restart_server_when_not_running (Stage.around (init Example.nothing)))
           eq_refl).
Defined.

(** X16: closing the window. With the server stopped the window is
    destroyed at once, with no question. With the server running the user is
    asked first; on a refusal nothing happens; on a consent [stop_server] is
    called and, when it returns, the destruction is set for 2000 ms later;
    when it raises, the window is not destroyed. *)
Theorem on_closing_cases d response :
  (server_running (self d) = false ->
   on_closing response d = (Returned tt, d, [DestroyWindow]))
  /\ (server_running (self d) = true ->
      response = false ->
      on_closing response d = (Returned tt, d, [Asked QuitWhileRunning false]))
  /\ (server_running (self d) = true ->
      response = true ->
      actions (on_closing response d)
      = Asked QuitWhileRunning true
        :: map Did (trace (stop_server (self d)))
        ++ match outcome (stop_server (self d)) with
           | Returned _ => [After 2000 Destroy]
           | Raised _ => []
           end
      /\ result_of (on_closing response d) = outcome (stop_server (self d))).
Proof.
  destruct d as [s listbox fs].
  split; [| split].
  - intros Hrun. unfold on_closing. perform. now rewrite Hrun.
  - intros Hrun ->. unfold on_closing. perform. now rewrite Hrun.
  - intros Hrun ->. unfold on_closing. perform. rewrite Hrun. perform.
    destruct (stop_server s) as [[[[] | e] s1] t1]; perform.
    + split; reflexivity.
    + rewrite app_nil_r. split; reflexivity.
Qed.

Lemma on_closing_cases_witness :
  on_closing true (Stage.around (init Example.nothing))
  = (Returned tt, Stage.around (init Example.nothing), [DestroyWindow]).
Proof.
  exact (proj1 (on_closing_cases (Stage.around (init Example.nothing)) true) eq_refl).
Defined.

(** * The installed plugins *)

Module DiskFacts.
Import Disk.

Lemma parent_of_entry p name :
  PathLib.plain_name name = true ->
  parent (PathLib.div p name) = p /\ Disk.name (PathLib.div p name) = name
  /\ PathLib.parts (PathLib.div p name) = PathLib.parts p ++ [name].
Proof.
  intros Hplain. unfold PathLib.div, parent, Disk.name.
  rewrite (PathLibFacts.parse_plain_name name Hplain). cbn.
  rewrite removelast_last, last_last. destruct p. repeat split.
Qed.

Lemma put_same fs p entries : put fs p entries p = Some entries.
Proof. unfold put. now rewrite decide_True. Qed.

Lemma put_other fs p entries q : q <> p -> put fs p entries q = fs q.
Proof. intros Hne. unfold put. now rewrite decide_False. Qed.

Lemma make_dirs_is_dir below : forall fs root above fs',
  make_dirs fs root above below = Some fs' ->
  is_dir fs' {| PathLib.root := root; PathLib.parts := above ++ below |} = true.
Proof.
  induction below as [| next rest IH]; intros fs root above fs' Hmake; cbn in Hmake.
  - rewrite app_nil_r.
    destruct (is_file fs _); [discriminate |].
    destruct (is_dir fs _) eqn:Hdir; injection Hmake as <-; [exact Hdir |].
    unfold is_dir. now rewrite put_same.
  - destruct (is_file fs _); [discriminate |].
    apply IH in Hmake. now rewrite <- app_assoc in Hmake.
Qed.

(** A directory that [mkdir] has made, or found, is there. *)
Lemma mkdir_is_dir fs p fs' : mkdir fs p = Some fs' -> is_dir fs' p = true.
Proof.
  unfold mkdir. intros Hmake. apply make_dirs_is_dir in Hmake.
  now destruct p.
Qed.

(** A file of a directory, under a plain name. *)
Lemma is_file_entry fs p name entries :
  PathLib.plain_name name = true ->
  fs p = Some entries ->
  fs (PathLib.div p name) = None ->
  is_file fs (PathLib.div p name) = PyStr.contains entries name.
Proof.
  intros Hplain Hdir Hfile.
  destruct (parent_of_entry p name Hplain) as [Hparent [Hname Hparts]].
  unfold is_file, is_dir. rewrite Hfile, Hparent, Hname, Hdir, Hparts. cbn.
  now destruct (PathLib.parts p).
Qed.

End DiskFacts.

Lemma listbox_insert_all_appends items : forall d,
  listbox_insert_all items d
  = (Returned tt, set_listbox (installed_plugins_listbox d ++ items) d, []).
Proof.
  induction items as [| item rest IH]; intros d; cbn [listbox_insert_all].
  - unfold skip, mret, D_ret, set_listbox. rewrite app_nil_r. now destruct d.
  - unfold listbox_insert. play. rewrite IH. unfold set_listbox. cbn.
    now rewrite <- app_assoc.
Qed.

#[local] Hint Unfold listbox_insert make_directory remove_file : window.

(** What [refresh_installed_plugins] does in a directory that is there. *)
Lemma refresh_in_directory d entries :
  folders d (PathLib.parse (plugins_dir (self d))) = Some entries ->
  refresh_installed_plugins d
  = match List.filter (str_endswith ".jar") entries with
    | [] => (Returned tt, set_listbox [no_plugins] d, [])
    | jar :: jars =>
        (Returned tt,
         set_listbox (sorted (List.filter (str_endswith ".jar") entries)) d,
         [LogMore (FoundInstalled (length (List.filter (str_endswith ".jar") entries)))])
    end.
Proof.
  intros Hdir. unfold refresh_installed_plugins. play.
  unfold Disk.exists_, Disk.is_dir, Disk.glob_jar. rewrite Hdir. cbn.
  destruct (List.filter (str_endswith ".jar") entries) as [| jar jars] eqn:Hjars; cbn.
  - reflexivity.
  - rewrite listbox_insert_all_appends. cbn. reflexivity.
Qed.

(** X17: in a plugins directory that holds [.jar] entries,
    [refresh_installed_plugins] replaces the list by the names that end in
    [.jar], every one of them and nothing else, in ascending order, and tells
    their number in the console; the disk is not touched. *)
Theorem refresh_lists_sorted_jars d entries :
  folders d (PathLib.parse (plugins_dir (self d))) = Some entries ->
  List.filter (str_endswith ".jar") entries <> [] ->
  result_of (refresh_installed_plugins d) = Returned tt
  /\ Sorted String.le (installed_plugins_listbox (desktop_after (refresh_installed_plugins d)))
  /\ installed_plugins_listbox (desktop_after (refresh_installed_plugins d))
     ≡ₚ List.filter (str_endswith ".jar") entries
  /\ (forall name,
        In name (installed_plugins_listbox (desktop_after (refresh_installed_plugins d)))
        <-> In name entries /\ str_endswith ".jar" name = true)
  /\ folders (desktop_after (refresh_installed_plugins d)) = folders d
  /\ self (desktop_after (refresh_installed_plugins d)) = self d
  /\ actions (refresh_installed_plugins d)
     = [LogMore (FoundInstalled (length (List.filter (str_endswith ".jar") entries)))].
Proof.
  intros Hdir Hjars. rewrite (refresh_in_directory d entries Hdir).
  destruct (List.filter (str_endswith ".jar") entries) as [| jar jars] eqn:Hfilter;
    [congruence |].
  rewrite <- Hfilter. unfold result_of, desktop_after, actions, sorted. cbn.
  split; [reflexivity | split; [apply Sorted_merge_sort; apply _ | split]].
  - apply merge_sort_Permutation.
  - split; [| repeat split].
    intros name. rewrite <- filter_In.
    split; intros Hin.
    + eapply Permutation_in; [apply (merge_sort_Permutation String.le) | exact Hin].
    + eapply Permutation_in;
        [symmetry; apply (merge_sort_Permutation String.le) | exact Hin].
Qed.

Lemma refresh_lists_sorted_jars_witness :
  installed_plugins_listbox
    (desktop_after
       (refresh_installed_plugins
          (Stage.with_plugins ["worldedit.jar"; "notes.txt"; "Essentials.jar"; "luckperms.jar"]%string
             ["stale"]%string)))
  ≡ₚ ["worldedit.jar"; "Essentials.jar"; "luckperms.jar"]%string.
Proof.
  refine (proj1 (proj2 (proj2
    (refresh_lists_sorted_jars
       (Stage.with_plugins ["worldedit.jar"; "notes.txt"; "Essentials.jar"; "luckperms.jar"]%string
          ["stale"]%string)
       ["worldedit.jar"; "notes.txt"; "Essentials.jar"; "luckperms.jar"]%string
       eq_refl _)))).
  discriminate.
Defined.

(** The order is that of the code points: capitals come first. *)
Example refresh_order :
  installed_plugins_listbox
    (desktop_after
       (refresh_installed_plugins
          (Stage.with_plugins ["worldedit.jar"; "notes.txt"; "Essentials.jar"; "luckperms.jar"]%string
             ["stale"]%string)))
  = ["Essentials.jar"; "luckperms.jar"; "worldedit.jar"]%string.
Proof. reflexivity. Qed.

(** X18: [refresh_installed_plugins] where there is nothing to list. When
    the plugins directory is missing and can be made, it is made, parents
    included, and the list holds the one line [No plugins installed]; when the
    directory is there without any [.jar] entry, the list holds that line and
    the disk is not touched. Either way the method returns, and tells nothing
    in the console. *)
Theorem refresh_without_plugins d :
  (forall fs,
     Disk.exists_ (folders d) (PathLib.parse (plugins_dir (self d))) = false ->
     Disk.mkdir (folders d) (PathLib.parse (plugins_dir (self d))) = Some fs ->
     refresh_installed_plugins d
     = (Returned tt, set_folders fs (set_listbox [no_plugins] d), [])
     /\ Disk.is_dir fs (PathLib.parse (plugins_dir (self d))) = true)
  /\ (forall entries,
        folders d (PathLib.parse (plugins_dir (self d))) = Some entries ->
        List.filter (str_endswith ".jar") entries = [] ->
        refresh_installed_plugins d = (Returned tt, set_listbox [no_plugins] d, [])).
Proof.
  split.
  - intros fs Hmissing Hmkdir. split; [| now apply (DiskFacts.mkdir_is_dir (folders d))].
    unfold refresh_installed_plugins. play. rewrite Hmissing. play. rewrite Hmkdir.
    reflexivity.
  - intros entries Hdir Hnone. rewrite (refresh_in_directory d entries Hdir).
    now rewrite Hnone.
Qed.

Lemma refresh_without_plugins_witness :
  refresh_installed_plugins (Stage.with_plugins ["notes.txt"]%string ["old.jar"]%string)
  = (Returned tt, Stage.with_plugins ["notes.txt"]%string [no_plugins], []).
Proof.
  exact (proj2 (refresh_without_plugins
                  (Stage.with_plugins ["notes.txt"]%string ["old.jar"]%string))
           ["notes.txt"]%string eq_refl eq_refl).
Defined.

(** X19: [delete_plugin] removes nothing without a selected plugin and the
    user's consent. With no selection it only asks for one; with the line
    [No plugins installed] selected it does nothing at all, no question is
    asked; with a refusal it does nothing after the question. The list and the
    disk stay as they are. *)
Theorem delete_plugin_needs_consent d selection response :
  (selection = [] ->
   delete_plugin selection response d = (Returned tt, d, [ShowMore SelectPluginToDelete]))
  /\ (forall index rest,
        selection = index :: rest ->
        installed_plugins_listbox d !! index = Some no_plugins ->
        delete_plugin selection response d = (Returned tt, d, []))
  /\ (forall index rest name,
        selection = index :: rest ->
        installed_plugins_listbox d !! index = Some name ->
        name <> no_plugins ->
        response = false ->
        delete_plugin selection response d
        = (Returned tt, d, [Asked (ConfirmDeletion name) false])).
Proof.
  split; [| split].
  - intros ->. reflexivity.
  - intros index rest -> Hitem. unfold delete_plugin. play. now rewrite Hitem.
  - intros index rest name -> Hitem Hname ->. unfold delete_plugin. play. rewrite Hitem.
    cbn. apply String.eqb_neq in Hname. now rewrite Hname.
Qed.

Lemma delete_plugin_needs_consent_witness :
  delete_plugin [0] true (Stage.with_plugins [] [no_plugins])
  = (Returned tt, Stage.with_plugins [] [no_plugins], []).
Proof.
  exact (proj1 (proj2 (delete_plugin_needs_consent
                         (Stage.with_plugins [] [no_plugins]) [0] true))
           0 [] eq_refl eq_refl).
Defined.

#[local] Arguments sorted : simpl never.

(** The removal of a file that is there, run. *)
Lemma delete_plugin_run d index rest name entries :
  installed_plugins_listbox d !! index = Some name ->
  name <> no_plugins ->
  PathLib.plain_name name = true ->
  folders d (PathLib.parse (plugins_dir (self d))) = Some entries ->
  In name entries ->
  folders d (PathLib.div (PathLib.parse (plugins_dir (self d))) name) = None ->
  delete_plugin (index :: rest) true d
  = match
      refresh_installed_plugins
        (set_folders
           (Disk.put (folders d) (PathLib.parse (plugins_dir (self d)))
              (List.filter (fun entry => negb (String.eqb entry name)) entries)) d)
    with
    | (r, d', t) =>
        (r, d',
         Asked (ConfirmDeletion name) true :: LogMore (DeletedPlugin name)
         :: ShowMore (PluginDeleted name) :: t)
    end.
Proof.
  intros Hitem Hname Hplain Hdir Hin Hfile.
  destruct (DiskFacts.parent_of_entry (PathLib.parse (plugins_dir (self d))) name Hplain)
    as [Hparent [Hlast _]].
  apply String.eqb_neq in Hname. apply contains_In in Hin.
  unfold delete_plugin. play. rewrite Hitem. cbn. rewrite Hname. play.
  unfold Disk.unlink.
  rewrite (DiskFacts.is_file_entry (folders d) _ name entries Hplain Hdir Hfile), Hin.
  rewrite Hparent, Hlast, Hdir. play.
  assert (Hrefresh :
    exists t, refresh_installed_plugins
      (set_folders
         (Disk.put (folders d) (PathLib.parse (plugins_dir (self d)))
            (List.filter (fun entry => negb (String.eqb entry name)) entries)) d)
    = (Returned tt,
       desktop_after
         (refresh_installed_plugins
            (set_folders
               (Disk.put (folders d) (PathLib.parse (plugins_dir (self d)))
                  (List.filter (fun entry => negb (String.eqb entry name)) entries)) d)),
       t)).
  { rewrite (refresh_in_directory _
               (List.filter (fun entry => negb (String.eqb entry name)) entries)).
    - destruct (List.filter (str_endswith ".jar") _); eexists; reflexivity.
    - cbn. apply DiskFacts.put_same. }
  destruct Hrefresh as [t Hrefresh]. unfold set_folders in *. cbn in *.
  rewrite Hrefresh. reflexivity.
Qed.

(** X20: [delete_plugin], with the user's consent, on a listed plugin whose
    file is in the plugins directory: the file is removed from the directory
    and nothing else is, the list is read again from the disk, so that the
    plugin is no longer in it and every other [.jar] entry of the directory
    is, and the deletion is told in the console and in a dialog. *)
Theorem delete_plugin_removes d index rest name entries :
  installed_plugins_listbox d !! index = Some name ->
  name <> no_plugins ->
  PathLib.plain_name name = true ->
  folders d (PathLib.parse (plugins_dir (self d))) = Some entries ->
  In name entries ->
  folders d (PathLib.div (PathLib.parse (plugins_dir (self d))) name) = None ->
  result_of (delete_plugin (index :: rest) true d) = Returned tt
  /\ folders (desktop_after (delete_plugin (index :: rest) true d))
       (PathLib.parse (plugins_dir (self d)))
     = Some (List.filter (fun entry => negb (String.eqb entry name)) entries)
  /\ (forall q, q <> PathLib.parse (plugins_dir (self d)) ->
        folders (desktop_after (delete_plugin (index :: rest) true d)) q = folders d q)
  /\ ~ In name (installed_plugins_listbox (desktop_after (delete_plugin (index :: rest) true d)))
  /\ (forall other,
        In other entries -> other <> name -> str_endswith ".jar" other = true ->
        In other
          (installed_plugins_listbox (desktop_after (delete_plugin (index :: rest) true d))))
  /\ In (ShowMore (PluginDeleted name)) (actions (delete_plugin (index :: rest) true d)).
Proof.
  intros Hitem Hname Hplain Hdir Hin Hfile.
  rewrite (delete_plugin_run d index rest name entries Hitem Hname Hplain Hdir Hin Hfile).
  rewrite (refresh_in_directory _
             (List.filter (fun entry => negb (String.eqb entry name)) entries))
    by (cbn; apply DiskFacts.put_same).
  assert (Hkept : forall other,
            In other (List.filter (str_endswith ".jar")
                        (List.filter (fun entry => negb (String.eqb entry name)) entries))
            <-> In other entries /\ other <> name /\ str_endswith ".jar" other = true).
  { intros other. rewrite !filter_In, negb_true_iff, String.eqb_neq. tauto. }
  destruct (List.filter (str_endswith ".jar")
              (List.filter (fun entry => negb (String.eqb entry name)) entries))
    as [| jar jars] eqn:Hjars;
    unfold result_of, desktop_after, actions; cbn.
  - split; [reflexivity | split; [apply DiskFacts.put_same | split]].
    { intros q Hq. now apply DiskFacts.put_other. }
    split; [| split; [| auto]].
    + intros [Heq | []]. congruence.
    + intros other Hother Hne Hjar. exfalso.
      apply (proj2 (Hkept other)); auto.
  - split; [reflexivity | split; [apply DiskFacts.put_same | split]].
    { intros q Hq. now apply DiskFacts.put_other. }
    split; [| split; [| auto]].
    + intros Hlisted. unfold sorted in Hlisted.
      apply (Permutation_in _ (merge_sort_Permutation String.le _)) in Hlisted.
      apply Hkept in Hlisted. tauto.
    + intros other Hother Hne Hjar. unfold sorted.
      apply (Permutation_in _ (Permutation_sym (merge_sort_Permutation String.le _))).
      apply Hkept. auto.
Qed.

Lemma delete_plugin_removes_witness :
  ~ In "worldedit.jar"%string
      (installed_plugins_listbox
         (desktop_after
            (delete_plugin [1] true
               (Stage.with_plugins ["worldedit.jar"; "luckperms.jar"]%string
                  ["luckperms.jar"; "worldedit.jar"]%string)))).
Proof.
  refine (proj1 (proj2 (proj2 (proj2
    (delete_plugin_removes
       (Stage.with_plugins ["worldedit.jar"; "luckperms.jar"]%string
          ["luckperms.jar"; "worldedit.jar"]%string)
       1 [] "worldedit.jar"%string ["worldedit.jar"; "luckperms.jar"]%string
       eq_refl _ eq_refl eq_refl _ eq_refl))))).
  - discriminate.
  - now left.
Defined.

(** X21: when the file of the selected plugin cannot be removed (it is no
    longer there, or the name is that of a directory), [delete_plugin] reports
    the error of [unlink] as [DeleteFailed], in a dialog and in the console,
    and returns; the disk stays as it was and the list is not read again: it
    still shows the plugin. *)
Theorem delete_plugin_failure d index rest name :
  installed_plugins_listbox d !! index = Some name ->
  name <> no_plugins ->
  Disk.unlink (folders d) (PathLib.div (PathLib.parse (plugins_dir (self d))) name) = None ->
  delete_plugin (index :: rest) true d
  = (Returned tt, d,
     [ Asked (ConfirmDeletion name) true;
       ShowMore
         (DeleteFailed
            (Disk.unlink_failure (folders d)
               (PathLib.div (PathLib.parse (plugins_dir (self d))) name)));
       LogMore
         (FailedToDelete name
            (Disk.unlink_failure (folders d)
               (PathLib.div (PathLib.parse (plugins_dir (self d))) name))) ])
  /\ In name (installed_plugins_listbox (desktop_after (delete_plugin (index :: rest) true d))).
Proof.
  intros Hitem Hname Hunlink.
  assert (Hrun : delete_plugin (index :: rest) true d
                 = (Returned tt, d,
                    [ Asked (ConfirmDeletion name) true;
                      ShowMore
                        (DeleteFailed
                           (Disk.unlink_failure (folders d)
                              (PathLib.div (PathLib.parse (plugins_dir (self d))) name)));
                      LogMore
                        (FailedToDelete name
                           (Disk.unlink_failure (folders d)
                              (PathLib.div (PathLib.parse (plugins_dir (self d))) name))) ])).
  { apply String.eqb_neq in Hname.
    unfold delete_plugin. play. rewrite Hitem. cbn. rewrite Hname. play.
    rewrite Hunlink. reflexivity. }
  rewrite Hrun. split; [reflexivity |].
  unfold desktop_after. cbn. apply list_elem_of_In. eapply list_elem_of_lookup_2. exact Hitem.
Qed.

Lemma delete_plugin_failure_witness :
  In "worldedit.jar"%string
    (installed_plugins_listbox
       (desktop_after
          (delete_plugin [0] true
             (Stage.with_plugins ["luckperms.jar"]%string ["worldedit.jar"]%string)))).
Proof.
  refine (proj2 (delete_plugin_failure
                   (Stage.with_plugins ["luckperms.jar"]%string ["worldedit.jar"]%string)
                   0 [] "worldedit.jar"%string eq_refl _ eq_refl)).
  discriminate.
Defined.

(** The thread of an installation whose every step goes through, run. *)
Lemma install_thread_succeeds w data s v file more u content :
  server_version s <> ""%string ->
  version_endpoint w (filtered_request (pd_project_id data) (server_version s)) = Ok [v] ->
  v_files v = Some (file :: more) ->
  fd_url file = Some u ->
  mkdir_error w (PathLib.parse (plugins_dir s)) = None ->
  download_endpoint w {| url := Some u; params := []; timeout := 30 |} = Ok content ->
  open_error w
    (PathLib.div (PathLib.parse (plugins_dir s))
       (default (pd_project_id data +:+ ".jar") (fd_filename file))) = None ->
  exists line,
    _install_plugin_thread w data s
    = (Returned tt, s,
       [ Log (InstallingPlugin (pd_title data));
         Get (filtered_request (pd_project_id data) (server_version s));
         Log line;
         Mkdir (PathLib.parse (plugins_dir s));
         Log (Downloading (default (pd_project_id data +:+ ".jar") (fd_filename file)));
         Get {| url := Some u; params := []; timeout := 30 |};
         WriteFile
           (PathLib.div (PathLib.parse (plugins_dir s))
              (default (pd_project_id data +:+ ".jar") (fd_filename file)))
           content;
         Log (InstalledTo (pd_title data)
                (PathLib.div (PathLib.parse (plugins_dir s))
                   (default (pd_project_id data +:+ ".jar") (fd_filename file))));
         Show (Installed (pd_title data)
                 (PathLib.div (PathLib.parse (plugins_dir s))
                    (default (pd_project_id data +:+ ".jar") (fd_filename file))));
         RefreshInstalledPlugins ]).
Proof.
  intros Hsv Hfetch Hfiles Hurl Hmkdir Hget Hopen.
  destruct s; cbn in *.
  destruct server_version0 as [| c sv]; [congruence |].
  unfold _install_plugin_thread, resolve_version, download, filtered_request in *.
  run. rewrite Hfetch.
  split_cases; rewrite ?Hfiles; run; rewrite ?Hmkdir; run; rewrite ?Hurl; run;
    rewrite ?Hget; run; rewrite ?Hopen; run; eexists; reflexivity.
Qed.

#[local] Arguments refresh_installed_plugins : simpl never.
#[local] Arguments Disk.enter : simpl never.
#[local] Arguments Disk.is_dir : simpl never.
#[local] Arguments Disk.mkdir : simpl never.

(** X22: an installation whose every step goes through, seen from the list
    of installed plugins. When the file is written under a plain name that
    ends in [.jar], the list, read again from the disk as the thread asks,
    holds that name, and is in ascending order. *)
Theorem installed_plugin_is_listed w d data v file more u content fs :
  server_version (self d) <> ""%string ->
  version_endpoint w (filtered_request (pd_project_id data) (server_version (self d)))
  = Ok [v] ->
  v_files v = Some (file :: more) ->
  fd_url file = Some u ->
  PathLib.plain_name (default (pd_project_id data +:+ ".jar") (fd_filename file)) = true ->
  str_endswith ".jar" (default (pd_project_id data +:+ ".jar") (fd_filename file)) = true ->
  mkdir_error w (PathLib.parse (plugins_dir (self d))) = None ->
  download_endpoint w {| url := Some u; params := []; timeout := 30 |} = Ok content ->
  open_error w
    (PathLib.div (PathLib.parse (plugins_dir (self d)))
       (default (pd_project_id data +:+ ".jar") (fd_filename file))) = None ->
  Disk.mkdir (folders d) (PathLib.parse (plugins_dir (self d))) = Some fs ->
  fs (PathLib.div (PathLib.parse (plugins_dir (self d)))
        (default (pd_project_id data +:+ ".jar") (fd_filename file))) = None ->
  result_of (install_to_completion w data d) = Returned tt
  /\ In (default (pd_project_id data +:+ ".jar") (fd_filename file))
       (installed_plugins_listbox (desktop_after (install_to_completion w data d)))
  /\ Sorted String.le
       (installed_plugins_listbox (desktop_after (install_to_completion w data d))).
Proof.
  intros Hsv Hfetch Hfiles Hurl Hplain Hjar Hmkdir Hget Hopen Hdisk Hfile.
  destruct (install_thread_succeeds w data (self d) v file more u content
              Hsv Hfetch Hfiles Hurl Hmkdir Hget Hopen) as [line Hthread].
  set (name := default (pd_project_id data +:+ ".jar") (fd_filename file)) in *.
  set (p := PathLib.parse (plugins_dir (self d))) in *.
  destruct (DiskFacts.parent_of_entry p name Hplain) as [Hparent [Hlast Hparts]].
  pose proof (DiskFacts.mkdir_is_dir _ _ _ Hdisk) as Hdir.
  unfold Disk.is_dir in Hdir. destruct (fs p) as [entries |] eqn:Hentries; [| discriminate].
  assert (Hwritten :
    exists entries', Disk.enter fs (PathLib.div p name) p = Some entries'
                     /\ In name entries').
  { unfold Disk.enter. rewrite Hparent, Hlast, Hparts, Hentries.
    destruct (PathLib.parts p ++ [name]) eqn:Hne; [now destruct (PathLib.parts p) |].
    destruct (PyStr.contains entries name) eqn:Hin.
    - exists entries. split; [exact Hentries | now apply contains_In].
    - exists (entries ++ [name]). split; [apply DiskFacts.put_same |].
      apply in_or_app. right. now left. }
  destruct Hwritten as [entries' [Hentries' Hin]].
  unfold install_to_completion, lift. rewrite Hthread.
  cbn. fold p. fold name. rewrite Hdisk. cbn.
  unfold Disk.is_dir. rewrite Hfile.
  unfold mbind, D_bind, skip, mret, D_ret.
  match goal with
  | |- context [refresh_installed_plugins ?st] =>
      rewrite (refresh_in_directory st entries') by exact Hentries'
  end.
  assert (Hlisted : In name (List.filter (str_endswith ".jar") entries')).
  { apply filter_In. now split. }
  destruct (List.filter (str_endswith ".jar") entries') as [| jar jars] eqn:Hjars;
    [destruct Hlisted |].
  unfold result_of, desktop_after. cbn. split; [reflexivity | split].
  - unfold sorted.
    apply (Permutation_in _ (Permutation_sym (merge_sort_Permutation String.le _))).
    exact Hlisted.
  - unfold sorted. apply Sorted_merge_sort. apply _.
Qed.

Lemma installed_plugin_is_listed_witness :
  In "paper.jar"%string
    (installed_plugins_listbox
       (desktop_after
          (install_to_completion (Example.catalog [Example.for_paper])
             (Scene.data_of "abc" "Foo")
             (Stage.with_plugins ["worldedit.jar"]%string [])))).
Proof.
  refine (proj1 (proj2
    (installed_plugin_is_listed (Example.catalog [Example.for_paper])
       (Stage.with_plugins ["worldedit.jar"]%string [])
       (Scene.data_of "abc" "Foo") Example.for_paper _ _ _ _ _
       _ eq_refl eq_refl eq_refl eq_refl eq_refl eq_refl eq_refl eq_refl eq_refl eq_refl))).
  discriminate.
Defined.

(** The entry [plugins_data] holds, after the loop of a search, for a hit
    that no later hit overwrites. *)
Lemma search_hits_entry sv before hit after : forall n s,
  (forall h, In h after ->
     default ""%string (h_project_id h) <> default ""%string (h_project_id hit)) ->
  plugins_data (final_state (search_hits sv (before ++ hit :: after) n s))
    !! default ""%string (h_project_id hit)
  = Some {| pd_title := default "Unknown"%string (h_title hit);
            pd_project_id := default ""%string (h_project_id hit);
            pd_slug := default ""%string (h_slug hit);
            pd_description := default ""%string (h_description hit);
            pd_compatible := is_compatible sv (default [] (h_game_versions hit));
            pd_game_versions := default [] (h_game_versions hit) |}.
Proof.
  intros n s Hlater. revert n s.
  induction before as [| b before IH]; intros n s; cbn [app].
  - destruct (search_hits_cons sv hit after n s) as [n1 [row Hstep]]. rewrite Hstep.
    match goal with
    | |- context [search_hits sv after n1 ?st] =>
        destruct (search_hits_frame sv after n1 st) as [_ [_ [_ Hframe]]];
        destruct (search_hits sv after n1 st) as [[r s2] t2] eqn:Hrest
    end.
    unfold final_state in *. cbn in *.
    rewrite (Hframe _ Hlater). destruct s; cbn. apply lookup_insert_eq.
  - destruct (search_hits_cons sv b (before ++ hit :: after) n s) as [n1 [row Hstep]].
    rewrite Hstep.
    match goal with
    | |- context [search_hits sv (before ++ hit :: after) n1 ?st] =>
        pose proof (IH n1 st) as Hentry;
        destruct (search_hits sv (before ++ hit :: after) n1 st) as [[r s2] t2] eqn:Hrest
    end.
    exact Hentry.
Qed.

Lemma bind_trace {A B} (m : M A) (f : A -> M B) s :
  exists rest, trace ((m ≫= f) s) = trace (m s) ++ rest.
Proof.
  unfold trace, mbind, M_bind. destruct (m s) as [[[a | e] s1] t1]; cbn.
  - destruct (f a s1) as [[r s2] t2]. now exists t2.
  - exists []. now rewrite app_nil_r.
Qed.

Lemma try_except_trace {A} (body : M A) hs s :
  exists rest, trace (try_except body hs s) = trace (body s) ++ rest.
Proof.
  unfold trace, try_except. destruct (body s) as [[[a | e] s1] t1]; cbn.
  - exists []. now rewrite app_nil_r.
  - destruct (find_handler hs e) as [h |].
    + destruct (h s1) as [[r s2] t2]. now exists t2.
    + exists []. now rewrite app_nil_r.
Qed.

Lemma bind_get_self_trace {A} (f : gui -> M A) s :
  trace ((get_self ≫= f) s) = trace (f s s).
Proof.
  unfold trace, mbind, M_bind, get_self. now destruct (f s s) as [[r s2] t2].
Qed.

Lemma bind_emit_trace {A} e (f : unit -> M A) s :
  trace ((emit e ≫= f) s) = e :: trace (f tt s).
Proof.
  unfold trace, mbind, M_bind, emit. now destruct (f tt s) as [[r s2] t2].
Qed.

Lemma requests_get_trace {A} (endpoint : request -> response A) r u s :
  url r = Some u -> trace (requests_get endpoint r s) = [Get r].
Proof.
  intros Hurl. unfold requests_get. rewrite Hurl. run. now destruct (endpoint r).
Qed.

(** The thread of an installation begins with the request for the versions
    of its project, filtered by the game version when there is one. *)
Lemma install_thread_first_request w data s :
  List.hd_error (network_calls (trace (_install_plugin_thread w data s)))
  = Some {| url := Some (version_url (pd_project_id data));
            params := if PyStr.truthy (server_version s)
                      then [ ("game_versions"%string,
                              "[" +:+ dquote +:+ server_version s +:+ dquote +:+ "]") ]
                      else [];
            timeout := 10 |}.
Proof.
  unfold _install_plugin_thread.
  match goal with
  | |- context [try_except ?body ?hs s] =>
      destruct (try_except_trace body hs s) as [rest1 ->]
  end.
  unfold log_to_console at 1. rewrite bind_emit_trace.
  match goal with
  | |- context [trace ((resolve_version ?w ?p ≫= ?k) s)] =>
      destruct (bind_trace (resolve_version w p) k s) as [rest2 ->]
  end.
  unfold resolve_version. rewrite bind_get_self_trace. cbv zeta.
  match goal with
  | |- context [trace ((requests_get ?ep ?r ≫= ?k) s)] =>
      destruct (bind_trace (requests_get ep r) k s) as [rest3 ->];
      rewrite (requests_get_trace ep r (version_url (pd_project_id data)) s eq_refl)
  end.
  reflexivity.
Qed.

(** X23: from a search to an installation. After a search whose answer
    holds a hit (that no later hit of the same project overwrites), selecting
    the row of the hit and calling [install_plugin] starts the thread of an
    installation for the project and the title of that hit, and the first
    request of that thread is the one for the versions of that project. *)
Theorem search_then_install w query s before hit after listbox fs :
  search_endpoint w (search_request query) = Ok (Some (before ++ hit :: after)) ->
  (forall h, In h after ->
     default ""%string (h_project_id h) <> default ""%string (h_project_id hit)) ->
  exists data,
    install_plugin [default ""%string (h_project_id hit)]
      {| self := final_state (_search_plugins_thread w query s);
         installed_plugins_listbox := listbox; folders := fs |}
    = (Returned tt,
       {| self := final_state (_search_plugins_thread w query s);
          installed_plugins_listbox := listbox; folders := fs |},
       [Did (Start (InstallPluginThread data))])
    /\ pd_project_id data = default ""%string (h_project_id hit)
    /\ pd_title data = default "Unknown"%string (h_title hit)
    /\ forall s',
         List.hd_error (network_calls (trace (_install_plugin_thread w data s')))
         = Some {| url := Some (version_url (default ""%string (h_project_id hit)));
                   params := if PyStr.truthy (server_version s')
                             then [ ("game_versions"%string,
                                     "[" +:+ dquote +:+ server_version s' +:+ dquote +:+ "]") ]
                             else [];
                   timeout := 10 |}.
Proof.
  intros Hfetch Hlater.
  destruct (search_thread_runs_loop w query s (before ++ hit :: after) Hfetch) as [Hfinal _].
  { now destruct before. }
  pose proof (search_hits_entry (server_version s) before hit after 0 s Hlater) as Hentry.
  rewrite <- Hfinal in Hentry.
  eexists. split; [| split; [| split]].
  - unfold install_plugin. play. rewrite Hentry. reflexivity.
  - reflexivity.
  - reflexivity.
  - intros s'. apply install_thread_first_request.
Qed.

Lemma search_then_install_witness :
  exists data,
    install_plugin ["abc"%string]
      {| self := final_state
                   (_search_plugins_thread (Example.searching [Example.hit_for None])
                      "foo" (init Example.nothing));
         installed_plugins_listbox := []; folders := fun _ => None |}
    = (Returned tt,
       {| self := final_state
                    (_search_plugins_thread (Example.searching [Example.hit_for None])
                       "foo" (init Example.nothing));
          installed_plugins_listbox := []; folders := fun _ => None |},
       [Did (Start (InstallPluginThread data))])
    /\ pd_project_id data = "abc"%string.
Proof.
  destruct (search_then_install (Example.searching [Example.hit_for None]) "foo"
              (init Example.nothing) [] (Example.hit_for None) [] [] (fun _ => None)
              eq_refl (fun h (H : In h []) => match H with end))
    as [data [Hrun [Hid _]]].
  exists data. split; [exact Hrun | exact Hid].
Defined.

(** X24: [install_plugin] starts no thread for a project it has no data of.
    Without a selection it asks for one; with a selected row whose project is
    not in [plugins_data] it reports [PluginDataNotFound]; and that is the case
    of every row once [search_plugins] has cleared the data for a new search.
    Nothing else happens. *)
Theorem install_plugin_needs_data d :
  install_plugin [] d = (Returned tt, d, [ShowMore SelectPluginToInstall])
  /\ (forall project_id rest,
        plugins_data (self d) !! project_id = None ->
        install_plugin (project_id :: rest) d
        = (Returned tt, d, [ShowMore PluginDataNotFound]))
  /\ (forall project_id rest,
        PyStr.strip (search_entry (self d)) <> ""%string ->
        actions (install_plugin (project_id :: rest) (desktop_after (lift search_plugins d)))
        = [ShowMore PluginDataNotFound]).
Proof.
  split; [reflexivity | split].
  - intros project_id rest Hnone. unfold install_plugin. play. now rewrite Hnone.
  - intros project_id rest Hquery.
    unfold lift. rewrite (search_plugins_starts_thread (self d) Hquery).
    unfold install_plugin. play. reflexivity.
Qed.

(** * The check for a server that is running already *)

Lemma prefix_iff needle : forall text,
  String.prefix needle text = true <-> exists post, text = needle +:+ post.
Proof.
  induction needle as [| a needle IH]; intros text.
  - split; [intros _; now exists text | intros _; now destruct text].
  - destruct text as [| b text]; cbn.
    + split; [discriminate | intros [post Hpost]; discriminate].
    + destruct (ascii_dec a b) as [-> | Hne].
      * rewrite IH. split; intros [post Hpost]; exists post.
        -- now rewrite PyStrFacts.append_cons, <- Hpost.
        -- rewrite PyStrFacts.append_cons in Hpost. congruence.
      * split; [discriminate |]. intros [post Hpost].
        rewrite PyStrFacts.append_cons in Hpost. congruence.
Qed.

(** [needle in text] holds when [needle] is a piece of [text]. *)
Lemma str_in_iff needle : forall text,
  str_in needle text = true <-> exists pre post, text = pre +:+ (needle +:+ post).
Proof.
  induction text as [| c text IH]; cbn [str_in]; rewrite orb_true_iff, prefix_iff.
  - split.
    + intros [[post Hpost] | Hfalse]; [| discriminate]. now exists ""%string, post.
    + intros [pre [post Hpost]]. left. destruct pre; [now exists post | discriminate].
  - rewrite IH. split.
    + intros [[post Hpost] | [pre [post Hpost]]].
      * now exists ""%string, post.
      * exists (String c pre), post. now rewrite PyStrFacts.append_cons, <- Hpost.
    + intros [[| c' pre] [post Hpost]].
      * left. now exists post.
      * right. rewrite PyStrFacts.append_cons in Hpost. injection Hpost as _ Hpost.
        now exists pre, post.
Qed.

(** The test on a command line, in words. *)
Lemma mentions_server_iff cmdline :
  mentions_server cmdline = true
  <-> exists arg pre post,
        In arg cmdline
        /\ (PyStr.lower arg = pre +:+ ("minecraft" +:+ post)
            \/ PyStr.lower arg = pre +:+ ("server.jar" +:+ post)).
Proof.
  unfold mentions_server. rewrite existsb_exists. split.
  - intros [arg [Hin Htest]]. apply orb_true_iff in Htest.
    destruct Htest as [Htest | Htest]; apply str_in_iff in Htest;
      destruct Htest as [pre [post Heq]]; exists arg, pre, post; auto.
  - intros [arg [pre [post [Hin Heq]]]]. exists arg. split; [exact Hin |].
    apply orb_true_iff.
    destruct Heq as [Heq | Heq]; [left | right]; apply str_in_iff; now exists pre, post.
Qed.

(** The loop over the processes, run. *)
Lemma scan_processes_run processes scan_error response d :
  desktop_after (scan_processes processes scan_error response d) = d
  /\ length (questions (actions (scan_processes processes scan_error response d))) <= 1
  /\ (In ServerDetected (questions (actions (scan_processes processes scan_error response d)))
      <-> exists cmdline, In (Some cmdline) processes /\ mentions_server cmdline = true)
  /\ (In (LogMore ExistingServerWarning)
        (actions (scan_processes processes scan_error response d))
      -> response = true)
  /\ ((exists cmdline, In (Some cmdline) processes /\ mentions_server cmdline = true) ->
      result_of (scan_processes processes scan_error response d) = Returned tt)
  /\ (forall a, In a (actions (scan_processes processes scan_error response d)) ->
        a = Asked ServerDetected response \/ a = LogMore ExistingServerWarning).
Proof.
  induction processes as [| proc rest IH]; cbn [scan_processes].
  - split; [now destruct scan_error | split; [destruct scan_error; cbn; lia | split]].
    { split; [destruct scan_error; intros [] | intros [cmdline [[] _]]]. }
    split; [destruct scan_error; intros [] | split].
    + intros [cmdline [[] _]].
    + destruct scan_error; intros a [].
  - destruct (nonempty (default [] proc) && mentions_server (default [] proc)) eqn:Htest.
    + apply andb_true_iff in Htest. destruct Htest as [Hne Hmentions].
      destruct proc as [cmdline |]; [| discriminate]. cbn in Hmentions.
      play. destruct response; play.
      * split; [reflexivity | split; [lia | split]].
        { split; [intros _; exists cmdline; auto | auto]. }
        split; [auto | split; [auto |]].
        intros a [<- | [<- | []]]; auto.
      * split; [reflexivity | split; [lia | split]].
        { split; [intros _; exists cmdline; auto | auto]. }
        split; [intros [Hin | []]; discriminate | split; [auto |]].
        intros a [<- | []]; auto.
    + destruct IH as [IHd [IHlen [IHask [IHlog [IHres IHall]]]]].
      assert (Hskip : forall cmdline, proc = Some cmdline -> mentions_server cmdline = false).
      { intros cmdline ->. cbn in Htest. destruct cmdline; [reflexivity |].
        cbn [nonempty] in Htest. exact Htest. }
      split; [exact IHd | split; [exact IHlen | split]].
      { rewrite IHask. split; intros [cmdline [Hin Hm]]; exists cmdline.
        - split; [now right | exact Hm].
        - destruct Hin as [-> | Hin]; [| now split].
          rewrite (Hskip cmdline eq_refl) in Hm. discriminate. }
      split; [exact IHlog | split; [| exact IHall]].
      intros [cmdline [[-> | Hin] Hm]].
      * rewrite (Hskip cmdline eq_refl) in Hm. discriminate.
      * apply IHres. now exists cmdline.
Qed.

(** X25: [check_existing_server] never raises and changes nothing. It asks
    the user at most once, and it asks exactly when some process has, in its
    command line, an argument that contains [minecraft] or [server.jar],
    whatever the case of the letters; the warning goes to the console only on
    a yes. *)
Theorem check_existing_server_asks_once processes scan_error response d :
  result_of (check_existing_server processes scan_error response d) = Returned tt
  /\ desktop_after (check_existing_server processes scan_error response d) = d
  /\ length (questions (actions (check_existing_server processes scan_error response d)))
     <= 1
  /\ (In ServerDetected
        (questions (actions (check_existing_server processes scan_error response d)))
      <-> exists cmdline arg pre post,
            In (Some cmdline) processes /\ In arg cmdline
            /\ (PyStr.lower arg = pre +:+ ("minecraft" +:+ post)
                \/ PyStr.lower arg = pre +:+ ("server.jar" +:+ post)))
  /\ (In (LogMore ExistingServerWarning)
        (actions (check_existing_server processes scan_error response d))
      -> response = true).
Proof.
  destruct (scan_processes_run processes scan_error response d)
    as [Hd [Hlen [Hask [Hlog [_ Hall]]]]].
  assert (Hwords :
    (exists cmdline, In (Some cmdline) processes /\ mentions_server cmdline = true)
    <-> exists cmdline arg pre post,
          In (Some cmdline) processes /\ In arg cmdline
          /\ (PyStr.lower arg = pre +:+ ("minecraft" +:+ post)
              \/ PyStr.lower arg = pre +:+ ("server.jar" +:+ post))).
  { split.
    - intros [cmdline [Hin Hm]]. apply mentions_server_iff in Hm.
      destruct Hm as [arg [pre [post [Harg Heq]]]]. exists cmdline, arg, pre, post. auto.
    - intros [cmdline [arg [pre [post [Hin [Harg Heq]]]]]]. exists cmdline.
      split; [exact Hin |]. apply mentions_server_iff. exists arg, pre, post. auto. }
  rewrite <- Hwords, <- Hask.
  unfold check_existing_server, attempt, result_of, desktop_after, actions in *.
  destruct (scan_processes processes scan_error response d) as [[[[] | e] d1] t1];
    cbn in *; subst.
  - repeat split; auto.
  - unfold questions in *. rewrite omap_app. cbn. rewrite app_nil_r.
    split; [reflexivity | split; [reflexivity | split; [exact Hlen | split]]].
    + reflexivity.
    + intros Hin. apply in_app_or in Hin. destruct Hin as [Hin | [Hin | []]]; auto.
      discriminate.
Qed.

(** * The choice of the folders *)

Module PathStrFacts.
Import PathLib.

Lemma parse_root_cases s :
  parse_root s
  = match s with
    | String c1 r1 =>
        if Ascii.eqb c1 "/" then
          match r1 with
          | String c2 r2 =>
              if Ascii.eqb c2 "/" then
                match r2 with
                | String c3 _ => if Ascii.eqb c3 "/" then "/" else "//"
                | EmptyString => "//"
                end
              else "/"
          | EmptyString => "/"
          end
        else ""
    | EmptyString => ""
    end%string.
Proof.
  destruct s as [| c1 r1]; [reflexivity |].
  destruct (Ascii.eqb_spec c1 "/") as [-> | H1].
  2: { destruct c1 as [[] [] [] [] [] [] [] []]; try reflexivity. now contradict H1. }
  destruct r1 as [| c2 r2]; [reflexivity |].
  destruct (Ascii.eqb_spec c2 "/") as [-> | H2].
  2: { destruct c2 as [[] [] [] [] [] [] [] []]; try reflexivity. now contradict H2. }
  destruct r2 as [| c3 r3]; [reflexivity |].
  destruct (Ascii.eqb_spec c3 "/") as [-> | H3]; [reflexivity |].
  destruct c3 as [[] [] [] [] [] [] [] []]; try reflexivity. now contradict H3.
Qed.

Lemma parse_root_known s :
  (parse_root s = "" \/ parse_root s = "/" \/ parse_root s = "//")%string.
Proof.
  rewrite parse_root_cases.
  destruct s as [| c1 [| c2 [| c3 r]]]; auto;
    repeat match goal with |- context [Ascii.eqb ?c ?d] => destruct (Ascii.eqb c d) end; auto.
Qed.

Lemma split_not_nil sep s : split sep s <> [].
Proof.
  destruct s as [| c s]; cbn; [discriminate |].
  destruct (Ascii.eqb c sep); [discriminate |]. destruct (split sep s); discriminate.
Qed.

Lemma split_append sep a b :
  split sep (a +:+ String sep b) = split sep a ++ split sep b.
Proof.
  induction a as [| c a IH].
  - rewrite PyStrFacts.append_nil. cbn. now rewrite Ascii.eqb_refl.
  - rewrite PyStrFacts.append_cons. cbn. destruct (Ascii.eqb c sep).
    + now rewrite IH.
    + rewrite IH. destruct (split sep a) as [| piece pieces] eqn:Hsplit.
      * now apply split_not_nil in Hsplit.
      * reflexivity.
Qed.

Lemma split_pieces sep s :
  Forall (fun piece => forallb (fun c => negb (Ascii.eqb c sep)) (list_ascii_of_string piece)
                       = true) (split sep s).
Proof.
  induction s as [| c s IH]; cbn.
  - repeat constructor.
  - destruct (Ascii.eqb c sep) eqn:Hc.
    + constructor; [reflexivity | exact IH].
    + destruct (split sep s) as [| piece pieces].
      * constructor; [cbn; now rewrite Hc | constructor].
      * inversion IH as [| ? ? Hpiece Hpieces]; subst.
        constructor; [cbn; now rewrite Hc, Hpiece | exact Hpieces].
Qed.

(** [Path(s)] is made of a known root and of plain names. *)
Lemma parse_well_formed s : well_formed (parse s).
Proof.
  split; [apply parse_root_known |].
  unfold parse. cbn [parts]. apply List.Forall_forall. intros name Hin.
  apply filter_In in Hin. destruct Hin as [Hin Hname].
  unfold plain_name. rewrite Hname. cbn.
  pose proof (split_pieces OsPath.sep s) as Hpieces.
  rewrite List.Forall_forall in Hpieces. now apply Hpieces.
Qed.

Lemma div_well_formed p name : well_formed p -> well_formed (div p name).
Proof.
  intros [Hroot Hparts]. unfold div.
  destruct (PyStr.truthy (root (parse name))); [apply parse_well_formed |].
  split; [exact Hroot |]. cbn [parts]. apply Forall_app. split; [exact Hparts |].
  apply parse_well_formed.
Qed.

Lemma plain_name_head name :
  plain_name name = true ->
  exists c rest, name = String c rest /\ Ascii.eqb c "/" = false.
Proof.
  unfold plain_name, is_name. rewrite !andb_true_iff. intros [[Hne _] Hsep].
  destruct name as [| c rest]; [discriminate |]. exists c, rest. split; [reflexivity |].
  cbn in Hsep. apply andb_true_iff in Hsep. destruct Hsep as [Hc _].
  now apply negb_true_iff in Hc.
Qed.

(** The names of a path, joined and split again. *)
Lemma split_join names :
  Forall (fun name => plain_name name = true) names ->
  names <> [] ->
  split OsPath.sep (str_join "/" names) = names.
Proof.
  induction 1 as [| name names Hname Hnames IH]; [congruence |]. intros _.
  assert (Hone : split OsPath.sep name = [name]).
  { apply PathLibFacts.split_without_sep. unfold plain_name in Hname.
    now apply andb_true_iff in Hname. }
  destruct names as [| next names]; [exact Hone |].
  change (str_join "/" (name :: next :: names))
    with (name +:+ String OsPath.sep (str_join "/" (next :: names))).
  rewrite split_append, Hone, IH by discriminate. reflexivity.
Qed.

Lemma str_join_head name names :
  plain_name name = true ->
  exists c rest, str_join "/" (name :: names) = String c rest /\ Ascii.eqb c "/" = false.
Proof.
  intros Hname. destruct (plain_name_head name Hname) as [c [rest [-> Hc]]].
  destruct names as [| next names].
  - now exists c, rest.
  - exists c, (rest +:+ "/" +:+ str_join "/" (next :: names)). split; [| exact Hc].
    cbn [str_join]. now rewrite PyStrFacts.append_cons.
Qed.

Lemma filter_plain names :
  Forall (fun name => plain_name name = true) names -> List.filter is_name names = names.
Proof.
  induction 1 as [| name names Hname Hnames IH]; [reflexivity |]. cbn.
  unfold plain_name in Hname. apply andb_true_iff in Hname. destruct Hname as [-> _].
  now rewrite IH.
Qed.

(** [Path(str(p))] is [p]. *)
Lemma parse_path_str p : well_formed p -> parse (path_str p) = p.
Proof.
  destruct p as [r names]. intros [Hroot Hnames]. cbn [root parts] in *.
  unfold path_str, parse. cbn [root parts].
  destruct names as [| name names].
  - destruct Hroot as [-> | [-> | ->]]; reflexivity.
  - inversion Hnames as [| ? ? Hname Hrest]; subst.
    destruct (str_join_head name names Hname) as [c [rest [Hjoin Hc]]].
    pose proof (split_join (name :: names) Hnames ltac:(discriminate)) as Hsplit.
    assert (Hempty : forall pieces,
              List.filter is_name (""%string :: pieces) = List.filter is_name pieces)
      by reflexivity.
    destruct Hroot as [-> | [-> | ->]]; cbn [PyStr.truthy].
    + rewrite Hsplit, (filter_plain _ Hnames). f_equal.
      rewrite parse_root_cases, Hjoin, Hc. reflexivity.
    + change ("/" +:+ str_join "/" (name :: names))%string
        with (String "/" (str_join "/" (name :: names))).
      rewrite parse_root_cases, Hjoin, Ascii.eqb_refl, Hc. rewrite <- Hjoin.
      cbn [split]. rewrite Ascii.eqb_refl, Hsplit, Hempty.
      now rewrite (filter_plain _ Hnames).
    + change ("//" +:+ str_join "/" (name :: names))%string
        with (String "/" (String "/" (str_join "/" (name :: names)))).
      rewrite parse_root_cases, Hjoin, !Ascii.eqb_refl, Hc. rewrite <- Hjoin.
      cbn [split]. rewrite !Ascii.eqb_refl, Hsplit, !Hempty.
      now rewrite (filter_plain _ Hnames).
Qed.

End PathStrFacts.

Module JoinFacts.
Import PathLib.

Lemma endswith_sep a :
  PyStr.endswith OsPath.sep a = true -> exists a', a = a' +:+ String OsPath.sep "".
Proof.
  induction a as [| c a IH]; [discriminate |].
  destruct a as [| c' a'].
  - cbn [PyStr.endswith]. intros Hc. apply Ascii.eqb_eq in Hc. subst c. now exists ""%string.
  - intros Hend. destruct (IH Hend) as [pre Hpre]. exists (String c pre).
    now rewrite PyStrFacts.append_cons, <- Hpre.
Qed.

Ltac root_cases :=
  rewrite ?PyStrFacts.append_cons, ?PyStrFacts.append_nil, !PathStrFacts.parse_root_cases;
  repeat match goal with
         | H : context [PyStr.endswith _ _] |- _ => cbn [PyStr.endswith] in H
         | H : (?c =? ?d)%char = _ |- _ => rewrite H
         | |- context [(?c =? ?d)%char] => destruct (Ascii.eqb_spec c d); subst
         end;
  try reflexivity; try discriminate; try congruence.

(** What follows a text that is not empty, when it starts with no
    separator, leaves the root as it is. *)
Lemma parse_root_append_name d c t :
  d <> ""%string -> (c =? "/")%char = false ->
  parse_root (d +:+ String c t) = parse_root d.
Proof.
  intros Hd Hc. destruct d as [| c1 [| c2 [| c3 r]]]; [congruence | | |]; root_cases.
Qed.

Lemma parse_root_append_sep d t :
  d <> ""%string -> PyStr.endswith OsPath.sep d = false ->
  parse_root (d +:+ String "/" t) = parse_root d.
Proof.
  intros Hd Hend. destruct d as [| c1 [| c2 [| c3 r]]]; [congruence | | |]; root_cases.
Qed.

(** [Path(os.path.join(directory, name))] is [Path(directory) / name]. *)
Lemma parse_join directory name :
  directory <> ""%string -> plain_name name = true ->
  parse (OsPath.join directory name) = div (parse directory) name.
Proof.
  intros Hd Hname.
  destruct (PathStrFacts.plain_name_head name Hname) as [c [rest [Hhead Hc]]].
  assert (Hone : split OsPath.sep name = [name]).
  { apply PathLibFacts.split_without_sep. unfold plain_name in Hname.
    now apply andb_true_iff in Hname. }
  assert (Hkept : is_name name = true).
  { unfold plain_name in Hname. now apply andb_true_iff in Hname. }
  unfold div. rewrite (PathLibFacts.parse_plain_name name Hname). cbn [root parts PyStr.truthy].
  unfold OsPath.join.
  assert (Hstart : PyStr.startswith OsPath.sep name = false).
  { subst name. cbn [PyStr.startswith]. now rewrite Ascii.eqb_sym. }
  rewrite Hstart. apply truthy_true in Hd. rewrite Hd. cbn [negb orb].
  apply truthy_true in Hd.
  destruct (PyStr.endswith OsPath.sep directory) eqn:Hend; unfold parse; f_equal.
  - subst name. now apply parse_root_append_name.
  - destruct (endswith_sep directory Hend) as [pre ->].
    rewrite PyStrFacts.append_assoc, PyStrFacts.append_cons, PyStrFacts.append_nil.
    rewrite !PathStrFacts.split_append, Hone, !List.filter_app. cbn [split List.filter].
    rewrite Hkept. cbn. now rewrite app_nil_r.
  - now apply parse_root_append_sep.
  - rewrite PathStrFacts.split_append, Hone, List.filter_app. cbn [List.filter].
    now rewrite Hkept.
Qed.

End JoinFacts.

#[local] Arguments path_str : simpl never.
#[local] Arguments choose_server_jar : simpl never.
#[local] Arguments Disk.glob_jar : simpl never.
#[local] Arguments Disk.exists_ : simpl never.
#[local] Arguments Disk.mkdir_here : simpl never.
#[local] Arguments Disk.mkdir_here_failure : simpl never.
#[local] Arguments is_server_jar : simpl never.
#[local] Arguments save_config : simpl never.
#[local] Hint Unfold make_directory_here : window.

(** The directory [mkdir(exist_ok=True)] leaves is there. *)
Lemma mkdir_here_is_dir fs p fs' :
  Disk.mkdir_here fs p = Some fs' -> exists entries, fs' p = Some entries.
Proof.
  unfold Disk.mkdir_here, Disk.is_dir.
  destruct (fs p) as [entries |] eqn:Hp.
  - intros [= <-]. now exists entries.
  - destruct (Disk.is_file fs p); [discriminate |].
    destruct (fs (Disk.parent p)); [| discriminate].
    intros [= <-]. exists []. apply DiskFacts.put_same.
Qed.

(** [import_server_folder], once a server jar is chosen and the plugins
    directory is there or can be made. *)
Lemma import_run w directory response d name asked fs entries :
  directory <> ""%string ->
  choose_server_jar
    (List.filter is_server_jar (Disk.glob_jar (folders d) (PathLib.parse directory)))
    response d
  = (Returned (Some name), d, asked) ->
  Disk.mkdir_here (folders d) (PathLib.div (PathLib.parse directory) "plugins") = Some fs ->
  fs (PathLib.div (PathLib.parse directory) "plugins") = Some entries ->
  import_server_folder w directory response d
  = (Returned tt,
     {| self := final_state (save_config w (imported directory name (self d)));
        installed_plugins_listbox :=
          match List.filter (str_endswith ".jar") entries with
          | [] => [no_plugins]
          | _ :: _ => sorted (List.filter (str_endswith ".jar") entries)
          end;
        folders := fs |},
     asked
     ++ match List.filter (str_endswith ".jar") entries with
        | [] => []
        | _ :: _ =>
            [LogMore (FoundInstalled (length (List.filter (str_endswith ".jar") entries)))]
        end
     ++ [ LogMore (ImportedFrom directory); LogMore (ImportedServerJar name);
          LogMore (ImportedPluginsDirectory
                     (path_str (PathLib.div (PathLib.parse directory) "plugins"))) ]
     ++ match List.filter (str_endswith ".jar") entries with
        | [] => []
        | _ :: _ => [LogMore (FoundPlugins (length (List.filter (str_endswith ".jar") entries)))]
        end
     ++ map Did (trace (save_config w (imported directory name (self d))))
     ++ [ShowMore (ImportSuccessful name (length (List.filter (str_endswith ".jar") entries)))]).
Proof.
  intros Hdirectory Hchoose Hmkdir Hentries.
  apply truthy_true in Hdirectory.
  unfold import_server_folder. rewrite Hdirectory. cbn [negb].
  assert (Hround : PathLib.parse (path_str (PathLib.div (PathLib.parse directory) "plugins"))
                   = PathLib.div (PathLib.parse directory) "plugins").
  { apply PathStrFacts.parse_path_str, PathStrFacts.div_well_formed,
      PathStrFacts.parse_well_formed. }
  assert (Hsaved : forall s,
            exists s' tr,
              save_config w s = (Returned tt, s', tr)
              /\ fold_left Disk.apply tr fs = fs).
  { intros s.
    destruct (open_config_error w) as [e |] eqn:Hopen.
    - rewrite (save_config_failure w s e Hopen). eauto.
    - rewrite (save_config_writes w s Hopen). eauto. }
  play. rewrite Hchoose. play.
  destruct (Disk.is_dir (folders d) (PathLib.div (PathLib.parse directory) "plugins"))
    eqn:Hdir.
  - assert (Hexists : Disk.exists_ (folders d)
                        (PathLib.div (PathLib.parse directory) "plugins") = true).
    { unfold Disk.exists_. now rewrite Hdir. }
    assert (fs = folders d) as ->.
    { unfold Disk.mkdir_here in Hmkdir. rewrite Hdir in Hmkdir. congruence. }
    rewrite Hexists. play.
    erewrite refresh_in_directory by (cbn; rewrite Hround; exact Hentries).
    unfold imported.
    destruct (List.filter (str_endswith ".jar") entries) as [| jar jars] eqn:Hjars; play;
      rewrite Hexists; unfold Disk.glob_jar; rewrite Hentries, Hjars; play;
      match goal with
      | |- context [save_config w ?s] =>
          destruct (Hsaved s) as [s' [tr [Hsave Hdisk]]]; rewrite Hsave
      end; play; rewrite Hdisk; reflexivity.
  - rewrite andb_false_r. play. rewrite Hmkdir. play.
    assert (Hexists : Disk.exists_ fs (PathLib.div (PathLib.parse directory) "plugins")
                      = true).
    { unfold Disk.exists_, Disk.is_dir. now rewrite Hentries. }
    erewrite refresh_in_directory by (cbn; rewrite Hround; exact Hentries).
    unfold imported.
    destruct (List.filter (str_endswith ".jar") entries) as [| jar jars] eqn:Hjars; play;
      rewrite Hexists; unfold Disk.glob_jar; rewrite Hentries, Hjars; play;
      match goal with
      | |- context [save_config w ?s] =>
          destruct (Hsaved s) as [s' [tr [Hsave Hdisk]]]; rewrite Hsave
      end; play; rewrite Hdisk; reflexivity.
Qed.

(** What [save_config] leaves in [self]. *)
Lemma save_config_state w s :
  outcome (save_config w s) = Returned tt
  /\ (forall k, field k (final_state (save_config w s)) = field k s)
  /\ (open_config_error w = None ->
      exists config,
        config_json (final_state (save_config w s)) = ConfigRecord config
        /\ forall k, config !! key_name k = Some (field k s))
  /\ (forall e, In (Did e) (map Did (trace (save_config w s))) -> exists dlg, e = Show dlg).
Proof.
  destruct (open_config_error w) as [e |] eqn:Hopen.
  - rewrite (save_config_failure w s e Hopen).
    split; [reflexivity | split; [reflexivity | split; [discriminate |]]].
    intros e' [[= <-] | []]. eauto.
  - rewrite (save_config_writes w s Hopen).
    split; [reflexivity | split; [intros k; now destruct k | split]].
    + intros _. eexists. split; [reflexivity |]. apply saved_record_lookup.
    + intros e' [[= <-] | []]. eauto.
Qed.

Lemma questions_app acts more : questions (acts ++ more) = questions acts ++ questions more.
Proof. apply omap_app. Qed.

Lemma questions_events tr : questions (map Did tr) = [].
Proof. induction tr as [| e tr IH]; [reflexivity | exact IH]. Qed.

(** The jars that pass the test, up to the first one. *)
Lemma first_server_jar before jar after :
  Forall (fun entry => str_endswith ".jar" entry && is_server_jar entry = false) before ->
  str_endswith ".jar" jar = true ->
  is_server_jar jar = true ->
  List.filter is_server_jar (List.filter (str_endswith ".jar") (before ++ jar :: after))
  = jar :: List.filter is_server_jar (List.filter (str_endswith ".jar") after).
Proof.
  intros Hbefore Hjar Hserver.
  induction Hbefore as [| entry before Hentry Hbefore IH]; cbn [app List.filter].
  - now rewrite Hjar; cbn [List.filter]; rewrite Hserver.
  - destruct (str_endswith ".jar" entry); [| exact IH].
    cbn [andb] in Hentry. cbn [List.filter]. now rewrite Hentry.
Qed.

Lemma no_server_jar entries :
  Forall (fun entry => str_endswith ".jar" entry && is_server_jar entry = false) entries ->
  List.filter is_server_jar (List.filter (str_endswith ".jar") entries) = [].
Proof.
  induction 1 as [| entry entries Hentry Hentries IH]; [reflexivity |]. cbn [List.filter].
  destruct (str_endswith ".jar" entry); [| exact IH].
  cbn [andb] in Hentry. cbn [List.filter]. now rewrite Hentry.
Qed.

(** A path under an absolute directory is written as an absolute path. *)
Lemma path_str_isabs directory name :
  OsPath.isabs directory = true ->
  PathLib.plain_name name = true ->
  OsPath.isabs (path_str (PathLib.div (PathLib.parse directory) name)) = true.
Proof.
  intros Habs Hname. unfold PathLib.div.
  rewrite (PathLibFacts.parse_plain_name name Hname). cbn [PathLib.root PathLib.parts PyStr.truthy].
  unfold path_str, PathLib.parse. cbn [PathLib.root PathLib.parts].
  rewrite PathStrFacts.parse_root_cases.
  destruct directory as [| c1 r1]; [discriminate |].
  unfold OsPath.isabs, OsPath.sep in Habs. cbn [PyStr.startswith] in Habs.
  rewrite Ascii.eqb_sym in Habs. rewrite Habs.
  destruct r1 as [| c2 [| c3 r3]];
    repeat match goal with |- context [(?c =? ?d)%char] => destruct (Ascii.eqb c d) end;
    reflexivity.
Qed.

(** The three paths [import_server_folder] writes in the fields, read again. *)
Lemma imported_paths directory name s :
  PathLib.plain_name name = true ->
  PathLib.parse (server_dir (imported directory name s)) = PathLib.parse directory
  /\ PathLib.entry_of (PathLib.parse directory) name
       (PathLib.parse (server_jar (imported directory name s)))
  /\ PathLib.parse (plugins_dir (imported directory name s))
     = PathLib.div (PathLib.parse directory) "plugins"
  /\ PathLib.entry_of (PathLib.parse directory) "plugins"
       (PathLib.parse (plugins_dir (imported directory name s))).
Proof.
  intros Hname. unfold imported. cbn [server_dir server_jar plugins_dir set_plugins_dir set_server_jar set_server_dir].
  rewrite !PathStrFacts.parse_path_str
    by (repeat apply PathStrFacts.div_well_formed; apply PathStrFacts.parse_well_formed).
  split; [reflexivity | split; [now apply PathLibFacts.div_plain_name | split]];
    [reflexivity | now apply PathLibFacts.div_plain_name].
Qed.

(** [import_server_folder], once a server jar is chosen, when the plugins
    directory cannot be made. *)
Lemma import_fails w directory response d name asked :
  directory <> ""%string ->
  choose_server_jar
    (List.filter is_server_jar (Disk.glob_jar (folders d) (PathLib.parse directory)))
    response d
  = (Returned (Some name), d, asked) ->
  Disk.mkdir_here (folders d) (PathLib.div (PathLib.parse directory) "plugins") = None ->
  import_server_folder w directory response d
  = (Raised (Disk.mkdir_here_failure (folders d)
               (PathLib.div (PathLib.parse directory) "plugins")),
     set_gui (set_server_jar (path_str (PathLib.div (PathLib.parse directory) name)))
       (set_gui (set_server_dir (path_str (PathLib.parse directory))) d),
     asked).
Proof.
  intros Hdirectory Hchoose Hmkdir.
  apply truthy_true in Hdirectory.
  unfold import_server_folder. rewrite Hdirectory. cbn [negb].
  play. rewrite Hchoose. play.
  assert (Hdir : Disk.is_dir (folders d) (PathLib.div (PathLib.parse directory) "plugins")
                 = false).
  { unfold Disk.mkdir_here in Hmkdir.
    destruct (Disk.is_dir (folders d) (PathLib.div (PathLib.parse directory) "plugins"));
      [discriminate | reflexivity]. }
  rewrite Hdir, andb_false_r. play. rewrite Hmkdir. play.
  now rewrite app_nil_r.
Qed.

(** X26: [import_server_folder] on a folder that holds a server jar. The
    jar taken is the first entry of the folder, in the order the system lists
    them, that ends in [.jar] and has [server], [paper], [spigot], [bukkit] or
    [purpur] in its name; no question is asked. The three fields then name the
    folder, that jar in it and its [plugins] directory, which is there
    afterwards; with an absolute folder [run_server] looks for the jar where
    it is; and when the file can be opened the configuration saved holds the
    new fields. *)
Theorem import_takes_first_server_jar w directory response d before jar after fs :
  directory <> ""%string ->
  folders d (PathLib.parse directory) = Some (before ++ jar :: after) ->
  Forall (fun entry => str_endswith ".jar" entry && is_server_jar entry = false) before ->
  str_endswith ".jar" jar = true ->
  is_server_jar jar = true ->
  PathLib.plain_name jar = true ->
  Disk.mkdir_here (folders d) (PathLib.div (PathLib.parse directory) "plugins") = Some fs ->
  result_of (import_server_folder w directory response d) = Returned tt
  /\ questions (actions (import_server_folder w directory response d)) = []
  /\ PathLib.parse
       (server_dir (self (desktop_after (import_server_folder w directory response d))))
     = PathLib.parse directory
  /\ PathLib.entry_of (PathLib.parse directory) jar
       (PathLib.parse
          (server_jar (self (desktop_after (import_server_folder w directory response d)))))
  /\ PathLib.entry_of (PathLib.parse directory) "plugins"
       (PathLib.parse
          (plugins_dir (self (desktop_after (import_server_folder w directory response d)))))
  /\ Disk.is_dir (folders (desktop_after (import_server_folder w directory response d)))
       (PathLib.parse
          (plugins_dir (self (desktop_after (import_server_folder w directory response d)))))
     = true
  /\ (OsPath.isabs directory = true ->
      jar_path_of (self (desktop_after (import_server_folder w directory response d)))
      = server_jar (self (desktop_after (import_server_folder w directory response d))))
  /\ (open_config_error w = None ->
      exists config,
        config_json (self (desktop_after (import_server_folder w directory response d)))
        = ConfigRecord config
        /\ forall k,
             config !! key_name k
             = Some (field k
                       (self (desktop_after (import_server_folder w directory response d))))).
Proof.
  intros Hdirectory Hfolder Hbefore Hjar Hserver Hplain Hmkdir.
  assert (Hchoose :
    choose_server_jar
      (List.filter is_server_jar (Disk.glob_jar (folders d) (PathLib.parse directory)))
      response d
    = (Returned (Some jar), d, [])).
  { unfold Disk.glob_jar. rewrite Hfolder, (first_server_jar _ _ _ Hbefore Hjar Hserver).
    reflexivity. }
  destruct (mkdir_here_is_dir _ _ _ Hmkdir) as [plugins Hplugins].
  rewrite (import_run w directory response d jar [] fs plugins
             Hdirectory Hchoose Hmkdir Hplugins).
  unfold result_of, desktop_after, actions. cbn [fst snd self folders].
  destruct (save_config_state w (imported directory jar (self d)))
    as [_ [Hfields [Hrecord _]]].
  destruct (imported_paths directory jar (self d) Hplain) as [Hsd [Hsj [Hpd Hpe]]].
  pose proof (Hfields ServerDir) as Hfsd. pose proof (Hfields ServerJar) as Hfsj.
  pose proof (Hfields PluginsDir) as Hfpd. cbn [field] in Hfsd, Hfsj, Hfpd.
  rewrite Hfsd, Hfsj, Hfpd.
  split; [reflexivity | split].
  { rewrite !questions_app, questions_events.
    now destruct (List.filter (str_endswith ".jar") plugins). }
  split; [exact Hsd | split; [exact Hsj | split; [exact Hpe | split]]].
  { rewrite Hpd. unfold Disk.is_dir. now rewrite Hplugins. }
  split.
  - intros Habs. unfold jar_path_of. rewrite Hfsj. unfold imported at 1 2.
    cbn [server_jar set_plugins_dir set_server_jar].
    now rewrite (path_str_isabs directory jar Habs Hplain).
  - intros Hopen. destruct (Hrecord Hopen) as [config [Hconfig Hlookup]].
    exists config. split; [exact Hconfig |]. intros k. now rewrite Hlookup, Hfields.
Qed.

Lemma import_takes_first_server_jar_witness :
  PathLib.parse
    (server_jar
       (self
          (desktop_after
             (import_server_folder Example.nothing "/srv/minecraft" false
                (Stage.in_folder ["eula.txt"; "worldedit.jar"; "Paper-1.21.4.jar";
                                  "server.jar"]%string)))))
  = PathLib.parse "/srv/minecraft/Paper-1.21.4.jar".
Proof.
  pose proof (import_takes_first_server_jar Example.nothing "/srv/minecraft" false
                (Stage.in_folder ["eula.txt"; "worldedit.jar"; "Paper-1.21.4.jar";
                                  "server.jar"]%string)
                ["eula.txt"; "worldedit.jar"]%string "Paper-1.21.4.jar"
                ["server.jar"]%string _
                ltac:(discriminate) eq_refl
                ltac:(repeat constructor) eq_refl eq_refl eq_refl eq_refl)
    as [_ [_ [_ [[Hroot Hparts] _]]]].
  destruct (PathLib.parse (server_jar _)) as [r names]. cbn in Hroot, Hparts.
  now rewrite Hroot, Hparts.
Defined.

(** X27: [import_server_folder] on a folder without a server jar, or closed
    without a choice. With no folder chosen nothing happens. With a folder in
    which no entry passes the test the user is asked; on a no nothing
    changes, and on a yes the folder is imported under the name [server.jar],
    whether or not there is such a file. *)
Theorem import_without_server_jar w directory d :
  (forall entries,
     folders d (PathLib.parse directory) = Some entries ->
     Forall (fun entry => str_endswith ".jar" entry && is_server_jar entry = false) entries) ->
  (forall response, import_server_folder w "" response d = (Returned tt, d, []))
  /\ (directory <> ""%string ->
      import_server_folder w directory false d
      = (Returned tt, d, [Asked NoServerJarFound false]))
  /\ (forall fs,
        directory <> ""%string ->
        Disk.mkdir_here (folders d) (PathLib.div (PathLib.parse directory) "plugins")
        = Some fs ->
        result_of (import_server_folder w directory true d) = Returned tt
        /\ questions (actions (import_server_folder w directory true d))
           = [NoServerJarFound]
        /\ PathLib.entry_of (PathLib.parse directory) "server.jar"
             (PathLib.parse
                (server_jar (self (desktop_after (import_server_folder w directory true d)))))
        /\ folders (desktop_after (import_server_folder w directory true d)) = fs).
Proof.
  intros Hnone.
  assert (Hjars : List.filter is_server_jar
                    (Disk.glob_jar (folders d) (PathLib.parse directory)) = []).
  { unfold Disk.glob_jar.
    destruct (folders d (PathLib.parse directory)) as [entries |] eqn:Hfolder;
      [| reflexivity].
    apply no_server_jar, Hnone. reflexivity. }
  split; [reflexivity | split].
  - intros Hdirectory. apply truthy_true in Hdirectory.
    unfold import_server_folder. rewrite Hdirectory. play. rewrite Hjars. reflexivity.
  - intros fs Hdirectory Hmkdir.
    assert (Hchoose :
      choose_server_jar
        (List.filter is_server_jar (Disk.glob_jar (folders d) (PathLib.parse directory)))
        true d
      = (Returned (Some "server.jar"%string), d, [Asked NoServerJarFound true])).
    { now rewrite Hjars. }
    destruct (mkdir_here_is_dir _ _ _ Hmkdir) as [plugins Hplugins].
    rewrite (import_run w directory true d "server.jar" _ fs plugins
               Hdirectory Hchoose Hmkdir Hplugins).
    unfold result_of, desktop_after, actions. cbn [fst snd self folders].
    destruct (save_config_state w (imported directory "server.jar" (self d)))
      as [_ [Hfields _]].
    destruct (imported_paths directory "server.jar" (self d) eq_refl) as [_ [Hsj _]].
    pose proof (Hfields ServerJar) as Hfsj. cbn [field] in Hfsj. rewrite Hfsj.
    split; [reflexivity | split; [| split; [exact Hsj | reflexivity]]].
    rewrite !questions_app, questions_events.
    now destruct (List.filter (str_endswith ".jar") plugins).
Qed.

Lemma import_without_server_jar_witness :
  import_server_folder Example.nothing "/srv/minecraft" false
    (Stage.in_folder ["eula.txt"; "worldedit.jar"]%string)
  = (Returned tt, Stage.in_folder ["eula.txt"; "worldedit.jar"]%string,
     [Asked NoServerJarFound false]).
Proof.
  refine (proj1 (proj2 (import_without_server_jar Example.nothing "/srv/minecraft"
                          (Stage.in_folder ["eula.txt"; "worldedit.jar"]%string) _)) _).
  - intros entries [= <-]. repeat constructor.
  - discriminate.
Defined.



(** X29: the three choices of the browse buttons. A dialog closed without
    a choice changes nothing. A server directory chosen becomes [server_dir],
    and [plugins_dir] then names its [plugins] entry, the same directory
    [import_server_folder] would take; a server jar given by a relative name
    is from then on looked for in the chosen directory. The list of installed
    plugins is not read again. *)
Theorem browse_server_dir_moves_plugins directory d :
  directory <> ""%string ->
  result_of (browse_server_dir directory d) = Returned tt
  /\ server_dir (self (desktop_after (browse_server_dir directory d))) = directory
  /\ PathLib.entry_of (PathLib.parse directory) "plugins"
       (PathLib.parse (plugins_dir (self (desktop_after (browse_server_dir directory d)))))
  /\ (forall name,
        PathLib.parse (plugins_dir (self (desktop_after (browse_server_dir directory d))))
        = PathLib.parse (plugins_dir (imported directory name (self d))))
  /\ (OsPath.isabs (server_jar (self d)) = false ->
      jar_path_of (self (desktop_after (browse_server_dir directory d)))
      = OsPath.join directory (server_jar (self d)))
  /\ installed_plugins_listbox (desktop_after (browse_server_dir directory d))
     = installed_plugins_listbox d
  /\ browse_server_dir "" d = (Returned tt, d, [])
  /\ browse_jar "" d = (Returned tt, d, [])
  /\ browse_plugins_dir "" d = (Returned tt, d, []).
Proof.
  intros Hdirectory.
  pose proof (JoinFacts.parse_join directory "plugins" Hdirectory eq_refl) as Hjoin.
  apply truthy_true in Hdirectory.
  unfold browse_server_dir. rewrite Hdirectory. play.
  split; [reflexivity | split; [reflexivity | split]].
  { rewrite Hjoin. now apply PathLibFacts.div_plain_name. }
  split.
  { intros name. rewrite Hjoin. unfold imported. cbn [plugins_dir set_plugins_dir].
    symmetry. apply PathStrFacts.parse_path_str, PathStrFacts.div_well_formed,
      PathStrFacts.parse_well_formed. }
  split.
  { intros Hrel. unfold jar_path_of. cbn [server_jar server_dir set_plugins_dir set_server_dir].
    now rewrite Hrel. }
  repeat split.
Qed.

Lemma browse_server_dir_moves_plugins_witness :
  server_dir
    (self (desktop_after
             (browse_server_dir "/home/mc/survival" (Stage.around (init Example.nothing)))))
  = "/home/mc/survival"%string.
Proof.
  refine (proj1 (proj2 (browse_server_dir_moves_plugins "/home/mc/survival"
                          (Stage.around (init Example.nothing)) _))).
  discriminate.
Defined.
